(** * trade-tracker-web: the account ledger, its sessions and its handlers

    A shallow embedding of [models.py], [database.py] and [main.py].

    - Python [int] is [Z]; [str] is [string] (the UTF-8 bytes of the text).
    - A naive [datetime] is the number of microseconds since an arbitrary
      epoch, a [Z]; [datetime.now()] is an argument of every function that
      reads the clock.  [fromisoformat (isoformat t) = t], so the ISO text
      kept in [login_time] and [created_time] is represented by [t] itself.
    - The dicts held by [db.accounts] are Python objects: the list holds
      references, and [list.copy()] copies the references, not the dicts.
      The object store is explicit ([heap]), a reference is an index in it.
    - [db.sessions] is a [gmap] from the cookie value to the session.
    - The two JSON documents are the values last dumped into them, with a
      count of the [save_data] calls that rewrote them.  [json.dump] fails
      on an integer of more than 4300 digits and then leaves the accounts
      document cut short.
    - Handlers run in a state monad whose result is either a response or a
      raised exception; what was mutated before a [raise] stays mutated. *)

From Stdlib Require Import ZArith NArith String Ascii List Bool Lia.
From stdpp Require Import base option list gmap strings fin_maps.

Local Open Scope string_scope.
Local Open Scope Z_scope.

(* ===================================================================== *)
(** ** Python built-ins used by the program *)
(* ===================================================================== *)

Module py.

Inductive Exn :=
| HTTPException (status_code : Z) (detail : string)
| IndexError
| KeyError (key : string)
| ValueError.

(** [sum(l)]: a left fold from [0]. *)
Definition sum (l : list Z) : Z := foldl Z.add 0 l.

(** Normalisation of a list index: a negative index counts from the end. *)
Definition norm_index {A} (l : list A) (i : Z) : Z :=
  if i <? 0 then i + Z.of_nat (length l) else i.

(** [l[i]] *)
Definition getitem {A} (l : list A) (i : Z) : Exn + A :=
  let j := norm_index l i in
  if j <? 0 then inl IndexError
  else match l !! Z.to_nat j with
       | Some x => inr x
       | None => inl IndexError
       end.

(** [l[i] = x] *)
Definition setitem {A} (l : list A) (i : Z) (x : A) : Exn + list A :=
  let j := norm_index l i in
  if (j <? 0) || (Z.of_nat (length l) <=? j) then inl IndexError
  else inr (<[Z.to_nat j := x]> l).

(** [l.pop(i)]: the list without its [i]-th element. *)
Definition pop {A} (l : list A) (i : Z) : Exn + list A :=
  let j := norm_index l i in
  if (j <? 0) || (Z.of_nat (length l) <=? j) then inl IndexError
  else inr (delete (Z.to_nat j) l).

(** [d[k]] on a dict. *)
Definition dict_getitem {V} (d : gmap string V) (k : string) : Exn + V :=
  match d !! k with
  | Some v => inr v
  | None => inl (KeyError k)
  end.

(** *** [str(n)] for an integer

    CPython refuses to convert an integer of more than
    [sys.get_int_max_str_digits()] decimal digits, 4300 unless configured
    otherwise, and raises [ValueError]. *)
Definition int_max_str_digits : Z := 4300.

(** The least integer with too many digits, [10 ^ 4300]. *)
Definition int_limit : Z := Eval vm_compute in 10 ^ int_max_str_digits.

(** [str(n)] returns. *)
Definition str_int (n : Z) : bool := Z.abs n <? int_limit.

(** [timedelta(hours=h)] in microseconds. *)
Definition timedelta_hours (h : Z) : Z := h * 3600 * 1000000.
Definition timedelta_minutes (m : Z) : Z := m * 60 * 1000000.

(** *** [str.strip()]

    The characters for which [str.isspace] holds, in UTF-8. *)
Fixpoint bytes (l : list nat) : string :=
  match l with
  | nil => EmptyString
  | b :: l' => String (ascii_of_nat b) (bytes l')
  end.

Definition whitespace : list string :=
  map bytes
    [ [9]; [10]; [11]; [12]; [13]; [28]; [29]; [30]; [31]; [32];
      [194; 133]; [194; 160]; [225; 154; 128];
      [226; 128; 128]; [226; 128; 129]; [226; 128; 130]; [226; 128; 131];
      [226; 128; 132]; [226; 128; 133]; [226; 128; 134]; [226; 128; 135];
      [226; 128; 136]; [226; 128; 137]; [226; 128; 138];
      [226; 128; 168]; [226; 128; 169]; [226; 128; 175];
      [226; 129; 159]; [227; 128; 128] ]%nat.

(** Length of the white-space character [s] starts with, [0] if none. *)
Definition space_prefix (ws : list string) (s : string) : nat :=
  match List.find (fun w => String.prefix w s) ws with
  | Some w => String.length w
  | None => 0%nat
  end.

(** Drops leading white space; [skip] counts the bytes of the character
    being dropped. *)
Fixpoint lstrip_with (ws : list string) (skip : nat) (s : string)
  {struct s} : string :=
  match skip, s with
  | S k, String _ s' => lstrip_with ws k s'
  | S _, EmptyString => EmptyString
  | O, EmptyString => EmptyString
  | O, String _ s' =>
      match space_prefix ws s with
      | O => s
      | S k => lstrip_with ws k s'
      end
  end.

Definition lstrip (s : string) : string := lstrip_with whitespace 0 s.

Definition rstrip (s : string) : string :=
  String.rev (lstrip_with (map String.rev whitespace) 0 (String.rev s)).

Definition strip (s : string) : string := rstrip (lstrip s).

(** *** [str(uuid.uuid4())]

    A UUID is a 128-bit number; its text is 32 lower-case hexadecimal
    digits grouped 8-4-4-4-12. *)
Definition hex_digit (n : N) : ascii :=
  match n with
  | 0 => "0" | 1 => "1" | 2 => "2" | 3 => "3" | 4 => "4" | 5 => "5"
  | 6 => "6" | 7 => "7" | 8 => "8" | 9 => "9" | 10 => "a" | 11 => "b"
  | 12 => "c" | 13 => "d" | 14 => "e" | _ => "f"
  end%N%char.

(** The [k] low digits of [v], most significant first, in front of [acc]. *)
Fixpoint hex (k : nat) (v : N) (acc : string) : string :=
  match k with
  | O => acc
  | S k' => hex k' (N.shiftr v 4) (String (hex_digit (N.land v 15)) acc)
  end.

Definition str_uuid (u : N) : string :=
  hex 8 (N.shiftr u 96)
    (String "-" (hex 4 (N.shiftr u 80)
       (String "-" (hex 4 (N.shiftr u 64)
          (String "-" (hex 4 (N.shiftr u 48)
             (String "-" (hex 12 u EmptyString)))))))).

End py.

(* ===================================================================== *)
(** ** models.py *)
(* ===================================================================== *)

Module models.

Record AccountRecord := {
  account_code : string;
  account_name : string;
  total_amount : Z;
  manager : string;
  created_time : Z;
  paid_amounts : list Z;
  locked : bool
}.

Record UserSession := {
  username : string;
  is_viewer : bool;
  login_time : Z
}.

Definition ACCOUNT_MAPPING : gmap string string :=
  list_to_map
    [ ("1243", "泰康资产XX年金");
      ("1001", "平安保险养老金");
      ("1002", "国寿投资专户");
      ("1003", "太保资管组合");
      ("1004", "新华保险投资户");
      ("1005", "人保资产专项");
      ("1006", "太平养老组合");
      ("1007", "华泰资产产品");
      ("1008", "安邦保险投资") ].

End models.
Export models.

(* ===================================================================== *)
(** ** database.py *)
(* ===================================================================== *)

Module database.

(** A dict of [db.accounts]: the seven keys of [AccountRecord.dict()],
    and the key ['remaining_amount'] when it has been set. *)
Record Dict := {
  fields : AccountRecord;
  remaining_amount : option Z
}.

(** A reference to a dict: its index in the object store. *)
Abbreviation ref := nat (only parsing).

Global Instance Dict_inhabited : Inhabited Dict :=
  populate {| fields := {| account_code := ""; account_name := "";
                           total_amount := 0; manager := "";
                           created_time := 0; paid_amounts := [];
                           locked := false |};
              remaining_amount := None |}.

(** What [open] and [json.load] give for a file: no file, a file on which
    [json.load] (or the rest of the [try] block of [load_data]) raises, or
    the parsed document. *)
Inductive Document (A : Type) :=
| Missing
| Unreadable
| Parsed (content : A).
Arguments Missing {A}.
Arguments Unreadable {A}.
Arguments Parsed {A} content.

(** The process: the objects, the global [db] and the two files.  The
    accounts file is missing, holds a complete dump, or was cut short by a
    dump that failed; the sessions file is missing or holds a complete
    dump. *)
Record State := {
  heap : list Dict;
  accounts : list ref;
  sessions : gmap string UserSession;
  DATA_FILE : Document (list Dict);
  SESSIONS_FILE : option (gmap string UserSession);
  saves : nat
}.

(** The dict a reference denotes.  A Python list only holds references to
    live objects; the default value is never read in such a state. *)
Definition deref (s : State) (r : ref) : Dict := heap s !!! r.

Definition set_heap (h : list Dict) (s : State) : State :=
  {| heap := h; accounts := accounts s; sessions := sessions s;
     DATA_FILE := DATA_FILE s; SESSIONS_FILE := SESSIONS_FILE s;
     saves := saves s |}.

Definition set_accounts (a : list ref) (s : State) : State :=
  {| heap := heap s; accounts := a; sessions := sessions s;
     DATA_FILE := DATA_FILE s; SESSIONS_FILE := SESSIONS_FILE s;
     saves := saves s |}.

Definition set_sessions (m : gmap string UserSession) (s : State) : State :=
  {| heap := heap s; accounts := accounts s; sessions := m;
     DATA_FILE := DATA_FILE s; SESSIONS_FILE := SESSIONS_FILE s;
     saves := saves s |}.

(** *** The monad of the program *)

Definition M (A : Type) : Type := State → (py.Exn + A) * State.

Global Instance M_ret : MRet M := λ A a s, (inr a, s).

Global Instance M_bind : MBind M := λ A B k m s,
  match m s with
  | (inr a, s') => k a s'
  | (inl e, s') => (inl e, s')
  end.

Definition raise {A} (e : py.Exn) : M A := λ s, (inl e, s).
Definition get : M State := λ s, (inr s, s).
Definition modify (f : State → State) : M unit := λ s, (inr tt, f s).
Definition lift {A} (r : py.Exn + A) : M A := λ s, (r, s).

(** *** Updates of a dict in place *)

(** [account['remaining_amount'] = account['total_amount'] - total_paid] *)
Definition set_remaining (d : Dict) : Dict :=
  let total_paid := py.sum (paid_amounts (fields d)) in
  {| fields := fields d;
     remaining_amount := Some (total_amount (fields d) - total_paid) |}.

(** [account['paid_amounts'].append(amount)] *)
Definition append_paid (amount : Z) (d : Dict) : Dict :=
  let a := fields d in
  {| fields := {| account_code := account_code a;
                  account_name := account_name a;
                  total_amount := total_amount a;
                  manager := manager a;
                  created_time := created_time a;
                  paid_amounts := paid_amounts a ++ [amount];
                  locked := locked a |};
     remaining_amount := remaining_amount d |}.

(** [account['locked'] = locked] *)
Definition set_locked (b : bool) (d : Dict) : Dict :=
  let a := fields d in
  {| fields := {| account_code := account_code a;
                  account_name := account_name a;
                  total_amount := total_amount a;
                  manager := manager a;
                  created_time := created_time a;
                  paid_amounts := paid_amounts a;
                  locked := b |};
     remaining_amount := remaining_amount d |}.

(** [account.dict()]: a new dict with the model's keys. *)
Definition dict (account : AccountRecord) : Dict :=
  {| fields := account; remaining_amount := None |}.

(** *** Database *)

(** [Database()] when neither file exists: [load_data] finds nothing. *)
Definition empty_store : State :=
  {| heap := []; accounts := []; sessions := ∅;
     DATA_FILE := Missing; SESSIONS_FILE := None; saves := 0 |}.

(** [json.dump] can write the dict: none of its integers has more than
    4300 digits.  (The sessions hold no integer.) *)
Definition json_dumps (d : Dict) : bool :=
  py.str_int (total_amount (fields d))
  && forallb py.str_int (paid_amounts (fields d))
  && from_option py.str_int true (remaining_amount d).

(** [json.dump] writes the dicts as they are at that moment.  The file is
    opened for writing and the document is written piece by piece: when a
    dict cannot be written, [ValueError] leaves [save_data] with the
    accounts file cut short and the sessions file as it was. *)
Definition save_data : M unit :=
  s ← get;
  if forallb json_dumps (deref s <$> accounts s) then
    modify (λ s,
      {| heap := heap s; accounts := accounts s; sessions := sessions s;
         DATA_FILE := Parsed (deref s <$> accounts s);
         SESSIONS_FILE := Some (sessions s);
         saves := S (saves s) |})
  else
    modify (λ s,
      {| heap := heap s; accounts := accounts s; sessions := sessions s;
         DATA_FILE := Unreadable;
         SESSIONS_FILE := SESSIONS_FILE s;
         saves := saves s |});;
    raise py.ValueError.

(** The loop of [get_all_accounts] over the copied list. *)
Definition compute_remaining (accounts : list ref) (h : list Dict)
  : list Dict :=
  foldl (λ h account, alter set_remaining account h) h accounts.

Definition get_all_accounts : M (list ref) :=
  s ← get;
  let accounts := accounts s in
  modify (set_heap (compute_remaining accounts (heap s)));;
  mret accounts.

Definition add_account (account : AccountRecord) : M unit :=
  s ← get;
  let account_dict := length (heap s) in
  modify (set_heap (heap s ++ [dict account]));;
  modify (λ s, set_accounts (accounts s ++ [account_dict]) s);;
  save_data.

Definition in_range (index : Z) (s : State) : bool :=
  (0 <=? index) && (index <? Z.of_nat (length (accounts s))).

Definition update_account (index : Z) (account_data : ref) : M unit :=
  s ← get;
  if in_range index s then
    accounts' ← lift (py.setitem (accounts s) index account_data);
    modify (set_accounts accounts');;
    save_data
  else mret tt.

Definition delete_account (index : Z) : M unit :=
  s ← get;
  if in_range index s then
    accounts' ← lift (py.pop (accounts s) index);
    modify (set_accounts accounts');;
    save_data
  else mret tt.

Definition add_paid_amount (index : Z) (amount : Z) : M unit :=
  s ← get;
  if in_range index s then
    account ← lift (py.getitem (accounts s) index);
    modify (set_heap (alter (append_paid amount) account (heap s)));;
    save_data
  else mret tt.

Definition toggle_lock (index : Z) (locked : bool) : M unit :=
  s ← get;
  if in_range index s then
    account ← lift (py.getitem (accounts s) index);
    modify (set_heap (alter (set_locked locked) account (heap s)));;
    save_data
  else mret tt.

Definition expired (current_time : Z) (session : UserSession) : bool :=
  py.timedelta_hours 24 <=? current_time - login_time session.

Definition cleanup_expired_sessions (current_time : Z) : M unit :=
  s ← get;
  let expired_sessions :=
    (map_to_list (filter (λ kv, expired current_time kv.2 = true)
                         (sessions s))).*1 in
  modify (λ s, set_sessions (foldr delete (sessions s) expired_sessions) s);;
  if bool_decide (expired_sessions = []) then mret tt else save_data.

(** *** Start-up

    For [load_data] the accounts document is a JSON object with or without
    the key ['accounts'], and the sessions document maps tokens to
    sessions.  A document that parses and passes the [try] block with
    entries of another shape than [save_data] writes is outside the
    model. *)

(** [load_data].  The dicts [json.load] builds are new objects.  The clock
    is read once for every session of the document: [now sid] is the
    reading taken for the session stored under [sid]. *)
Definition load_data (data : Document (option (list Dict)))
  (sessions_data : Document (gmap string UserSession)) (now : string → Z)
  : M unit :=
  match data with
  | Missing => mret tt
  | Unreadable => modify (set_accounts [])
  | Parsed data =>
      s ← get;
      let loaded := default [] data in
      modify (set_heap (heap s ++ loaded));;
      modify (set_accounts (seq (length (heap s)) (length loaded)))
  end;;
  match sessions_data with
  | Missing => mret tt
  | Unreadable => modify (set_sessions ∅)
  | Parsed sessions_data =>
      modify (set_sessions
                (filter (λ kv, (now kv.1 - login_time kv.2
                                <? py.timedelta_hours 24) = true)
                        sessions_data))
  end.

(** [Database.__init__]: two empty collections, then [load_data]. *)
Definition __init__ (data : Document (option (list Dict)))
  (sessions_data : Document (gmap string UserSession)) (now : string → Z)
  : M unit :=
  modify (set_accounts []);;
  modify (set_sessions ∅);;
  load_data data sessions_data now.

End database.
Export database.

(* ===================================================================== *)
(** ** main.py *)
(* ===================================================================== *)

Module main.

Inductive Cookie :=
| NoCookie
| SetCookie (key value : string) (httponly : bool) (max_age : Z)
| DeleteCookie (key : string).

(** A response is what the handler builds it from: for a template, the
    name of the template and the context handed to it.  The templates are
    not part of the sources and what they print is not modelled. *)
Inductive Context :=
| LoginPage (error : option string)
| IndexPage (session : UserSession) (accounts : list Dict)
            (account_mapping : gmap string string).

Inductive Response :=
| TemplateResponse (name : string) (context : Context) (cookie : Cookie)
| RedirectResponse (url : string) (status_code : Z) (cookie : Cookie)
| JSONResponse (account_name : string).

(** The user name of every viewer session. *)
Definition VIEWER : string := "浏览者".

Definition get_session (session_id : option string) (now : Z)
  : M (option UserSession) :=
  s ← get;
  match session_id with
  | Some sid =>
      if bool_decide (sid ≠ "") && bool_decide (is_Some (sessions s !! sid))
      then
        session ← lift (py.dict_getitem (sessions s) sid);
        if now - login_time session <? py.timedelta_hours 24 then
          mret (Some session)
        else
          modify (λ s, set_sessions (delete sid (sessions s)) s);;
          save_data;;
          mret None
      else mret None
  | None => mret None
  end.

Definition index (session_id : option string) (now_cleanup now : Z)
  : M Response :=
  cleanup_expired_sessions now_cleanup;;
  session ← get_session session_id now;
  match session with
  | None =>
      mret (TemplateResponse "login.html" (LoginPage None)
              (DeleteCookie "session_id"))
  | Some session =>
      accounts ← get_all_accounts;
      s ← get;
      mret (TemplateResponse "index.html"
              (IndexPage session (deref s <$> accounts) ACCOUNT_MAPPING)
              NoCookie)
  end.

Definition login (uuid4 : N) (username : string) (viewer_mode : bool)
  (now : Z) : M Response :=
  let session_id := py.str_uuid uuid4 in
  let store session :=
    modify (λ s, set_sessions (<[session_id := session]> (sessions s)) s);;
    save_data;;
    mret (RedirectResponse "/" 303
            (SetCookie "session_id" session_id true (24 * 60 * 60))) in
  if viewer_mode then
    store {| username := VIEWER; is_viewer := true; login_time := now |}
  else if bool_decide (py.strip username = "") then
    mret (TemplateResponse "login.html" (LoginPage (Some "请输入用户名"))
            NoCookie)
  else
    store {| username := py.strip username; is_viewer := false;
             login_time := now |}.

Definition logout (session_id : option string) : M Response :=
  s ← get;
  match session_id with
  | Some sid =>
      if bool_decide (sid ≠ "") && bool_decide (is_Some (sessions s !! sid))
      then
        modify (λ s, set_sessions (delete sid (sessions s)) s);;
        save_data
      else mret tt
  | None => mret tt
  end;;
  mret (RedirectResponse "/" 303 (DeleteCookie "session_id")).

Definition add_account (account_code : string) (total_amount : Z)
  (session_id : option string) (now now_created : Z) : M Response :=
  session ← get_session session_id now;
  match session with
  | None => raise (py.HTTPException 403 "浏览模式无法添加账户")
  | Some session =>
      if is_viewer session then
        raise (py.HTTPException 403 "浏览模式无法添加账户")
      else if bool_decide (ACCOUNT_MAPPING !! account_code = None) then
        raise (py.HTTPException 400 "无效的账户编码")
      else
        name ← lift (py.dict_getitem ACCOUNT_MAPPING account_code);
        let account :=
          {| account_code := account_code;
             account_name := name;
             total_amount := total_amount;
             manager := username session;
             created_time := now_created;
             paid_amounts := [];
             locked := false |} in
        database.add_account account;;
        mret (RedirectResponse "/" 303 NoCookie)
  end.

Definition add_payment (account_index : Z) (amount : Z)
  (session_id : option string) (now : Z) : M Response :=
  session ← get_session session_id now;
  match session with
  | None => raise (py.HTTPException 403 "未登录")
  | Some session =>
      accounts ← get_all_accounts;
      if (account_index <? 0)
         || (account_index >=? Z.of_nat (length accounts))
      then raise (py.HTTPException 404 "账户不存在")
      else
        account ← lift (py.getitem accounts account_index);
        s ← get;
        let account := fields (deref s account) in
        if locked account
           && negb (bool_decide (manager account = username session))
        then raise (py.HTTPException 403 "账户已被锁定")
        else
          let total_paid := py.sum (paid_amounts account) in
          let remaining := models.total_amount account - total_paid in
          if amount >? remaining then
            raise (py.HTTPException 400 "支付金额超过剩余金额")
          else
            add_paid_amount account_index amount;;
            mret (RedirectResponse "/" 303 NoCookie)
  end.

Definition toggle_lock (account_index : Z) (session_id : option string)
  (now : Z) : M Response :=
  session ← get_session session_id now;
  match session with
  | None => raise (py.HTTPException 403 "未登录")
  | Some session =>
      accounts ← get_all_accounts;
      if (account_index <? 0)
         || (account_index >=? Z.of_nat (length accounts))
      then raise (py.HTTPException 404 "账户不存在")
      else
        account ← lift (py.getitem accounts account_index);
        s ← get;
        let account := fields (deref s account) in
        if negb (bool_decide (manager account = username session)) then
          raise (py.HTTPException 403 "只能操作自己的账户")
        else
          let new_lock_state := negb (locked account) in
          database.toggle_lock account_index new_lock_state;;
          mret (RedirectResponse "/" 303 NoCookie)
  end.

Definition delete_account (account_index : Z) (session_id : option string)
  (now : Z) : M Response :=
  session ← get_session session_id now;
  match session with
  | None => raise (py.HTTPException 403 "未登录")
  | Some session =>
      accounts ← get_all_accounts;
      if (account_index <? 0)
         || (account_index >=? Z.of_nat (length accounts))
      then raise (py.HTTPException 404 "账户不存在")
      else
        account ← lift (py.getitem accounts account_index);
        s ← get;
        let account := fields (deref s account) in
        if negb (bool_decide (manager account = username session))
           && negb (is_viewer session)
        then raise (py.HTTPException 403 "只能删除自己的账户")
        else
          database.delete_account account_index;;
          mret (RedirectResponse "/" 303 NoCookie)
  end.

Definition get_account_name (account_code : string) : M Response :=
  match ACCOUNT_MAPPING !! account_code with
  | Some name => mret (JSONResponse name)
  | None => raise (py.HTTPException 404 "账户编码不存在")
  end.

(** *** The requests the application serves *)

Inductive Request :=
| GET_index (session_id : option string) (now_cleanup now : Z)
| POST_login (uuid4 : N) (username : string) (viewer_mode : bool) (now : Z)
| POST_logout (session_id : option string)
| POST_add_account (account_code : string) (total_amount : Z)
    (session_id : option string) (now now_created : Z)
| POST_add_payment (account_index amount : Z) (session_id : option string)
    (now : Z)
| POST_toggle_lock (account_index : Z) (session_id : option string)
    (now : Z)
| POST_delete_account (account_index : Z) (session_id : option string)
    (now : Z)
| GET_get_account_name (account_code : string).

Definition handle (r : Request) : M Response :=
  match r with
  | GET_index sid t0 t => index sid t0 t
  | POST_login u name v t => login u name v t
  | POST_logout sid => logout sid
  | POST_add_account c a sid t t' => add_account c a sid t t'
  | POST_add_payment i a sid t => add_payment i a sid t
  | POST_toggle_lock i sid t => toggle_lock i sid t
  | POST_delete_account i sid t => delete_account i sid t
  | GET_get_account_name c => get_account_name c
  end.

(** The state after serving the requests one after the other. *)
Definition run (rs : list Request) (s : State) : State :=
  foldl (λ s r, (handle r s).2) s rs.

(** The outcomes of the requests, in order. *)
Fixpoint responses (rs : list Request) (s : State)
  : list (py.Exn + Response) :=
  match rs with
  | [] => []
  | r :: rs' => (handle r s).1 :: responses rs' (handle r s).2
  end.

End main.

(** The dicts [db.accounts] holds, in order. *)
Definition stored (s : State) : list Dict := deref s <$> accounts s.

(** Every reference of [db.accounts] denotes an object, and no dict is in
    the list twice. *)
Definition well_formed (s : State) : Prop :=
  Forall (λ r, r < length (heap s))%nat (accounts s) ∧ NoDup (accounts s).

(** The primitive effects the handlers are made of.  An effect records what
    the code has checked before performing it. *)
Inductive mutation : State → State → Prop :=
| mut_save s :
    mutation s (save_data s).2
| mut_listing s :
    mutation s (set_heap (compute_remaining (accounts s) (heap s)) s)
| mut_del_session s sid :
    mutation s (set_sessions (delete sid (sessions s)) s)
| mut_new_session s u session :
    (is_viewer session = true → username session = main.VIEWER) →
    mutation s (set_sessions (<[py.str_uuid u := session]> (sessions s)) s)
| mut_new_account s account :
    paid_amounts account = [] →
    mutation s (set_accounts (accounts s ++ [length (heap s)])
                  (set_heap (heap s ++ [dict account]) s))
| mut_pop s i :
    mutation s (set_accounts (delete i (accounts s)) s)
| mut_pay s r amount :
    r ∈ accounts s →
    amount ≤ total_amount (fields (deref s r))
             - py.sum (paid_amounts (fields (deref s r))) →
    mutation s (set_heap (alter (append_paid amount) r (heap s)) s)
| mut_lock s r b :
    r ∈ accounts s →
    mutation s (set_heap (alter (set_locked b) r (heap s)) s).

(* ===================================================================== *)
(** ** Vocabulary of the statements *)
(* ===================================================================== *)

(** Exposes the state passing under the monad's operations. *)
Ltac unfold_M :=
  unfold mbind, M_bind, mret, M_ret, get, modify, lift, raise in *.

(** The state after [save_data]. *)
Definition saved (s : State) : State := (save_data s).2.

(** Every stored dict can be dumped: [save_data] will not fail. *)
Definition writable (s : State) : Prop :=
  forallb json_dumps (stored s) = true.

(** How a call on [s] that ends in [save_data] comes out: with its response
    and both documents rewritten when every dict of the store it leaves can
    be dumped, and otherwise with [ValueError], the accounts document cut
    short and the sessions document as it was. *)
Definition write_outcome {A} (response : A) (s : State)
  (out : (py.Exn + A) * State) : Prop :=
  (writable out.2 →
     out.1 = inr response
     ∧ DATA_FILE out.2 = Parsed (stored out.2)
     ∧ SESSIONS_FILE out.2 = Some (sessions out.2)
     ∧ saves out.2 = S (saves s))
  ∧ (¬ writable out.2 →
     out.1 = inl py.ValueError
     ∧ DATA_FILE out.2 = Unreadable
     ∧ SESSIONS_FILE out.2 = SESSIONS_FILE s
     ∧ saves out.2 = saves s).

(** [save_data] and then [return a]. *)
Definition after_save {A} (a : A) (s : State) : (py.Exn + A) * State :=
  match save_data s with
  | (inr _, s') => (inr a, s')
  | (inl e, s') => (inl e, s')
  end.

(** Less than 24 hours have passed since the login. *)
Definition fresh (now : Z) (session : UserSession) : Prop :=
  now - login_time session < py.timedelta_hours 24.

(** The state after the loop of [get_all_accounts]. *)
Definition listed (s : State) : State :=
  set_heap (compute_remaining (accounts s) (heap s)) s.

(** Viewer sessions carry the viewer's name. *)
Definition viewers_named (s : State) : Prop :=
  ∀ sid session,
    sessions s !! sid = Some session → is_viewer session = true →
    username session = main.VIEWER.

(** The empty string is not a session token. *)
Definition tokens_nonempty (s : State) : Prop := sessions s !! "" = None.

(** Payments never exceed the total; only an account without any payment
    can have its (negative) total below their sum. *)
Definition within_total (d : Dict) : Prop :=
  py.sum (paid_amounts (fields d)) ≤ total_amount (fields d).

Definition unpaid_negative (d : Dict) : Prop :=
  paid_amounts (fields d) = [] ∧ total_amount (fields d) < 0.

(** The bound, on every dict of the object store. *)
Definition payments_bounded (s : State) : Prop :=
  ∀ r d, heap s !! r = Some d → within_total d ∨ unpaid_negative d.

(** The cookie of the session opened with UUID [u]. *)
Definition cookie (u : N) : option string := Some (py.str_uuid u).

(** alice logs in and creates account 1001 with a total of 1000. *)
Definition alice_creates : list main.Request :=
  [ main.POST_login 1 "alice" false 0;
    main.POST_add_account "1001" 1000 (cookie 1) 10 10 ].

(** ... then pays 400 and 100. *)
Definition alice_pays : list main.Request :=
  alice_creates ++
  [ main.POST_add_payment 0 400 (cookie 1) 20;
    main.POST_add_payment 0 100 (cookie 1) 30 ].

(** alice creates an account with a negative total, then another one on
    which a payment is admitted. *)
Definition negative_total : list main.Request :=
  [ main.POST_login 1 "alice" false 0;
    main.POST_add_account "1001" (-5) (cookie 1) 10 10;
    main.POST_add_account "1002" 10 (cookie 1) 20 20;
    main.POST_add_payment 1 3 (cookie 1) 30 ].

(** A user logs in under the viewer's name, without viewer mode, and
    creates an account; then a viewer logs in. *)
Definition viewer_namesake : list main.Request :=
  [ main.POST_login 1 "浏览者" false 0;
    main.POST_add_account "1001" 100 (cookie 1) 10 10;
    main.POST_login 2 "" true 20 ].

(** bob logs in next to alice and her account. *)
Definition alice_and_bob : list main.Request :=
  alice_creates ++ [ main.POST_login 2 "bob" false 15 ].

(** alice creates an account whose total has 4300 digits and pays -1, so
    that 4301 digits remain; the listing of her next payment, of 0, caches
    that number in the stored dict. *)
Definition overlong_remaining : list main.Request :=
  [ main.POST_login 1 "alice" false 0;
    main.POST_add_account "1001" (py.int_limit - 1) (cookie 1) 10 10;
    main.POST_add_payment 0 (-1) (cookie 1) 20;
    main.POST_add_payment 0 0 (cookie 1) 30 ].

(** *** A new process on the same disk *)

(** What a new process finds in the two files.  [save_data] is the only
    writer, so a file is missing, a document it dumped, or the beginning
    of one. *)
Definition read_data (s : State) : Document (option (list Dict)) :=
  match DATA_FILE s with
  | Missing => Missing
  | Unreadable => Unreadable
  | Parsed docs => Parsed (Some docs)
  end.

Definition read_sessions (s : State) : Document (gmap string UserSession) :=
  match SESSIONS_FILE s with
  | None => Missing
  | Some m => Parsed m
  end.

(** The process is stopped and started again: no object survives, the
    files do, and [db = Database()] runs. *)
Definition restart (now : string → Z) (s : State) : State :=
  (__init__ (read_data s) (read_sessions s) now
     {| heap := []; accounts := []; sessions := ∅;
        DATA_FILE := DATA_FILE s; SESSIONS_FILE := SESSIONS_FILE s;
        saves := saves s |}).2.

(** The documents hold what the store holds: the sessions as they are, and
    of every account the keys of [AccountRecord]. *)
Definition in_sync (s : State) : Prop :=
  (SESSIONS_FILE s = Some (sessions s)
   ∨ (SESSIONS_FILE s = None ∧ sessions s = ∅))
  ∧ ((∃ docs, DATA_FILE s = Parsed docs
              ∧ fields <$> docs = fields <$> stored s)
     ∨ (DATA_FILE s = Missing ∧ accounts s = [])).

(** [a'] is [a] after some payments and lock changes: nothing else of a
    record is ever written. *)
Definition grown (a a' : AccountRecord) : Prop :=
  account_code a' = account_code a
  ∧ account_name a' = account_name a
  ∧ total_amount a' = total_amount a
  ∧ manager a' = manager a
  ∧ created_time a' = created_time a
  ∧ paid_amounts a `prefix_of` paid_amounts a'.

(** Every object of [s] is still there in [s'], grown. *)
Definition ledger_grown (s s' : State) : Prop :=
  ∀ r d, heap s !! r = Some d →
         ∃ d', heap s' !! r = Some d' ∧ grown (fields d) (fields d').

(** alice logged in at 0, bob 80000 seconds later. *)
Definition two_logins : list main.Request :=
  [ main.POST_login 1 "alice" false 0;
    main.POST_login 2 "bob" false 80000000000 ].

(* ===================================================================== *)
(** ** Built-ins *)
(* ===================================================================== *)

Lemma sum_snoc (l : list Z) (x : Z) : py.sum (l ++ [x]) = py.sum l + x.
Proof. unfold py.sum. by rewrite foldl_app. Qed.

Lemma getitem_in_range {A} (l : list A) (i : Z) :
  0 ≤ i < Z.of_nat (length l) →
  ∃ x, py.getitem l i = inr x ∧ l !! Z.to_nat i = Some x.
Proof.
  intros Hi. unfold py.getitem, py.norm_index.
  destruct (Z.ltb_spec i 0) as [?|_]; [lia|].
  destruct (Z.ltb_spec i 0) as [?|_]; [lia|].
  destruct (lookup_lt_is_Some_2 l (Z.to_nat i)) as [x Hx]; [lia|].
  exists x. by rewrite Hx.
Qed.

Lemma pop_in_range {A} (l : list A) (i : Z) :
  0 ≤ i < Z.of_nat (length l) → py.pop l i = inr (delete (Z.to_nat i) l).
Proof.
  intros Hi. unfold py.pop, py.norm_index.
  destruct (Z.ltb_spec i 0) as [?|_]; [lia|].
  destruct (Z.ltb_spec i 0) as [?|_]; [lia|].
  destruct (Z.leb_spec (Z.of_nat (length l)) i) as [?|_]; [lia|done].
Qed.

Lemma setitem_in_range {A} (l : list A) (i : Z) (x : A) :
  0 ≤ i < Z.of_nat (length l) → py.setitem l i x = inr (<[Z.to_nat i := x]> l).
Proof.
  intros Hi. unfold py.setitem, py.norm_index.
  destruct (Z.ltb_spec i 0) as [?|_]; [lia|].
  destruct (Z.ltb_spec i 0) as [?|_]; [lia|].
  destruct (Z.leb_spec (Z.of_nat (length l)) i) as [?|_]; [lia|done].
Qed.

Lemma hex_nonempty (k : nat) (v : N) (acc : string) :
  acc ≠ "" → py.hex k v acc ≠ "".
Proof.
  revert v acc. induction k as [|k IH]; intros v acc Hacc; simpl; [done|].
  by apply IH.
Qed.

(** A session token is never the empty string. *)
Lemma str_uuid_nonempty (u : N) : py.str_uuid u ≠ "".
Proof. unfold py.str_uuid. by apply hex_nonempty. Qed.

(* ===================================================================== *)
(** ** The listing *)
(* ===================================================================== *)

Lemma set_remaining_idemp (d : Dict) :
  set_remaining (set_remaining d) = set_remaining d.
Proof. done. Qed.

Lemma compute_remaining_length (refs : list ref) (h : list Dict) :
  length (compute_remaining refs h) = length h.
Proof.
  revert h. induction refs as [|r refs IH]; intros h; simpl; [done|].
  unfold compute_remaining in *. simpl. by rewrite IH, length_alter.
Qed.

Lemma compute_remaining_lookup (refs : list ref) (h : list Dict) (r : ref) :
  compute_remaining refs h !! r
  = if decide (r ∈ refs) then set_remaining <$> h !! r else h !! r.
Proof.
  revert h. induction refs as [|r0 refs IH]; intros h.
  - done.
  - unfold compute_remaining in *. cbn [foldl]. rewrite IH.
    rewrite list_lookup_alter. clear IH.
    destruct (decide (r ∈ r0 :: refs)) as [Hc|Hc];
      destruct (decide (r ∈ refs)) as [Hin|Hnin];
      case_decide as Heq;
      rewrite elem_of_cons in Hc; subst; try done;
      try (by destruct Hc); try (by exfalso; apply Hc; auto).
    by destruct (h !! r).
Qed.

Lemma compute_remaining_fields (refs : list ref) (h : list Dict) (r : ref) :
  fields (compute_remaining refs h !!! r) = fields (h !!! r).
Proof.
  rewrite !list_lookup_total_alt, compute_remaining_lookup.
  case_decide; [|done]. by destruct (h !! r).
Qed.

Lemma stored_listing (s : State) :
  fields <$> stored (set_heap (compute_remaining (accounts s) (heap s)) s)
  = fields <$> stored s.
Proof.
  unfold stored, deref. simpl. rewrite <- !list_fmap_compose.
  apply list_fmap_ext. intros i r _. simpl. apply compute_remaining_fields.
Qed.

(* ===================================================================== *)
(** ** What each operation of the store evaluates to *)
(* ===================================================================== *)

(** *** Writing the documents *)

Lemma save_data_ok (s : State) :
  writable s →
  save_data s
  = (inr tt,
     {| heap := heap s; accounts := accounts s; sessions := sessions s;
        DATA_FILE := Parsed (stored s); SESSIONS_FILE := Some (sessions s);
        saves := S (saves s) |}).
Proof.
  unfold writable, stored. intros Hw. unfold save_data. unfold_M.
  by rewrite Hw.
Qed.

Lemma save_data_fails (s : State) :
  ¬ writable s →
  save_data s
  = (inl py.ValueError,
     {| heap := heap s; accounts := accounts s; sessions := sessions s;
        DATA_FILE := Unreadable; SESSIONS_FILE := SESSIONS_FILE s;
        saves := saves s |}).
Proof.
  unfold writable, stored. intros Hw. unfold save_data. unfold_M.
  by destruct (forallb json_dumps _).
Qed.

Lemma writable_dec (s : State) : writable s ∨ ¬ writable s.
Proof. unfold writable. destruct (forallb _ _); [by left|by right]. Qed.

(** [save_data] touches the files only. *)
Lemma saved_frame (s : State) :
  heap (saved s) = heap s ∧ accounts (saved s) = accounts s
  ∧ sessions (saved s) = sessions s.
Proof.
  unfold saved. destruct (writable_dec s) as [Hw|Hw].
  - by rewrite save_data_ok.
  - by rewrite save_data_fails.
Qed.

Lemma saved_sessions (s : State) : sessions (saved s) = sessions s.
Proof. apply saved_frame. Qed.

Lemma saved_heap (s : State) : heap (saved s) = heap s.
Proof. apply saved_frame. Qed.

Lemma saved_accounts (s : State) : accounts (saved s) = accounts s.
Proof. apply saved_frame. Qed.

Lemma deref_saved (s : State) (r : ref) : deref (saved s) r = deref s r.
Proof. unfold deref. by rewrite saved_heap. Qed.

Lemma saved_ok (s : State) :
  writable s →
  DATA_FILE (saved s) = Parsed (stored s)
  ∧ SESSIONS_FILE (saved s) = Some (sessions s)
  ∧ saves (saved s) = S (saves s).
Proof. intros Hw. unfold saved. by rewrite save_data_ok. Qed.

Lemma after_save_snd {A} (a : A) (s : State) : (after_save a s).2 = saved s.
Proof. unfold after_save, saved. by destruct (save_data s) as [[e|[]] s']. Qed.

Lemma after_save_ok {A} (a : A) (s : State) :
  writable s → after_save a s = (inr a, saved s).
Proof. intros Hw. unfold after_save, saved. by rewrite save_data_ok. Qed.

Lemma after_save_fails {A} (a : A) (s : State) :
  ¬ writable s → after_save a s = (inl py.ValueError, saved s).
Proof. intros Hw. unfold after_save, saved. by rewrite save_data_fails. Qed.

(** [save_data] raises nothing but [ValueError]. *)
Lemma after_save_cases {A} (a : A) (s : State) :
  (writable s ∧ after_save a s = (inr a, saved s))
  ∨ (¬ writable s ∧ after_save a s = (inl py.ValueError, saved s)).
Proof.
  destruct (writable_dec s) as [Hw|Hw]; [left|right]; split; try done.
  - by apply after_save_ok.
  - by apply after_save_fails.
Qed.

(** A result returned after [save_data] tells that the write went through. *)
Lemma after_save_inr {A} (a b : A) (s s' : State) :
  after_save a s = (inr b, s') → writable s ∧ b = a ∧ s' = saved s.
Proof.
  destruct (after_save_cases a s) as [[Hw ->]|[Hw ->]]; [|done].
  by intros [= <- <-].
Qed.

Lemma stored_saved (s : State) : stored (saved s) = stored s.
Proof.
  unfold stored, deref. by destruct (saved_frame s) as (-> & -> & _).
Qed.

Lemma writable_saved (s : State) : writable (saved s) ↔ writable s.
Proof. unfold writable. by rewrite stored_saved. Qed.

(** What [save_data] and then [return a] leaves: the objects and the
    collections as they were; both documents rewritten when every stored
    dict can be dumped, and otherwise the accounts document cut short, the
    sessions document as it was and [ValueError] raised. *)
Lemma after_save_outcome {A} (a : A) (s : State) :
  let out := after_save a s in
  heap out.2 = heap s ∧ accounts out.2 = accounts s
  ∧ sessions out.2 = sessions s ∧ stored out.2 = stored s
  ∧ (writable s →
       out.1 = inr a
       ∧ DATA_FILE out.2 = Parsed (stored s)
       ∧ SESSIONS_FILE out.2 = Some (sessions s)
       ∧ saves out.2 = S (saves s))
  ∧ (¬ writable s →
       out.1 = inl py.ValueError
       ∧ DATA_FILE out.2 = Unreadable
       ∧ SESSIONS_FILE out.2 = SESSIONS_FILE s
       ∧ saves out.2 = saves s).
Proof.
  intros out. subst out. rewrite after_save_snd.
  destruct (saved_frame s) as (Hh & Ha & Hs).
  split_and!; try done.
  - apply stored_saved.
  - intros Hw. rewrite (after_save_ok a s Hw). unfold saved.
    by rewrite (save_data_ok s Hw).
  - intros Hw. rewrite (after_save_fails a s Hw). unfold saved.
    by rewrite (save_data_fails s Hw).
Qed.

Lemma after_save_write_outcome {A} (a : A) (s s' : State) :
  SESSIONS_FILE s' = SESSIONS_FILE s → saves s' = saves s →
  write_outcome a s (after_save a s').
Proof.
  intros Hfile Hsaves.
  destruct (after_save_outcome a s') as (_ & _ & Hss & Hst & Hok & Hfail).
  unfold write_outcome. rewrite after_save_snd, writable_saved in *.
  rewrite <- Hfile, <- Hsaves, Hst, Hss. by split.
Qed.

(** [save_data] as the last call of a mutator. *)
Lemma save_data_after_save (s : State) : save_data s = after_save tt s.
Proof. unfold after_save. by destruct (save_data s) as [[e|[]] s']. Qed.

Lemma in_range_true (index : Z) (s : State) :
  in_range index s = true ↔ 0 ≤ index < Z.of_nat (length (accounts s)).
Proof.
  unfold in_range. rewrite andb_true_iff, Z.leb_le, Z.ltb_lt. tauto.
Qed.

Lemma in_range_false (index : Z) (s : State) :
  in_range index s = false ↔ ¬ (0 ≤ index < Z.of_nat (length (accounts s))).
Proof. rewrite <- in_range_true. by destruct (in_range index s). Qed.

Lemma get_all_accounts_eq (s : State) :
  get_all_accounts s
  = (inr (accounts s), set_heap (compute_remaining (accounts s) (heap s)) s).
Proof. reflexivity. Qed.

Lemma delete_account_eq (index : Z) (s : State) :
  0 ≤ index < Z.of_nat (length (accounts s)) →
  database.delete_account index s
  = save_data (set_accounts (delete (Z.to_nat index) (accounts s)) s).
Proof.
  intros Hi. unfold database.delete_account. unfold_M.
  rewrite (proj2 (in_range_true index s) Hi).
  by rewrite (pop_in_range _ _ Hi).
Qed.

Lemma update_account_eq (index : Z) (account_data : ref) (s : State) :
  0 ≤ index < Z.of_nat (length (accounts s)) →
  update_account index account_data s
  = save_data (set_accounts (<[Z.to_nat index := account_data]> (accounts s))
                 s).
Proof.
  intros Hi. unfold update_account. unfold_M.
  rewrite (proj2 (in_range_true index s) Hi).
  by rewrite (setitem_in_range _ _ _ Hi).
Qed.

Lemma add_paid_amount_eq (index amount : Z) (s : State) (r : ref) :
  0 ≤ index → accounts s !! Z.to_nat index = Some r →
  add_paid_amount index amount s
  = save_data (set_heap (alter (append_paid amount) r (heap s)) s).
Proof.
  intros H0 Hr. pose proof (lookup_lt_Some _ _ _ Hr) as Hlt.
  assert (0 ≤ index < Z.of_nat (length (accounts s))) as Hi by lia.
  unfold add_paid_amount. unfold_M.
  rewrite (proj2 (in_range_true index s) Hi).
  destruct (getitem_in_range _ _ Hi) as (r' & -> & Hr').
  by replace r' with r by congruence.
Qed.

Lemma toggle_lock_eq (index : Z) (b : bool) (s : State) (r : ref) :
  0 ≤ index → accounts s !! Z.to_nat index = Some r →
  database.toggle_lock index b s
  = save_data (set_heap (alter (set_locked b) r (heap s)) s).
Proof.
  intros H0 Hr. pose proof (lookup_lt_Some _ _ _ Hr) as Hlt.
  assert (0 ≤ index < Z.of_nat (length (accounts s))) as Hi by lia.
  unfold database.toggle_lock. unfold_M.
  rewrite (proj2 (in_range_true index s) Hi).
  destruct (getitem_in_range _ _ Hi) as (r' & -> & Hr').
  by replace r' with r by congruence.
Qed.

(** *** Resolving a session *)

Lemma get_session_fresh (s : State) (sid : string) (session : UserSession)
  (now : Z) :
  sid ≠ "" → sessions s !! sid = Some session → fresh now session →
  main.get_session (Some sid) now s = (inr (Some session), s).
Proof.
  intros Hsid Hs Hfresh. unfold main.get_session. unfold_M.
  rewrite bool_decide_eq_true_2 by done.
  rewrite bool_decide_eq_true_2 by (by rewrite Hs).
  unfold py.dict_getitem. rewrite Hs. cbn [andb].
  destruct (Z.ltb_spec (now - login_time session) (py.timedelta_hours 24));
    [done|]. unfold fresh in Hfresh. lia.
Qed.

Lemma get_session_stale (s : State) (sid : string) (session : UserSession)
  (now : Z) :
  sid ≠ "" → sessions s !! sid = Some session → ¬ fresh now session →
  main.get_session (Some sid) now s
  = after_save None (set_sessions (delete sid (sessions s)) s).
Proof.
  intros Hsid Hs Hstale. unfold main.get_session, after_save. unfold_M.
  rewrite bool_decide_eq_true_2 by done.
  rewrite bool_decide_eq_true_2 by (by rewrite Hs).
  unfold py.dict_getitem. rewrite Hs. cbn [andb].
  destruct (Z.ltb_spec (now - login_time session) (py.timedelta_hours 24)).
  { unfold fresh in Hstale. lia. }
  by destruct (save_data _) as [[e|[]] s'].
Qed.

Lemma get_session_absent (s : State) (session_id : option string) (now : Z) :
  (∀ sid, session_id = Some sid → sid = "" ∨ sessions s !! sid = None) →
  main.get_session session_id now s = (inr None, s).
Proof.
  intros Habs. unfold main.get_session. unfold_M.
  destruct session_id as [sid|]; [|done].
  destruct (Habs sid eq_refl) as [->|Hnone].
  - by rewrite bool_decide_eq_false_2 by (intros H; by apply H).
  - rewrite (bool_decide_eq_false_2 (is_Some _)); [|rewrite Hnone; by intros [? ?]].
    by rewrite andb_false_r.
Qed.

(** The three ways a cookie is resolved. *)
Lemma get_session_cases (s : State) (session_id : option string) (now : Z) :
  (∃ sid session,
      session_id = Some sid ∧ sid ≠ "" ∧ sessions s !! sid = Some session ∧
      fresh now session ∧
      main.get_session session_id now s = (inr (Some session), s))
  ∨ (∃ sid session,
      session_id = Some sid ∧ sid ≠ "" ∧ sessions s !! sid = Some session ∧
      ¬ fresh now session ∧
      main.get_session session_id now s
      = after_save None (set_sessions (delete sid (sessions s)) s))
  ∨ main.get_session session_id now s = (inr None, s).
Proof.
  destruct session_id as [sid|]; [|by right; right].
  destruct (decide (sid = "")) as [->|Hsid].
  { right; right. apply get_session_absent. intros ? [= <-]. by left. }
  destruct (sessions s !! sid) as [session|] eqn:Hs.
  - destruct (Z.lt_ge_cases (now - login_time session)
                (py.timedelta_hours 24)) as [Hf|Hf];
      [|apply Z.le_ngt in Hf].
    + left. exists sid, session. split_and!; try done.
      by apply get_session_fresh.
    + right; left. exists sid, session. split_and!; try done.
      by apply get_session_stale with session.
  - right; right. apply get_session_absent. intros ? [= <-]. by right.
Qed.

(** A cookie resolves to a session only without touching the state. *)
Lemma get_session_Some (s : State) (session_id : option string) (now : Z)
  (session : UserSession) :
  (main.get_session session_id now s).1 = inr (Some session) →
  main.get_session session_id now s = (inr (Some session), s)
  ∧ ∃ sid, session_id = Some sid ∧ sid ≠ ""
           ∧ sessions s !! sid = Some session ∧ fresh now session.
Proof.
  intros Hres.
  destruct (get_session_cases s session_id now)
    as [(sid & sess & -> & ? & ? & ? & Heq)
       |[(sid & sess & -> & ? & ? & ? & Heq)|Heq]];
    rewrite Heq in Hres; simpl in Hres; try discriminate.
  - injection Hres as <-. split; [done|]. by exists sid.
  - by destruct (after_save_cases (@None UserSession)
                   (set_sessions (delete sid (sessions s)) s))
      as [[_ Ha]|[_ Ha]]; rewrite Ha in Hres.
Qed.

Lemma deref_listed_fields (s : State) (r : ref) :
  fields (deref (listed s) r) = fields (deref s r).
Proof. apply compute_remaining_fields. Qed.

Lemma index_guard_false (idx : Z) (n : nat) :
  0 ≤ idx < Z.of_nat n → (idx <? 0) || (idx >=? Z.of_nat n) = false.
Proof.
  intros Hi. rewrite Z.geb_leb.
  destruct (Z.ltb_spec idx 0), (Z.leb_spec (Z.of_nat n) idx); simpl; lia.
Qed.

Lemma index_guard_true (idx : Z) (n : nat) :
  ¬ (0 ≤ idx < Z.of_nat n) → (idx <? 0) || (idx >=? Z.of_nat n) = true.
Proof.
  intros Hi. rewrite Z.geb_leb.
  destruct (Z.ltb_spec idx 0), (Z.leb_spec (Z.of_nat n) idx); simpl; lia.
Qed.

Lemma lookup_index {A} (l : list A) (idx : Z) (x : A) :
  0 ≤ idx → l !! Z.to_nat idx = Some x →
  0 ≤ idx < Z.of_nat (length l) ∧ py.getitem l idx = inr x.
Proof.
  intros H0 Hx. pose proof (lookup_lt_Some _ _ _ Hx).
  assert (0 ≤ idx < Z.of_nat (length l)) as Hi by lia. split; [done|].
  destruct (getitem_in_range l idx Hi) as (y & -> & Hy). congruence.
Qed.

Lemma add_payment_eq (s : State) (session_id : option string) (now : Z)
  (session : UserSession) (idx amount : Z) (r : ref) :
  main.get_session session_id now s = (inr (Some session), s) →
  0 ≤ idx → accounts s !! Z.to_nat idx = Some r →
  main.add_payment idx amount session_id now s
  = let account := fields (deref s r) in
    if locked account
       && negb (bool_decide (manager account = username session))
    then (inl (py.HTTPException 403 "账户已被锁定"), listed s)
    else if amount >? total_amount account - py.sum (paid_amounts account)
    then (inl (py.HTTPException 400 "支付金额超过剩余金额"), listed s)
    else after_save (main.RedirectResponse "/" 303 main.NoCookie)
           (set_heap (alter (append_paid amount) r (heap (listed s)))
              (listed s)).
Proof.
  intros Hsess H0 Hr. destruct (lookup_index _ _ _ H0 Hr) as [Hi Hget].
  unfold main.add_payment, after_save. unfold_M.
  rewrite Hsess, get_all_accounts_eq, (index_guard_false _ _ Hi), Hget.
  fold (listed s). rewrite deref_listed_fields. cbv zeta.
  destruct (locked _ && _); [done|].
  destruct (_ >? _); [done|].
  rewrite (add_paid_amount_eq idx amount (listed s) r) by done.
  by destruct (save_data _) as [[e|[]] s'].
Qed.

Lemma toggle_lock_handler_eq (s : State) (session_id : option string)
  (now : Z) (session : UserSession) (idx : Z) (r : ref) :
  main.get_session session_id now s = (inr (Some session), s) →
  0 ≤ idx → accounts s !! Z.to_nat idx = Some r →
  main.toggle_lock idx session_id now s
  = let account := fields (deref s r) in
    if negb (bool_decide (manager account = username session))
    then (inl (py.HTTPException 403 "只能操作自己的账户"), listed s)
    else after_save (main.RedirectResponse "/" 303 main.NoCookie)
           (set_heap (alter (set_locked (negb (locked account))) r
                        (heap (listed s)))
              (listed s)).
Proof.
  intros Hsess H0 Hr. destruct (lookup_index _ _ _ H0 Hr) as [Hi Hget].
  unfold main.toggle_lock, after_save. unfold_M.
  rewrite Hsess, get_all_accounts_eq, (index_guard_false _ _ Hi), Hget.
  fold (listed s). rewrite deref_listed_fields. cbv zeta.
  destruct (negb _); [done|].
  rewrite (toggle_lock_eq idx _ (listed s) r) by done.
  by destruct (save_data _) as [[e|[]] s'].
Qed.

Lemma delete_account_handler_eq (s : State) (session_id : option string)
  (now : Z) (session : UserSession) (idx : Z) (r : ref) :
  main.get_session session_id now s = (inr (Some session), s) →
  0 ≤ idx → accounts s !! Z.to_nat idx = Some r →
  main.delete_account idx session_id now s
  = let account := fields (deref s r) in
    if negb (bool_decide (manager account = username session))
       && negb (is_viewer session)
    then (inl (py.HTTPException 403 "只能删除自己的账户"), listed s)
    else after_save (main.RedirectResponse "/" 303 main.NoCookie)
           (set_accounts (delete (Z.to_nat idx) (accounts s)) (listed s)).
Proof.
  intros Hsess H0 Hr. destruct (lookup_index _ _ _ H0 Hr) as [Hi Hget].
  unfold main.delete_account, after_save. unfold_M.
  rewrite Hsess, get_all_accounts_eq, (index_guard_false _ _ Hi), Hget.
  fold (listed s). rewrite deref_listed_fields. cbv zeta.
  destruct (negb _ && _); [done|].
  rewrite (delete_account_eq idx (listed s)) by done.
  by destruct (save_data _) as [[e|[]] s'].
Qed.

(** An index outside the listing: 404, after the listing was computed. *)
Lemma handlers_not_found (s : State) (session_id : option string) (now : Z)
  (session : UserSession) (idx : Z) :
  main.get_session session_id now s = (inr (Some session), s) →
  ¬ (0 ≤ idx < Z.of_nat (length (accounts s))) →
  (∀ amount, main.add_payment idx amount session_id now s
             = (inl (py.HTTPException 404 "账户不存在"), listed s))
  ∧ main.toggle_lock idx session_id now s
    = (inl (py.HTTPException 404 "账户不存在"), listed s)
  ∧ main.delete_account idx session_id now s
    = (inl (py.HTTPException 404 "账户不存在"), listed s).
Proof.
  intros Hsess Hi.
  unfold main.add_payment, main.toggle_lock, main.delete_account. unfold_M.
  by rewrite Hsess, get_all_accounts_eq, (index_guard_true _ _ Hi).
Qed.

(** No session: 403, and the state is the one [get_session] left. *)
Lemma handlers_unauthenticated (s s' : State) (session_id : option string)
  (now : Z) (idx : Z) :
  main.get_session session_id now s = (inr None, s') →
  (∀ amount, main.add_payment idx amount session_id now s
             = (inl (py.HTTPException 403 "未登录"), s'))
  ∧ main.toggle_lock idx session_id now s
    = (inl (py.HTTPException 403 "未登录"), s')
  ∧ main.delete_account idx session_id now s
    = (inl (py.HTTPException 403 "未登录"), s')
  ∧ (∀ code total now', main.add_account code total session_id now now' s
       = (inl (py.HTTPException 403 "浏览模式无法添加账户"), s')).
Proof.
  intros Hsess.
  unfold main.add_payment, main.toggle_lock, main.delete_account,
    main.add_account. unfold_M.
  by rewrite Hsess.
Qed.

Lemma add_account_handler_eq (s : State) (session_id : option string)
  (now now' : Z) (session : UserSession) (code : string) (total : Z) :
  main.get_session session_id now s = (inr (Some session), s) →
  main.add_account code total session_id now now' s
  = if is_viewer session
    then (inl (py.HTTPException 403 "浏览模式无法添加账户"), s)
    else match ACCOUNT_MAPPING !! code with
         | None => (inl (py.HTTPException 400 "无效的账户编码"), s)
         | Some name =>
             let account :=
               {| account_code := code; account_name := name;
                  total_amount := total; manager := username session;
                  created_time := now'; paid_amounts := [];
                  locked := false |} in
             after_save (main.RedirectResponse "/" 303 main.NoCookie)
               (set_accounts (accounts s ++ [length (heap s)])
                  (set_heap (heap s ++ [dict account]) s))
         end.
Proof.
  intros Hsess. unfold main.add_account, after_save. unfold_M. rewrite Hsess.
  destruct (is_viewer session); [done|].
  unfold py.dict_getitem.
  destruct (ACCOUNT_MAPPING !! code) as [name|] eqn:Hcode.
  - rewrite bool_decide_eq_false_2 by done. unfold database.add_account.
    unfold_M. by destruct (save_data _) as [[e|[]] s'].
  - by rewrite bool_decide_eq_true_2 by done.
Qed.

(** A failed write while the session was resolved ends the request. *)
Lemma handlers_session_error (s s' : State) (session_id : option string)
  (now : Z) (idx : Z) (e : py.Exn) :
  main.get_session session_id now s = (inl e, s') →
  (∀ amount, main.add_payment idx amount session_id now s = (inl e, s'))
  ∧ main.toggle_lock idx session_id now s = (inl e, s')
  ∧ main.delete_account idx session_id now s = (inl e, s')
  ∧ (∀ code total now', main.add_account code total session_id now now' s
       = (inl e, s')).
Proof.
  intros Hsess.
  unfold main.add_payment, main.toggle_lock, main.delete_account,
    main.add_account. unfold_M.
  by rewrite Hsess.
Qed.

Lemma login_eq (u : N) (name : string) (viewer_mode : bool) (now : Z)
  (s : State) :
  main.login u name viewer_mode now s
  = if negb viewer_mode && bool_decide (py.strip name = "")
    then (inr (main.TemplateResponse "login.html"
                 (main.LoginPage (Some "请输入用户名")) main.NoCookie), s)
    else after_save
           (main.RedirectResponse "/" 303
              (main.SetCookie "session_id" (py.str_uuid u) true 86400))
           (set_sessions
              (<[py.str_uuid u :=
                   {| username := if viewer_mode then main.VIEWER
                                  else py.strip name;
                      is_viewer := viewer_mode;
                      login_time := now |}]> (sessions s)) s).
Proof.
  unfold main.login, after_save. unfold_M. cbv zeta.
  destruct viewer_mode; cbn [negb andb].
  - by destruct (save_data _) as [[e|[]] s'].
  - case_bool_decide; [done|]. by destruct (save_data _) as [[e|[]] s'].
Qed.

Lemma logout_eq (session_id : option string) (s : State) :
  main.logout session_id s
  = let response :=
      main.RedirectResponse "/" 303 (main.DeleteCookie "session_id") in
    match session_id with
    | Some sid =>
        if bool_decide (sid ≠ "") && bool_decide (is_Some (sessions s !! sid))
        then after_save response (set_sessions (delete sid (sessions s)) s)
        else (inr response, s)
    | None => (inr response, s)
    end.
Proof.
  unfold main.logout, after_save. unfold_M. cbv zeta.
  destruct session_id as [sid|]; [|done].
  destruct (_ && _); [|done]. by destruct (save_data _) as [[e|[]] s'].
Qed.

Lemma after_save_steps {A} (a : A) (s s' : State) :
  rtc mutation s s' → rtc mutation s (after_save a s').2.
Proof.
  intros H. rewrite after_save_snd. eapply rtc_r; [done|]. apply mut_save.
Qed.

(* ===================================================================== *)
(** ** Every request is a sequence of primitive effects *)
(* ===================================================================== *)

Lemma set_sessions_id (s : State) : set_sessions (sessions s) s = s.
Proof. by destruct s. Qed.

Lemma saved_steps (s s' : State) : rtc mutation s s' → rtc mutation s (saved s').
Proof. intros H. eapply rtc_r; [done|]. apply mut_save. Qed.

Lemma del_sessions_steps (s : State) (sids : list string) :
  rtc mutation s (set_sessions (foldr delete (sessions s) sids) s).
Proof.
  induction sids as [|sid sids IH]; simpl.
  - rewrite set_sessions_id. apply rtc_refl.
  - eapply rtc_r; [exact IH|].
    apply (mut_del_session (set_sessions (foldr delete (sessions s) sids) s)).
Qed.

Lemma cleanup_expired_sessions_steps (now : Z) (s : State) :
  rtc mutation s (cleanup_expired_sessions now s).2.
Proof.
  unfold cleanup_expired_sessions. unfold_M. cbv zeta.
  case_bool_decide.
  - apply del_sessions_steps.
  - apply (saved_steps s (set_sessions _ s)), del_sessions_steps.
Qed.

Lemma get_session_steps (session_id : option string) (now : Z) (s : State) :
  rtc mutation s (main.get_session session_id now s).2.
Proof.
  destruct (get_session_cases s session_id now)
    as [(sid & sess & _ & _ & _ & _ & ->)
       |[(sid & sess & _ & _ & _ & _ & ->)| ->]]; simpl.
  - apply rtc_refl.
  - apply after_save_steps, rtc_once, mut_del_session.
  - apply rtc_refl.
Qed.

Lemma listed_steps (s : State) : rtc mutation s (listed s).
Proof. apply rtc_once, mut_listing. Qed.

(** In or out of the listing. *)
Lemma index_cases (s : State) (idx : Z) :
  (0 ≤ idx ∧ ∃ r, accounts s !! Z.to_nat idx = Some r)
  ∨ ¬ (0 ≤ idx < Z.of_nat (length (accounts s))).
Proof.
  destruct (decide (0 ≤ idx < Z.of_nat (length (accounts s)))) as [Hi|Hi];
    [left|by right].
  split; [lia|]. apply lookup_lt_is_Some_2. lia.
Qed.

Lemma add_payment_steps (idx amount : Z) (session_id : option string)
  (now : Z) (s : State) :
  rtc mutation s (main.add_payment idx amount session_id now s).2.
Proof.
  pose proof (get_session_steps session_id now s) as Hsteps.
  destruct (main.get_session session_id now s) as [[e|[session|]] s'] eqn:Hs.
  - unfold main.add_payment. unfold_M. by rewrite Hs.
  - destruct (get_session_Some s session_id now session) as [Heq _];
      [by rewrite Hs|].
    assert (s' = s) as -> by congruence. clear Hsteps.
    destruct (index_cases s idx) as [(H0 & r & Hr)|Hout].
    + rewrite (add_payment_eq _ _ _ _ _ _ _ Heq H0 Hr). cbv zeta.
      destruct (locked _ && _); [apply listed_steps|].
      destruct (Z.gtb_spec amount
                  (total_amount (fields (deref s r))
                   - py.sum (paid_amounts (fields (deref s r)))))
        as [Hgt|Hle]; [apply listed_steps|].
      apply after_save_steps. eapply rtc_r; [apply listed_steps|].
      apply mut_pay.
      * apply list_elem_of_lookup. by exists (Z.to_nat idx).
      * by rewrite deref_listed_fields.
    + destruct (handlers_not_found _ _ _ _ idx Heq Hout) as (-> & _ & _).
      apply listed_steps.
  - by destruct (handlers_unauthenticated _ _ _ _ idx Hs) as (-> & _).
Qed.

Lemma toggle_lock_steps (idx : Z) (session_id : option string)
  (now : Z) (s : State) :
  rtc mutation s (main.toggle_lock idx session_id now s).2.
Proof.
  pose proof (get_session_steps session_id now s) as Hsteps.
  destruct (main.get_session session_id now s) as [[e|[session|]] s'] eqn:Hs.
  - unfold main.toggle_lock. unfold_M. by rewrite Hs.
  - destruct (get_session_Some s session_id now session) as [Heq _];
      [by rewrite Hs|].
    assert (s' = s) as -> by congruence. clear Hsteps.
    destruct (index_cases s idx) as [(H0 & r & Hr)|Hout].
    + rewrite (toggle_lock_handler_eq _ _ _ _ _ _ Heq H0 Hr). cbv zeta.
      destruct (negb _); [apply listed_steps|].
      apply after_save_steps. eapply rtc_r; [apply listed_steps|].
      apply mut_lock. apply list_elem_of_lookup. by exists (Z.to_nat idx).
    + destruct (handlers_not_found _ _ _ _ idx Heq Hout) as (_ & -> & _).
      apply listed_steps.
  - by destruct (handlers_unauthenticated _ _ _ _ idx Hs) as (_ & -> & _).
Qed.

Lemma delete_account_steps (idx : Z) (session_id : option string)
  (now : Z) (s : State) :
  rtc mutation s (main.delete_account idx session_id now s).2.
Proof.
  pose proof (get_session_steps session_id now s) as Hsteps.
  destruct (main.get_session session_id now s) as [[e|[session|]] s'] eqn:Hs.
  - unfold main.delete_account. unfold_M. by rewrite Hs.
  - destruct (get_session_Some s session_id now session) as [Heq _];
      [by rewrite Hs|].
    assert (s' = s) as -> by congruence. clear Hsteps.
    destruct (index_cases s idx) as [(H0 & r & Hr)|Hout].
    + rewrite (delete_account_handler_eq _ _ _ _ _ _ Heq H0 Hr). cbv zeta.
      destruct (negb _ && _); [apply listed_steps|].
      apply after_save_steps. eapply rtc_r; [apply listed_steps|].
      apply (mut_pop (listed s)).
    + destruct (handlers_not_found _ _ _ _ idx Heq Hout) as (_ & _ & ->).
      apply listed_steps.
  - by destruct (handlers_unauthenticated _ _ _ _ idx Hs) as (_ & _ & -> & _).
Qed.

Lemma add_account_steps (code : string) (total : Z)
  (session_id : option string) (now now' : Z) (s : State) :
  rtc mutation s (main.add_account code total session_id now now' s).2.
Proof.
  pose proof (get_session_steps session_id now s) as Hsteps.
  destruct (main.get_session session_id now s) as [[e|[session|]] s'] eqn:Hs.
  - unfold main.add_account. unfold_M. by rewrite Hs.
  - destruct (get_session_Some s session_id now session) as [Heq _];
      [by rewrite Hs|].
    assert (s' = s) as -> by congruence. clear Hsteps.
    rewrite (add_account_handler_eq _ _ _ _ _ _ _ Heq).
    destruct (is_viewer session); [apply rtc_refl|].
    destruct (ACCOUNT_MAPPING !! code); [|apply rtc_refl].
    apply after_save_steps, rtc_once. by apply mut_new_account.
  - by destruct (handlers_unauthenticated _ _ _ _ 0 Hs) as (_ & _ & _ & ->).
Qed.

Lemma login_steps (u : N) (name : string) (viewer_mode : bool) (now : Z)
  (s : State) :
  rtc mutation s (main.login u name viewer_mode now s).2.
Proof.
  unfold main.login. unfold_M. cbv zeta.
  destruct viewer_mode; [|case_bool_decide].
  - apply (after_save_steps (main.RedirectResponse _ _ _) s
             (set_sessions _ s)), rtc_once.
    by apply mut_new_session.
  - apply rtc_refl.
  - apply (after_save_steps (main.RedirectResponse _ _ _) s
             (set_sessions _ s)), rtc_once.
    by apply mut_new_session.
Qed.

Lemma logout_steps (session_id : option string) (s : State) :
  rtc mutation s (main.logout session_id s).2.
Proof.
  unfold main.logout. unfold_M.
  destruct session_id as [sid|]; [|apply rtc_refl].
  destruct (_ && _); [|apply rtc_refl].
  apply (after_save_steps (main.RedirectResponse _ _ _) s
           (set_sessions _ s)), rtc_once, mut_del_session.
Qed.

Lemma index_steps (session_id : option string) (t0 t : Z) (s : State) :
  rtc mutation s (main.index session_id t0 t s).2.
Proof.
  unfold main.index. unfold_M.
  pose proof (cleanup_expired_sessions_steps t0 s) as Hsteps.
  destruct (cleanup_expired_sessions t0 s) as [[e|[]] s1];
    cbn [fst snd] in *; [done|].
  pose proof (get_session_steps session_id t s1) as Hsteps'.
  destruct (main.get_session session_id t s1) as [[e|[session|]] s2];
    cbn [fst snd] in *; try by etrans.
  rewrite get_all_accounts_eq. cbn [snd].
  etrans; [done|]. etrans; [done|]. apply listed_steps.
Qed.

Theorem handle_mutations (r : main.Request) (s : State) :
  rtc mutation s (main.handle r s).2.
Proof.
  destruct r; simpl.
  - apply index_steps.
  - apply login_steps.
  - apply logout_steps.
  - apply add_account_steps.
  - apply add_payment_steps.
  - apply toggle_lock_steps.
  - apply delete_account_steps.
  - unfold main.get_account_name. unfold_M.
    destruct (ACCOUNT_MAPPING !! _); apply rtc_refl.
Qed.

Lemma run_mutations (rs : list main.Request) (s : State) :
  rtc mutation s (main.run rs s).
Proof.
  revert s. induction rs as [|r rs IH]; intros s; [apply rtc_refl|].
  unfold main.run in *. simpl. etrans; [apply handle_mutations|apply IH].
Qed.

(* ===================================================================== *)
(** ** Invariants of the reachable states *)
(* ===================================================================== *)

(** What every primitive effect preserves, every run preserves. *)
Lemma run_invariant (P : State → Prop) :
  (∀ s s', mutation s s' → P s → P s') →
  ∀ rs s, P s → P (main.run rs s).
Proof.
  intros Hstep rs s HP.
  induction (run_mutations rs s) as [|s1 s2 s3 H12 _ IH]; eauto.
Qed.

Lemma well_formed_mutation (s s' : State) :
  mutation s s' → well_formed s → well_formed s'.
Proof.
  unfold well_formed.
  destruct 1 as [s|s|s sid|s u sess _|s a _|s i|s r amount _ _|s r b _];
    [fold (saved s); destruct (saved_frame s) as (Hh & Hacc & Hs);
     rewrite ?Hh, ?Hacc, ?Hs; clear Hh Hacc Hs|..];
    simpl; intros [Hwf Hnd]; try done.
  - by rewrite compute_remaining_length.
  - rewrite Forall_app, length_app. split_and!.
    + eapply Forall_impl; [done|]. simpl. lia.
    + apply Forall_singleton. simpl. lia.
    + apply NoDup_app. split_and!; [done| |apply NoDup_singleton].
      intros r Hr ->%list_elem_of_singleton.
      rewrite Forall_forall in Hwf. specialize (Hwf _ Hr). simpl in Hwf. lia.
  - split; [by apply Forall_delete|].
    apply (sublist_NoDup _ _ Hnd), sublist_delete.
  - by rewrite length_alter.
  - by rewrite length_alter.
Qed.

Lemma well_formed_run (rs : list main.Request) (s : State) :
  well_formed s → well_formed (main.run rs s).
Proof. apply run_invariant, well_formed_mutation. Qed.

Lemma well_formed_empty : well_formed empty_store.
Proof. split; [apply Forall_nil_2|apply NoDup_nil_2]. Qed.

Lemma viewers_named_mutation (s s' : State) :
  mutation s s' → viewers_named s → viewers_named s'.
Proof.
  unfold viewers_named.
  destruct 1 as [s|s|s sid|s u sess Hv|s a _|s i|s r amount _ _|s r b _];
    [fold (saved s); destruct (saved_frame s) as (Hh & Hacc & Hs);
     rewrite ?Hh, ?Hacc, ?Hs; clear Hh Hacc Hs|..];
    simpl; intros Hinv sid' session Hs; eauto.
  - apply lookup_delete_Some in Hs as [_ Hs]. eauto.
  - apply lookup_insert_Some in Hs as [[_ <-]|[_ Hs]]; eauto.
Qed.

Lemma tokens_nonempty_mutation (s s' : State) :
  mutation s s' → tokens_nonempty s → tokens_nonempty s'.
Proof.
  unfold tokens_nonempty.
  destruct 1 as [s|s|s sid|s u sess Hv|s a _|s i|s r amount _ _|s r b _];
    [fold (saved s); destruct (saved_frame s) as (Hh & Hacc & Hs);
     rewrite ?Hh, ?Hacc, ?Hs; clear Hh Hacc Hs|..];
    simpl; intros Hinv; try done.
  - apply lookup_delete_None. by right.
  - rewrite lookup_insert_ne; [done|]. apply str_uuid_nonempty.
Qed.

Lemma payments_bounded_mutation (s s' : State) :
  mutation s s' → payments_bounded s → payments_bounded s'.
Proof.
  unfold payments_bounded.
  destruct 1 as [s|s|s sid|s u sess _|s a Ha|s i|s r amount _ Hle|s r b _];
    [fold (saved s); destruct (saved_frame s) as (Hh & Hacc & Hs);
     rewrite ?Hh, ?Hacc, ?Hs; clear Hh Hacc Hs|..];
    simpl; intros Hinv r' d' Hd'; eauto.
  - rewrite compute_remaining_lookup in Hd'.
    case_decide; [|by eauto].
    destruct (heap s !! r') as [d|] eqn:Hd; [|done].
    injection Hd' as <-. apply (Hinv r' d Hd).
  - apply lookup_app_Some in Hd' as [Hd'|[_ Hd']]; [by eauto|].
    apply list_lookup_singleton_Some in Hd' as [_ <-].
    unfold within_total, unpaid_negative. simpl. rewrite Ha.
    unfold py.sum. simpl.
    destruct (Z.le_gt_cases 0 (total_amount a)); [by left|by right].
  - rewrite list_lookup_alter in Hd'. case_decide as Heq; [subst r'|by eauto].
    destruct (heap s !! r) as [d|] eqn:Hd; [|done].
    injection Hd' as <-. left.
    unfold deref in Hle. rewrite (list_lookup_total_correct _ _ _ Hd) in Hle.
    unfold within_total. simpl. rewrite sum_snoc. lia.
  - rewrite list_lookup_alter in Hd'. case_decide as Heq; [subst r'|by eauto].
    destruct (heap s !! r) as [d|] eqn:Hd; [|done].
    injection Hd' as <-. apply (Hinv r d Hd).
Qed.

Lemma payments_bounded_stored (s : State) (d : Dict) :
  payments_bounded s → d ∈ stored s → within_total d ∨ unpaid_negative d.
Proof.
  intros Hinv Hd. unfold stored in Hd.
  apply list_elem_of_fmap in Hd as (r & -> & _).
  unfold deref. rewrite list_lookup_total_alt.
  destruct (heap s !! r) as [d|] eqn:Hd; simpl; [by eauto|].
  left. unfold within_total, py.sum. simpl. lia.
Qed.

(* ===================================================================== *)
(** ** The remaining amount *)
(* ===================================================================== *)

(** C1. Whatever requests were served before (payments among them), every
    account [get_all_accounts] returns carries a [remaining_amount] equal
    to its [total_amount] minus the sum of its [paid_amounts], over [Z];
    the accounts returned are those of the store, in storage order. *)
Theorem listing_remaining_amount (s0 : State) (rs : list main.Request) :
  well_formed s0 →
  let s := main.run rs s0 in
  let out := get_all_accounts s in
  out.1 = inr (accounts s)
  ∧ ∀ i account, accounts s !! i = Some account →
      ∃ d, heap out.2 !! account = Some d
        ∧ fields d = fields (deref s account)
        ∧ remaining_amount d
          = Some (total_amount (fields d) - py.sum (paid_amounts (fields d))).
Proof.
  intros Hwf0 s out. subst out. rewrite get_all_accounts_eq.
  split; [done|]. intros i r Hr. cbn [snd set_heap heap].
  assert (well_formed s) as Hwf by by apply well_formed_run.
  pose proof (Forall_lookup_1 _ _ _ _ (proj1 Hwf) Hr) as Hlt. simpl in Hlt.
  destruct (lookup_lt_is_Some_2 (heap s) r Hlt) as [d Hd].
  exists (set_remaining d). rewrite compute_remaining_lookup.
  rewrite decide_True by (apply list_elem_of_lookup; eauto).
  rewrite Hd. split; [done|]. split; [|done].
  unfold deref. by rewrite (list_lookup_total_correct _ _ _ Hd).
Qed.

(** After alice's two payments the listing shows 500 remaining. *)
Lemma listing_remaining_amount_witness :
  well_formed empty_store
  ∧ ∃ d, heap (get_all_accounts (main.run alice_pays empty_store)).2 !! 0%nat
         = Some d
       ∧ paid_amounts (fields d) = [400; 100]
       ∧ remaining_amount d = Some 500.
Proof.
  split; [apply well_formed_empty|].
  destruct (listing_remaining_amount empty_store alice_pays well_formed_empty)
    as [_ Hall].
  destruct (Hall 0%nat 0%nat eq_refl) as (d & Hd & Hfields & Hrem).
  exists d. split; [exact Hd|]. rewrite Hrem, Hfields. split; reflexivity.
Defined.

(** C2. [get_all_accounts] copies the list but not the dicts in it: the
    loop writes ['remaining_amount'] into the dicts the store holds, and the
    next [save_data] dumps the key into the accounts document, where it is
    out of date as soon as a payment is appended. *)
Theorem listing_writes_remaining_amount_into_store :
  let s := main.run alice_creates empty_store in
  let account amounts :=
    {| account_code := "1001"; account_name := "平安保险养老金";
       total_amount := 1000; manager := "alice"; created_time := 10;
       paid_amounts := amounts; locked := false |} in
  stored s = [ {| fields := account []; remaining_amount := None |} ]
  ∧ stored (get_all_accounts s).2
    = [ {| fields := account []; remaining_amount := Some 1000 |} ]
  ∧ DATA_FILE (main.add_payment 0 400 (cookie 1) 20 s).2
    = Parsed [ {| fields := account [400]; remaining_amount := Some 1000 |} ].
Proof. vm_compute. repeat split. Qed.

(* ===================================================================== *)
(** ** Payments against the total *)
(* ===================================================================== *)

(** C3, as stated: every record of every reachable state has
    [sum(paid_amounts) <= total_amount].  An account created with a negative
    total breaks it before any payment, and stays in the store while
    payments are admitted on other accounts. *)
Lemma negative_total_exceeded :
  ¬ (∀ rs d, d ∈ stored (main.run rs empty_store) → within_total d).
Proof.
  intros Hall.
  assert (within_total (deref (main.run negative_total empty_store) 0%nat))
    as Hbad.
  { apply (Hall negative_total). apply list_elem_of_lookup. exists 0%nat.
    vm_compute. reflexivity. }
  vm_compute in Hbad. by apply Hbad.
Qed.

(** C3, amended.  In every state reached from the empty store (or from any
    store where this holds) a record has [sum(paid_amounts) <= total_amount]
    unless it has no payment and a negative total; and an admitted payment,
    whatever the integers [total_amount] and [amount], leaves the account
    paid into with [sum(paid_amounts) <= total_amount]. *)
Theorem payments_within_total :
  payments_bounded empty_store
  ∧ (∀ s0 rs d, payments_bounded s0 → d ∈ stored (main.run rs s0) →
                within_total d ∨ unpaid_negative d)
  ∧ (∀ s idx amount session_id now response s',
       main.add_payment idx amount session_id now s = (inr response, s') →
       ∃ d, stored s' !! Z.to_nat idx = Some d ∧ within_total d).
Proof.
  split_and!.
  - intros r d' Hd. simpl in Hd. by rewrite lookup_nil in Hd.
  - intros s0 rs d Hs0. apply payments_bounded_stored.
    by apply (run_invariant _ payments_bounded_mutation).
  - intros s idx amount session_id now response s' Hout.
    destruct (main.get_session session_id now s)
      as [[e|[session|]] s1] eqn:Hs.
    { unfold main.add_payment in Hout. unfold_M. by rewrite Hs in Hout. }
    2: { destruct (handlers_unauthenticated _ _ _ _ idx Hs) as (Heq & _).
         by rewrite Heq in Hout. }
    destruct (get_session_Some s session_id now session) as [Heq _];
      [by rewrite Hs|].
    destruct (index_cases s idx) as [(H0 & r & Hr)|Hnone].
    2: { destruct (handlers_not_found _ _ _ _ idx Heq Hnone) as (Hnf & _).
         by rewrite Hnf in Hout. }
    rewrite (add_payment_eq _ _ _ _ _ _ _ Heq H0 Hr) in Hout. cbv zeta in Hout.
    destruct (locked _ && _); [done|].
    destruct (Z.gtb_spec amount
                (total_amount (fields (deref s r))
                 - py.sum (paid_amounts (fields (deref s r)))))
      as [Hgt|Hle]; [done|].
    apply after_save_inr in Hout as (_ & _ & ->). rewrite stored_saved.
    exists (alter (append_paid amount) r (heap (listed s)) !!! r). split.
    + unfold stored. rewrite list_lookup_fmap. simpl. by rewrite Hr.
    + rewrite <- (deref_listed_fields s r) in Hle. unfold deref in Hle.
      rewrite list_lookup_total_alt, list_lookup_alter_eq.
      rewrite list_lookup_total_alt in Hle.
      destruct (heap (listed s) !! r) as [d|]; simpl in *.
      * unfold within_total. simpl. rewrite sum_snoc. lia.
      * unfold within_total, py.sum. simpl. lia.
Qed.

(** The second account of [negative_total], after its payment of 3. *)
Lemma payments_within_total_witness :
  (let d := deref (main.run negative_total empty_store) 1%nat in
   d ∈ stored (main.run negative_total empty_store)
   ∧ (within_total d ∨ unpaid_negative d))
  ∧ ∃ d, stored (main.run negative_total empty_store) !! 1%nat = Some d
         ∧ within_total d.
Proof.
  destruct payments_within_total as (Hempty & Hall & Hpay). split.
  - assert (deref (main.run negative_total empty_store) 1%nat
            ∈ stored (main.run negative_total empty_store)) as Hin.
    { apply list_elem_of_lookup. exists 1%nat. vm_compute. reflexivity. }
    split; [exact Hin|]. exact (Hall empty_store negative_total _ Hempty Hin).
  - apply (Hpay (main.run (take 3 negative_total) empty_store)
             1 3 (cookie 1) 30
             (main.RedirectResponse "/" 303 main.NoCookie)).
    vm_compute. reflexivity.
Defined.

(* ===================================================================== *)
(** ** The mutators of the store, out of range *)
(* ===================================================================== *)

(** C10. With an index outside [0, len(accounts)) each index-addressed
    mutator of [Database] returns normally and leaves the whole state as it
    was: the objects, both collections, both documents and the number of
    [save_data] calls. *)
Theorem mutators_out_of_range (s : State) (index : Z) :
  ¬ (0 ≤ index < Z.of_nat (length (accounts s))) →
  (∀ account_data, update_account index account_data s = (inr tt, s))
  ∧ database.delete_account index s = (inr tt, s)
  ∧ (∀ amount, add_paid_amount index amount s = (inr tt, s))
  ∧ (∀ locked, database.toggle_lock index locked s = (inr tt, s)).
Proof.
  intros Hout. apply in_range_false in Hout.
  unfold update_account, database.delete_account, add_paid_amount,
    database.toggle_lock. unfold_M.
  by rewrite Hout.
Qed.

(** Indices -1 and 1 on a store of one account. *)
Lemma mutators_out_of_range_witness :
  let s := main.run alice_pays empty_store in
  ¬ (0 ≤ -1 < Z.of_nat (length (accounts s)))
  ∧ ¬ (0 ≤ 1 < Z.of_nat (length (accounts s)))
  ∧ database.delete_account (-1) s = (inr tt, s)
  ∧ add_paid_amount 1 5 s = (inr tt, s).
Proof.
  intros s.
  assert (¬ (0 ≤ -1 < Z.of_nat (length (accounts s)))) as Hneg by lia.
  assert (¬ (0 ≤ 1 < Z.of_nat (length (accounts s)))) as Hone
    by (vm_compute; intros [_ H]; discriminate H).
  split; [exact Hneg|]. split; [exact Hone|]. split.
  - exact (proj1 (proj2 (mutators_out_of_range s (-1) Hneg))).
  - exact (proj1 (proj2 (proj2 (mutators_out_of_range s 1 Hone))) 5).
Defined.

(** In range or not, the mutators raise nothing of their own: only the
    [ValueError] of a write that failed. *)
Lemma mutators_return (s : State) (index : Z) :
  let returns (r : py.Exn + unit) := r = inr tt ∨ r = inl py.ValueError in
  (∀ account_data, returns (update_account index account_data s).1)
  ∧ returns (database.delete_account index s).1
  ∧ (∀ amount, returns (add_paid_amount index amount s).1)
  ∧ (∀ locked, returns (database.toggle_lock index locked s).1).
Proof.
  intros returns.
  assert (∀ s', returns (save_data s').1) as Hsave.
  { intros s'. rewrite save_data_after_save.
    destruct (after_save_cases tt s') as [[_ ->]|[_ ->]]; [by left|by right]. }
  destruct (index_cases s index) as [(H0 & r & Hr)|Hout].
  - destruct (lookup_index _ _ _ H0 Hr) as [Hi _].
    split_and!; intros.
    + by rewrite update_account_eq.
    + by rewrite delete_account_eq.
    + by rewrite (add_paid_amount_eq _ _ _ r).
    + by rewrite (toggle_lock_eq _ _ _ r).
  - apply in_range_false in Hout.
    unfold update_account, database.delete_account, add_paid_amount,
      database.toggle_lock. unfold_M.
    rewrite Hout. split_and!; intros; by left.
Qed.

(* ===================================================================== *)
(** ** Sessions *)
(* ===================================================================== *)

(** What a successful [login] at time [T] leaves in the store. *)
Lemma login_session (u : N) (name : string) (viewer_mode : bool) (T : Z)
  (s0 s1 : State) (url : string) (code : Z) (c : main.Cookie) :
  main.login u name viewer_mode T s0
  = (inr (main.RedirectResponse url code c), s1) →
  ∃ session, sessions s1 !! py.str_uuid u = Some session
             ∧ login_time session = T
             ∧ is_viewer session = viewer_mode.
Proof.
  rewrite login_eq.
  destruct viewer_mode; [|case_bool_decide]; cbn [negb andb];
    intros Heq; try discriminate;
    apply after_save_inr in Heq as (_ & _ & ->); eexists;
    rewrite saved_sessions; cbn [sessions set_sessions];
    (split; [apply lookup_insert_eq|done]).
Qed.

(** A [login] that returned its redirect wrote the documents, so every
    stored dict can be dumped. *)
Lemma login_writable (u : N) (name : string) (viewer_mode : bool) (T : Z)
  (s0 s1 : State) (url : string) (code : Z) (c : main.Cookie) :
  main.login u name viewer_mode T s0
  = (inr (main.RedirectResponse url code c), s1) →
  writable s1.
Proof.
  rewrite login_eq.
  destruct viewer_mode; [|case_bool_decide]; cbn [negb andb];
    intros Heq; try discriminate;
    apply after_save_inr in Heq as (Hw & _ & ->); by apply writable_saved.
Qed.

(** The requests of [overlong_remaining]: the first payment is written with
    a cached remaining amount of 4300 digits; the listing of the second
    caches one of 4301 digits, the payment is appended and the write
    fails. *)
Lemma overlong_remaining_trace :
  let redirect := main.RedirectResponse "/" 303 main.NoCookie in
  let s := main.run overlong_remaining empty_store in
  main.responses overlong_remaining empty_store
  = [ inr (main.RedirectResponse "/" 303
             (main.SetCookie "session_id" (py.str_uuid 1) true 86400));
      inr redirect; inr redirect; inl py.ValueError ]
  ∧ py.str_int (py.int_limit - 1) = true
  ∧ py.str_int py.int_limit = false
  ∧ (total_amount ∘ fields <$> stored s) = [py.int_limit - 1]
  ∧ (paid_amounts ∘ fields <$> stored s) = [[-1; 0]]
  ∧ (remaining_amount <$> stored s) = [Some py.int_limit]
  ∧ ¬ writable s
  ∧ DATA_FILE s = Unreadable
  ∧ saves s = 3%nat.
Proof.
  intros redirect s. split_and!; try (vm_compute; reflexivity).
  vm_compute. intros H. discriminate H.
Qed.

(** C8, as stated: an expired session is deleted, the state persisted and
    [None] returned.  Below, alice's dict holds a remaining amount of 4301
    digits, which [json.dump] refuses.  Her session, a day old, is deleted
    from the store; then [save_data] raises, so nothing is returned, the
    accounts document is cut short and the sessions document still lists
    the session. *)
Lemma expired_session_write_fails :
  let s := main.run overlong_remaining empty_store in
  let alice := {| username := "alice"; is_viewer := false; login_time := 0 |} in
  let out := main.get_session (cookie 1) (py.timedelta_hours 24) s in
  sessions s !! py.str_uuid 1 = Some alice
  ∧ remaining_amount <$> stored s = [Some py.int_limit]
  ∧ out.1 = inl py.ValueError
  ∧ out.1 ≠ inr None
  ∧ sessions out.2 !! py.str_uuid 1 = None
  ∧ DATA_FILE out.2 = Unreadable
  ∧ SESSIONS_FILE out.2 = Some (sessions s).
Proof.
  intros s alice out. split_and!; try (vm_compute; reflexivity).
  vm_compute. intros H. discriminate H.
Qed.

(** C8, amended.  A stored session with login time [T] is returned by
    [get_session] exactly when [now - T < 24h], and then nothing changes;
    from 24 hours on it is deleted from the store and [save_data] is called:
    when every integer of the stored dicts has at most 4300 digits both
    documents are rewritten and [None] is returned, and otherwise
    [ValueError] is raised with the accounts document cut short and the
    sessions document as it was.  So a session is resolved at [T + 23h59m]
    and not at [T + 24h01m], and the session a [login] at [T] creates is
    resolved at the first and gives [None] at the second.  A token is the
    text of a UUID, never the empty string (which [get_session] takes for
    a missing cookie). *)
Theorem session_expiry (s : State) (sid : string) (session : UserSession)
  (now : Z) :
  sid ≠ "" → sessions s !! sid = Some session →
  let T := login_time session in
  let out := main.get_session (Some sid) now s in
  (out.1 = inr (Some session) ↔ now - T < py.timedelta_hours 24)
  ∧ (now - T < py.timedelta_hours 24 → out = (inr (Some session), s))
  ∧ (py.timedelta_hours 24 ≤ now - T →
       sessions out.2 = delete sid (sessions s)
       ∧ sessions out.2 !! sid = None
       ∧ heap out.2 = heap s ∧ accounts out.2 = accounts s
       ∧ (writable s →
            out.1 = inr None
            ∧ SESSIONS_FILE out.2 = Some (sessions out.2)
            ∧ DATA_FILE out.2 = Parsed (stored out.2)
            ∧ saves out.2 = S (saves s))
       ∧ (¬ writable s →
            out.1 = inl py.ValueError
            ∧ SESSIONS_FILE out.2 = SESSIONS_FILE s
            ∧ DATA_FILE out.2 = Unreadable
            ∧ saves out.2 = saves s))
  ∧ (now = T + py.timedelta_hours 23 + py.timedelta_minutes 59 →
       out.1 = inr (Some session))
  ∧ (now = T + py.timedelta_hours 24 + py.timedelta_minutes 1 →
       out.1 ≠ inr (Some session) ∧ (writable s → out.1 = inr None))
  ∧ (∀ u name viewer_mode T' s0 s1 url code c,
       main.login u name viewer_mode T' s0
       = (inr (main.RedirectResponse url code c), s1) →
       ∃ created,
         login_time created = T'
         ∧ (main.get_session (cookie u)
              (T' + py.timedelta_hours 23 + py.timedelta_minutes 59) s1).1
           = inr (Some created)
         ∧ (main.get_session (cookie u)
              (T' + py.timedelta_hours 24 + py.timedelta_minutes 1) s1).1
           = inr None).
Proof.
  intros Hsid Hs T out.
  assert (now - T < py.timedelta_hours 24 → out = (inr (Some session), s))
    as Hfresh by (intros; by apply get_session_fresh).
  assert (py.timedelta_hours 24 ≤ now - T →
          out = after_save None (set_sessions (delete sid (sessions s)) s))
    as Hstale.
  { intros Hge. apply get_session_stale with session; try done.
    unfold fresh. fold T. lia. }
  destruct (after_save_outcome (@None UserSession)
              (set_sessions (delete sid (sessions s)) s))
    as (Hh & Ha & Hss & Hst & Hok & Hfail).
  assert (py.timedelta_hours 24 ≤ now - T → out.1 ≠ inr (Some session))
    as Hnot.
  { intros Hge. rewrite (Hstale Hge).
    by destruct (after_save_cases (@None UserSession)
                   (set_sessions (delete sid (sessions s)) s))
      as [[_ ->]|[_ ->]]. }
  split_and!.
  - split.
    + intros Hout. destruct (Z.lt_ge_cases (now - T) (py.timedelta_hours 24))
        as [Hlt|Hge]; [done|]. by destruct (Hnot Hge).
    + intros Hlt. by rewrite (Hfresh Hlt).
  - exact Hfresh.
  - intros Hge. rewrite (Hstale Hge), Hss, Hh, Ha, Hst.
    split_and!; try done.
    + apply lookup_delete_eq.
    + intros Hw. destruct (Hok Hw) as (-> & -> & -> & ->). by split_and!.
    + intros Hw. destruct (Hfail Hw) as (-> & -> & -> & ->). by split_and!.
  - intros ->. rewrite Hfresh; [done|].
    unfold py.timedelta_hours, py.timedelta_minutes. lia.
  - intros ->.
    assert (py.timedelta_hours 24
            ≤ T + py.timedelta_hours 24 + py.timedelta_minutes 1 - T) as Hge
      by (unfold py.timedelta_hours, py.timedelta_minutes; lia).
    split; [by apply Hnot|].
    intros Hw. rewrite (Hstale Hge). by destruct (Hok Hw) as (-> & _).
  - intros u name viewer_mode T' s0 s1 url code c Hlogin.
    destruct (login_session _ _ _ _ _ _ _ _ _ Hlogin)
      as (created & Hcreated & Htime & _).
    pose proof (login_writable _ _ _ _ _ _ _ _ _ Hlogin) as Hw1.
    exists created. unfold cookie. split_and!; [done| |].
    + rewrite (get_session_fresh s1 _ created _
                 (str_uuid_nonempty u) Hcreated); [done|].
      unfold fresh, py.timedelta_hours, py.timedelta_minutes. lia.
    + rewrite (get_session_stale s1 _ created _
                 (str_uuid_nonempty u) Hcreated).
      * by rewrite after_save_ok.
      * unfold fresh, py.timedelta_hours, py.timedelta_minutes. lia.
Qed.

(** One microsecond before, and exactly at, 24 hours after the login. *)
Lemma session_expiry_witness :
  let s := main.run [main.POST_login 7 "alice" false 1000] empty_store in
  let session :=
    {| username := "alice"; is_viewer := false; login_time := 1000 |} in
  py.str_uuid 7 ≠ ""
  ∧ sessions s !! py.str_uuid 7 = Some session
  ∧ writable s
  ∧ (main.get_session (cookie 7) (1000 + 86399999999) s).1
    = inr (Some session)
  ∧ (main.get_session (cookie 7) (1000 + 86400000000) s).1 = inr None.
Proof.
  intros s session.
  assert (py.str_uuid 7 ≠ "") as Hsid by apply str_uuid_nonempty.
  assert (sessions s !! py.str_uuid 7 = Some session) as Hs
    by (vm_compute; reflexivity).
  assert (writable s) as Hw by (vm_compute; reflexivity).
  split; [exact Hsid|]. split; [exact Hs|]. split; [exact Hw|]. split.
  - apply (proj1 (session_expiry s _ session (1000 + 86399999999) Hsid Hs)).
    vm_compute. reflexivity.
  - destruct (session_expiry s _ session (1000 + 86400000000) Hsid Hs)
      as (_ & _ & Hstale & _).
    destruct Hstale as (_ & _ & _ & _ & Hok & _).
    + vm_compute. discriminate.
    + exact (proj1 (Hok Hw)).
Defined.

(** Tokens of the sessions of every reachable state are not empty. *)
Lemma reachable_tokens_nonempty (rs : list main.Request) :
  tokens_nonempty (main.run rs empty_store).
Proof. by apply (run_invariant _ tokens_nonempty_mutation). Qed.

(* ===================================================================== *)
(** ** The stored records after each effect *)
(* ===================================================================== *)

Lemma stored_alloc (s : State) (d : Dict) :
  well_formed s →
  stored (set_accounts (accounts s ++ [length (heap s)])
            (set_heap (heap s ++ [d]) s))
  = (stored s ++ [d])%list.
Proof.
  intros [Hwf _]. unfold stored, deref. simpl. rewrite fmap_app. f_equal.
  - apply Forall_fmap_ext_1. eapply Forall_impl; [exact Hwf|].
    intros r Hr. simpl in Hr. by rewrite lookup_total_app_l.
  - simpl. by rewrite list_lookup_total_middle.
Qed.

Lemma stored_pop (s : State) (i : nat) :
  stored (set_accounts (delete i (accounts s)) s) = delete i (stored s).
Proof. unfold stored, deref. simpl. apply list_fmap_delete. Qed.

Lemma stored_listed (s : State) :
  well_formed s → stored (listed s) = set_remaining <$> stored s.
Proof.
  intros [Hwf _]. unfold stored, deref, listed. simpl.
  rewrite <- list_fmap_compose. apply Forall_fmap_ext_1.
  rewrite Forall_forall in Hwf |- *. intros r Hr. simpl.
  destruct (lookup_lt_is_Some_2 (heap s) r (Hwf r Hr)) as [d Hd].
  rewrite (list_lookup_total_correct _ _ _ Hd).
  apply list_lookup_total_correct. rewrite compute_remaining_lookup.
  by rewrite decide_True, Hd.
Qed.

Lemma stored_alter (s : State) (f : Dict → Dict) (idx : nat) (r : ref) :
  well_formed s → accounts s !! idx = Some r →
  stored (set_heap (alter f r (heap s)) s) = alter f idx (stored s).
Proof.
  intros [Hwf Hnd] Hr. unfold stored, deref. simpl.
  apply list_eq. intros i.
  rewrite list_lookup_alter, !list_lookup_fmap.
  destruct (accounts s !! i) as [r'|] eqn:Hr'; simpl.
  - assert (r' < length (heap s))%nat as Hlt
      by apply (Forall_lookup_1 _ _ _ _ Hwf Hr').
    destruct (lookup_lt_is_Some_2 (heap s) r' Hlt) as [d Hd].
    case_decide as Hi.
    + subst i. rewrite Hr. simpl. assert (r' = r) as -> by congruence.
      f_equal. rewrite !list_lookup_total_alt, list_lookup_alter_eq.
      by rewrite Hd.
    + f_equal. rewrite list_lookup_total_alter_ne; [done|].
      intros ->. apply Hi. by apply (NoDup_lookup _ _ _ _ Hnd Hr Hr').
  - case_decide as Hi; [|done]. subst i. by rewrite Hr in Hr'.
Qed.

(* ===================================================================== *)
(** ** Creating an account *)
(* ===================================================================== *)

Lemma writable_alloc (s : State) (account : AccountRecord) :
  well_formed s → paid_amounts account = [] →
  writable (set_accounts (accounts s ++ [length (heap s)])
              (set_heap (heap s ++ [dict account]) s))
  ↔ writable s ∧ py.str_int (total_amount account) = true.
Proof.
  intros Hwf Hpaid. unfold writable. rewrite stored_alloc by done.
  rewrite forallb_app, andb_true_iff. cbn [forallb].
  unfold json_dumps at 2. cbn [dict fields remaining_amount from_option].
  rewrite Hpaid. cbn [forallb]. by rewrite !andb_true_r.
Qed.

(** C9, as stated: with a user's session and a code of the mapping, one
    record is appended and the state persisted.  Below, alice's first dict
    holds a remaining amount of 4301 digits, which [json.dump] refuses: the
    new record is appended to the store, then [save_data] raises, so no
    redirect is returned and the accounts document is cut short. *)
Lemma add_account_write_fails :
  let s := main.run overlong_remaining empty_store in
  let alice := {| username := "alice"; is_viewer := false; login_time := 0 |} in
  let out := main.add_account "1002" 5 (cookie 1) 40 40 s in
  (main.get_session (cookie 1) 40 s).1 = inr (Some alice)
  ∧ ACCOUNT_MAPPING !! "1002" = Some "国寿投资专户"
  ∧ remaining_amount <$> stored s = [Some py.int_limit]
  ∧ out.1 = inl py.ValueError
  ∧ account_code ∘ fields <$> stored out.2 = ["1001"; "1002"]
  ∧ DATA_FILE out.2 = Unreadable.
Proof.
  intros s alice out. split_and!; vm_compute; reflexivity.
Qed.

(** C9, amended.  With a resolved session, [add_account] raises 403 for a
    viewer and, for another user, 400 when the code is not a key of
    [ACCOUNT_MAPPING]; either way the state is untouched.  Otherwise exactly
    one record is appended, with the user's name as manager and the mapped
    name, and [save_data] is called: when the total and every integer of
    the stored dicts have at most 4300 digits, both documents are rewritten
    and the redirect is returned; otherwise [ValueError] is raised with the
    accounts document cut short and the sessions document as it was. *)
Theorem add_account_outcome (s : State) (session_id : option string)
  (now now' : Z) (session : UserSession) (code : string) (total : Z) :
  well_formed s →
  (main.get_session session_id now s).1 = inr (Some session) →
  let out := main.add_account code total session_id now now' s in
  (is_viewer session = true →
     out = (inl (py.HTTPException 403 "浏览模式无法添加账户"), s))
  ∧ (is_viewer session = false → ACCOUNT_MAPPING !! code = None →
     out = (inl (py.HTTPException 400 "无效的账户编码"), s))
  ∧ (is_viewer session = false →
     ∀ name, ACCOUNT_MAPPING !! code = Some name →
       stored out.2
       = (stored s
          ++ [ {| fields :=
                    {| account_code := code; account_name := name;
                       total_amount := total; manager := username session;
                       created_time := now'; paid_amounts := [];
                       locked := false |};
                  remaining_amount := None |} ])%list
       ∧ sessions out.2 = sessions s
       ∧ (writable s → py.str_int total = true →
            out.1 = inr (main.RedirectResponse "/" 303 main.NoCookie)
            ∧ DATA_FILE out.2 = Parsed (stored out.2)
            ∧ SESSIONS_FILE out.2 = Some (sessions out.2)
            ∧ saves out.2 = S (saves s))
       ∧ (¬ (writable s ∧ py.str_int total = true) →
            out.1 = inl py.ValueError
            ∧ DATA_FILE out.2 = Unreadable
            ∧ SESSIONS_FILE out.2 = SESSIONS_FILE s
            ∧ saves out.2 = saves s)).
Proof.
  intros Hwf Hres out.
  destruct (get_session_Some _ _ _ _ Hres) as [Heq _].
  subst out. rewrite (add_account_handler_eq _ _ _ _ _ _ _ Heq).
  split_and!.
  - by intros ->.
  - by intros -> ->.
  - intros -> name ->. cbv zeta.
    match goal with
    | |- context [after_save ?a ?X] =>
        destruct (after_save_outcome a X) as (_ & _ & Hss & Hst & Hok & Hfail);
        pose proof (writable_alloc s
                      {| account_code := code; account_name := name;
                         total_amount := total; manager := username session;
                         created_time := now'; paid_amounts := [];
                         locked := false |} Hwf eq_refl) as Hw
    end.
    rewrite Hst, Hss, stored_alloc by done. split_and!; try done.
    + intros Hs Ht. destruct Hok as (-> & -> & -> & ->); [by apply Hw|].
      by rewrite stored_alloc.
    + intros Hno. destruct Hfail as (-> & -> & -> & ->); [|done].
      intros Hyes. by apply Hno, Hw.
Qed.

(** A viewer, an unknown code, and a creation that goes through. *)
Lemma add_account_outcome_witness :
  let s := main.run [main.POST_login 1 "alice" false 0;
                     main.POST_login 2 "" true 0] empty_store in
  let alice := {| username := "alice"; is_viewer := false; login_time := 0 |} in
  let viewer :=
    {| username := main.VIEWER; is_viewer := true; login_time := 0 |} in
  well_formed s
  ∧ (main.get_session (cookie 1) 5 s).1 = inr (Some alice)
  ∧ (main.get_session (cookie 2) 5 s).1 = inr (Some viewer)
  ∧ writable s ∧ py.str_int 1000 = true
  ∧ main.add_account "1001" 1000 (cookie 2) 5 6 s
    = (inl (py.HTTPException 403 "浏览模式无法添加账户"), s)
  ∧ main.add_account "9999" 1000 (cookie 1) 5 6 s
    = (inl (py.HTTPException 400 "无效的账户编码"), s)
  ∧ (main.add_account "1001" 1000 (cookie 1) 5 6 s).1
    = inr (main.RedirectResponse "/" 303 main.NoCookie).
Proof.
  intros s alice viewer.
  assert (well_formed s) as Hwf by (apply well_formed_run, well_formed_empty).
  assert ((main.get_session (cookie 1) 5 s).1 = inr (Some alice)) as Ha
    by (vm_compute; reflexivity).
  assert ((main.get_session (cookie 2) 5 s).1 = inr (Some viewer)) as Hv
    by (vm_compute; reflexivity).
  assert (writable s) as Hw by (vm_compute; reflexivity).
  assert (py.str_int 1000 = true) as Ht by (vm_compute; reflexivity).
  split; [exact Hwf|]. split; [exact Ha|]. split; [exact Hv|].
  split; [exact Hw|]. split; [exact Ht|]. split_and!.
  - exact (proj1 (add_account_outcome s _ 5 6 viewer "1001" 1000 Hwf Hv)
             eq_refl).
  - refine (proj1 (proj2 (add_account_outcome s _ 5 6 alice "9999" 1000
                            Hwf Ha)) eq_refl _).
    vm_compute. reflexivity.
  - destruct (proj2 (proj2 (add_account_outcome s _ 5 6 alice "1001" 1000
                              Hwf Ha)) eq_refl "平安保险养老金")
      as (_ & _ & Hok & _).
    + vm_compute. reflexivity.
    + exact (proj1 (Hok Hw Ht)).
Defined.

(* ===================================================================== *)
(** ** Viewers and the lock *)
(* ===================================================================== *)

Lemma viewers_named_empty : viewers_named empty_store.
Proof. intros sid session Hs. simpl in Hs. by rewrite lookup_empty in Hs. Qed.

(** C5, as stated: no manager is ever the viewer's name, so a viewer never
    toggles a lock.  [login] does not reserve the name: the account below
    is managed by it, and the viewer session locks it. *)
Lemma viewer_toggles_namesake_account :
  let s := main.run viewer_namesake empty_store in
  let out := main.toggle_lock 0 (cookie 2) 30 s in
  manager (fields (deref s 0%nat)) = main.VIEWER
  ∧ deref s 0%nat ∈ stored s
  ∧ (main.get_session (cookie 2) 30 s).1
    = inr (Some {| username := main.VIEWER; is_viewer := true;
                   login_time := 20 |})
  ∧ out.1 = inr (main.RedirectResponse "/" 303 main.NoCookie)
  ∧ locked (fields (deref s 0%nat)) = false
  ∧ locked (fields (deref out.2 0%nat)) = true.
Proof.
  intros s out. split_and!; try (vm_compute; reflexivity).
  apply list_elem_of_lookup. exists 0%nat. vm_compute. reflexivity.
Qed.

(** C5, amended.  In every state reached from the empty store (or from any
    store where this holds) a viewer session carries the viewer's name, and
    [toggle_lock] called with it on an account of the listing raises 403
    exactly when the manager of the account is not that name, whatever the
    lock. *)
Theorem viewer_toggle_lock (s0 : State) (rs : list main.Request)
  (session_id : option string) (now : Z) (session : UserSession)
  (idx : Z) (r : ref) :
  viewers_named s0 →
  let s := main.run rs s0 in
  (main.get_session session_id now s).1 = inr (Some session) →
  is_viewer session = true →
  0 ≤ idx → accounts s !! Z.to_nat idx = Some r →
  username session = main.VIEWER
  ∧ ((main.toggle_lock idx session_id now s).1
     = inl (py.HTTPException 403 "只能操作自己的账户")
     ↔ manager (fields (deref s r)) ≠ main.VIEWER).
Proof.
  intros Hs0 s Hres Hviewer H0 Hr.
  destruct (get_session_Some _ _ _ _ Hres) as [Heq (sid & _ & _ & Hs & _)].
  assert (username session = main.VIEWER) as Hname
    by apply (run_invariant _ viewers_named_mutation rs s0 Hs0
                sid session Hs Hviewer).
  split; [done|].
  rewrite (toggle_lock_handler_eq _ _ _ _ _ _ Heq H0 Hr). cbv zeta.
  rewrite Hname. case_bool_decide as Hm; cbn [negb fst].
  - split; [|by intros []].
    by destruct (after_save_cases
                   (main.RedirectResponse "/" 303 main.NoCookie)
                   (set_heap
                      (alter (set_locked (negb (locked (fields (deref s r)))))
                         r (heap (listed s))) (listed s)))
      as [[_ ->]|[_ ->]].
  - by split.
Qed.

(** A viewer against alice's account. *)
Lemma viewer_toggle_lock_witness :
  let rs := [ main.POST_login 1 "alice" false 0;
              main.POST_add_account "1001" 100 (cookie 1) 10 10;
              main.POST_login 2 "" true 20 ] in
  let s := main.run rs empty_store in
  let viewer :=
    {| username := main.VIEWER; is_viewer := true; login_time := 20 |} in
  viewers_named empty_store
  ∧ (main.get_session (cookie 2) 30 s).1 = inr (Some viewer)
  ∧ accounts s !! Z.to_nat 0 = Some 0%nat
  ∧ (main.toggle_lock 0 (cookie 2) 30 s).1
    = inl (py.HTTPException 403 "只能操作自己的账户").
Proof.
  intros rs s viewer.
  assert ((main.get_session (cookie 2) 30 s).1 = inr (Some viewer)) as Hv
    by (vm_compute; reflexivity).
  assert (accounts s !! Z.to_nat 0 = Some 0%nat) as Hr
    by (vm_compute; reflexivity).
  split; [exact viewers_named_empty|]. split; [exact Hv|]. split; [exact Hr|].
  refine (proj2 (proj2 (viewer_toggle_lock empty_store rs (cookie 2) 30
                          viewer 0 0%nat viewers_named_empty
                          Hv eq_refl _ Hr)) _).
  - lia.
  - vm_compute. intros H. discriminate H.
Defined.

(* ===================================================================== *)
(** ** Payments, locks and deletions through the handlers *)
(* ===================================================================== *)

(** The listing leaves everything but the dicts as it was, and in the dicts
    everything but ['remaining_amount']. *)
Lemma listed_frame (s : State) :
  accounts (listed s) = accounts s
  ∧ sessions (listed s) = sessions s
  ∧ DATA_FILE (listed s) = DATA_FILE s
  ∧ SESSIONS_FILE (listed s) = SESSIONS_FILE s
  ∧ saves (listed s) = saves s
  ∧ fields <$> stored (listed s) = fields <$> stored s.
Proof. split_and!; try reflexivity. apply stored_listing. Qed.

Lemma well_formed_listed (s : State) : well_formed s → well_formed (listed s).
Proof. apply well_formed_mutation, mut_listing. Qed.

(** With a resolved session, an account of the listing and no lock held by
    somebody else: the payment is refused with 400 exactly when it exceeds
    the remaining amount, and then no payment is recorded and nothing is
    written to disk; otherwise it is appended to the account's payments
    and [save_data] is called.  Either way the dicts carry the
    ['remaining_amount'] computed before the payment. *)
Lemma add_payment_outcome (s : State) (session_id : option string) (now : Z)
  (session : UserSession) (idx amount : Z) (r : ref) :
  well_formed s →
  (main.get_session session_id now s).1 = inr (Some session) →
  0 ≤ idx → accounts s !! Z.to_nat idx = Some r →
  let account := fields (deref s r) in
  ¬ (locked account = true ∧ manager account ≠ username session) →
  let remaining := total_amount account - py.sum (paid_amounts account) in
  let out := main.add_payment idx amount session_id now s in
  (out.1 = inl (py.HTTPException 400 "支付金额超过剩余金额")
   ↔ amount > remaining)
  ∧ (amount > remaining →
       out.2 = listed s ∧ stored out.2 = set_remaining <$> stored s)
  ∧ (amount ≤ remaining →
       stored out.2
       = alter (append_paid amount) (Z.to_nat idx)
           (set_remaining <$> stored s)
       ∧ sessions out.2 = sessions s
       ∧ write_outcome (main.RedirectResponse "/" 303 main.NoCookie) s out).
Proof.
  intros Hwf Hres H0 Hr account Hlock remaining out.
  destruct (get_session_Some _ _ _ _ Hres) as [Heq _].
  subst out. rewrite (add_payment_eq _ _ _ _ _ _ _ Heq H0 Hr). cbv zeta.
  fold account. fold remaining.
  replace (locked account
           && negb (bool_decide (manager account = username session)))
    with false.
  2: { symmetry. apply not_true_iff_false. intros Hb. apply Hlock.
       apply andb_true_iff in Hb as [? Hb]. split; [done|].
       apply negb_true_iff, bool_decide_eq_false in Hb. done. }
  destruct (Z.gtb_spec amount remaining) as [Hgt|Hle]; cbn [fst snd].
  - split_and!.
    + split; [lia|done].
    + intros _. split; [done|]. by apply stored_listed.
    + lia.
  - split_and!.
    + split; [|lia].
      by destruct (after_save_cases
                     (main.RedirectResponse "/" 303 main.NoCookie)
                     (set_heap (alter (append_paid amount) r
                                  (heap (listed s))) (listed s)))
        as [[_ ->]|[_ ->]].
    + lia.
    + intros _. rewrite after_save_snd, saved_sessions, stored_saved.
      split_and!; [|done|by apply after_save_write_outcome].
      rewrite (stored_alter (listed s) _ (Z.to_nat idx) r);
        [|by apply well_formed_listed|done].
      by rewrite stored_listed.
Qed.

(** C4.  A refused payment still goes through [get_all_accounts], whose
    loop writes ['remaining_amount'] into the stored dicts (see C2): the
    accounts collection is not what it was before the call. *)
Theorem refused_payment_changes_store :
  let s := main.run alice_creates empty_store in
  let out := main.add_payment 0 2000 (cookie 1) 20 s in
  (main.get_session (cookie 1) 20 s).1
  = inr (Some {| username := "alice"; is_viewer := false; login_time := 0 |})
  ∧ out.1 = inl (py.HTTPException 400 "支付金额超过剩余金额")
  ∧ remaining_amount <$> stored s = [None]
  ∧ remaining_amount <$> stored out.2 = [Some 1000]
  ∧ stored out.2 ≠ stored s.
Proof.
  intros s out. split_and!; try (vm_compute; reflexivity).
  vm_compute. intros H. discriminate H.
Qed.

(** With a resolved session and an account of the listing: the lock is
    flipped exactly when the user is the manager, and then [save_data] is
    called; otherwise 403 is raised and nothing is written to disk.
    Either way the dicts carry a fresh ['remaining_amount']. *)
Lemma toggle_lock_outcome (s : State) (session_id : option string) (now : Z)
  (session : UserSession) (idx : Z) (r : ref) :
  well_formed s →
  (main.get_session session_id now s).1 = inr (Some session) →
  0 ≤ idx → accounts s !! Z.to_nat idx = Some r →
  let account := fields (deref s r) in
  let out := main.toggle_lock idx session_id now s in
  (out.1 = inl (py.HTTPException 403 "只能操作自己的账户")
   ↔ username session ≠ manager account)
  ∧ (username session = manager account →
       stored out.2
       = alter (set_locked (negb (locked account))) (Z.to_nat idx)
           (set_remaining <$> stored s)
       ∧ sessions out.2 = sessions s
       ∧ write_outcome (main.RedirectResponse "/" 303 main.NoCookie) s out)
  ∧ (username session ≠ manager account →
       out.2 = listed s ∧ stored out.2 = set_remaining <$> stored s).
Proof.
  intros Hwf Hres H0 Hr account out.
  destruct (get_session_Some _ _ _ _ Hres) as [Heq _].
  subst out. rewrite (toggle_lock_handler_eq _ _ _ _ _ _ Heq H0 Hr). cbv zeta.
  fold account. case_bool_decide as Hm; cbn [negb fst snd].
  - split_and!.
    + split; [|intros Hne; by destruct Hne].
      by destruct (after_save_cases
                     (main.RedirectResponse "/" 303 main.NoCookie)
                     (set_heap (alter (set_locked (negb (locked account))) r
                                  (heap (listed s))) (listed s)))
        as [[_ ->]|[_ ->]].
    + intros _. rewrite after_save_snd, saved_sessions, stored_saved.
      split_and!; [|done|by apply after_save_write_outcome].
      rewrite (stored_alter (listed s) _ (Z.to_nat idx) r);
        [|by apply well_formed_listed|done].
      by rewrite stored_listed.
    + intros Hne. by destruct Hne.
  - split_and!.
    + split; [|done]. intros _ Heq'. by destruct Hm.
    + intros Heq'. by destruct Hm.
    + intros _. split; [done|]. by apply stored_listed.
Qed.

(** C6.  When [toggle_lock] refuses, and when it succeeds, the stored dicts
    have been through the loop of [get_all_accounts] (see C2): the state is
    not unchanged on refusal, and the dicts gain a key on success. *)
Theorem refused_toggle_changes_store :
  let s := main.run alice_and_bob empty_store in
  let refused := main.toggle_lock 0 (cookie 2) 20 s in
  let done := main.toggle_lock 0 (cookie 1) 20 s in
  (main.get_session (cookie 2) 20 s).1
  = inr (Some {| username := "bob"; is_viewer := false; login_time := 15 |})
  ∧ refused.1 = inl (py.HTTPException 403 "只能操作自己的账户")
  ∧ remaining_amount <$> stored s = [None]
  ∧ remaining_amount <$> stored refused.2 = [Some 1000]
  ∧ refused.2 ≠ s
  ∧ done.1 = inr (main.RedirectResponse "/" 303 main.NoCookie)
  ∧ remaining_amount <$> stored done.2 = [Some 1000].
Proof.
  intros s refused done. split_and!; try (vm_compute; reflexivity).
  intros Heq. apply (f_equal (λ s, remaining_amount <$> stored s)) in Heq.
  vm_compute in Heq. discriminate Heq.
Qed.

(** With a resolved session and an account of the listing: the record is
    removed exactly when the user is the manager or a viewer, and then
    [save_data] is called; otherwise 403 is raised and nothing is written
    to disk.  Either way the dicts carry a fresh ['remaining_amount']. *)
Lemma delete_account_outcome (s : State) (session_id : option string)
  (now : Z) (session : UserSession) (idx : Z) (r : ref) :
  well_formed s →
  (main.get_session session_id now s).1 = inr (Some session) →
  0 ≤ idx → accounts s !! Z.to_nat idx = Some r →
  let account := fields (deref s r) in
  let allowed := username session = manager account
                 ∨ is_viewer session = true in
  let out := main.delete_account idx session_id now s in
  (out.1 = inl (py.HTTPException 403 "只能删除自己的账户") ↔ ¬ allowed)
  ∧ (allowed →
       stored out.2 = delete (Z.to_nat idx) (set_remaining <$> stored s)
       ∧ sessions out.2 = sessions s
       ∧ write_outcome (main.RedirectResponse "/" 303 main.NoCookie) s out)
  ∧ (¬ allowed →
       out.2 = listed s ∧ stored out.2 = set_remaining <$> stored s).
Proof.
  intros Hwf Hres H0 Hr account allowed out.
  destruct (get_session_Some _ _ _ _ Hres) as [Heq _].
  subst out. rewrite (delete_account_handler_eq _ _ _ _ _ _ Heq H0 Hr).
  cbv zeta. fold account.
  assert (negb (bool_decide (manager account = username session))
          && negb (is_viewer session) = false ↔ allowed) as Hallowed.
  { unfold allowed. rewrite andb_false_iff, !negb_false_iff.
    rewrite bool_decide_eq_true. intuition. }
  destruct (negb _ && negb _); cbn [fst snd].
  - assert (¬ allowed) as Hno by (intros Ha; by apply Hallowed in Ha).
    split_and!.
    + by split.
    + done.
    + intros _. split; [done|]. by apply stored_listed.
  - assert allowed as Hyes by by apply Hallowed.
    split_and!.
    + split; [|done].
      by destruct (after_save_cases
                     (main.RedirectResponse "/" 303 main.NoCookie)
                     (set_accounts (delete (Z.to_nat idx) (accounts s))
                        (listed s)))
        as [[_ ->]|[_ ->]].
    + intros _. rewrite after_save_snd, saved_sessions, stored_saved.
      split_and!; [|done|by apply after_save_write_outcome].
      etrans; [apply (stored_pop (listed s))|]. by rewrite stored_listed.
    + done.
Qed.

(** C7.  A refused deletion still goes through [get_all_accounts], whose
    loop writes ['remaining_amount'] into the stored dicts (see C2): the
    accounts collection is not what it was before the call. *)
Theorem refused_deletion_changes_store :
  let s := main.run alice_and_bob empty_store in
  let out := main.delete_account 0 (cookie 2) 20 s in
  (main.get_session (cookie 2) 20 s).1
  = inr (Some {| username := "bob"; is_viewer := false; login_time := 15 |})
  ∧ out.1 = inl (py.HTTPException 403 "只能删除自己的账户")
  ∧ remaining_amount <$> stored s = [None]
  ∧ remaining_amount <$> stored out.2 = [Some 1000]
  ∧ stored out.2 ≠ stored s.
Proof.
  intros s out. split_and!; try (vm_compute; reflexivity).
  vm_compute. intros H. discriminate H.
Qed.

(* ===================================================================== *)
(** ** The sweep of expired sessions *)
(* ===================================================================== *)

Lemma lookup_foldr_delete (m : gmap string UserSession) (ks : list string)
  (k : string) :
  foldr delete m ks !! k = if decide (k ∈ ks) then None else m !! k.
Proof.
  induction ks as [|k0 ks IH]; cbn [foldr].
  - by rewrite decide_False by apply not_elem_of_nil.
  - rewrite lookup_delete, IH.
    destruct (decide (k0 = k)) as [->|Hne].
    + by rewrite decide_True by left.
    + destruct (decide (k ∈ ks)) as [Hin|Hnin].
      * rewrite decide_True; [done|]. by right.
      * rewrite decide_False; [done|].
        intros [->|Hin]%elem_of_cons; [by apply Hne|by apply Hnin].
Qed.

Lemma expired_fresh (t : Z) (session : UserSession) :
  expired t session = true ↔ ¬ fresh t session.
Proof. unfold expired, fresh. rewrite Z.leb_le. lia. Qed.

(** The tokens [cleanup_expired_sessions] collects. *)
Lemma expired_sessions_elem (t : Z) (m : gmap string UserSession)
  (sid : string) :
  sid ∈ (map_to_list (filter (λ kv, expired t kv.2 = true) m)).*1
  ↔ ∃ session, m !! sid = Some session ∧ ¬ fresh t session.
Proof.
  rewrite list_elem_of_fmap. split.
  - intros ([sid' session] & -> & Hin). exists session.
    apply elem_of_map_to_list, map_lookup_filter_Some in Hin as [Hm Hexp].
    split; [done|]. by apply expired_fresh.
  - intros (session & Hm & Hexp). exists (sid, session). split; [done|].
    apply elem_of_map_to_list, map_lookup_filter_Some. split; [done|].
    by apply expired_fresh.
Qed.

Lemma swept_lookup (t : Z) (m : gmap string UserSession) (sid : string)
  (session : UserSession) :
  foldr delete m (map_to_list (filter (λ kv, expired t kv.2 = true) m)).*1
  !! sid = Some session
  ↔ m !! sid = Some session ∧ fresh t session.
Proof.
  rewrite lookup_foldr_delete. case_decide as Hin.
  - apply expired_sessions_elem in Hin as (x & Hx & Hexp). split; [done|].
    intros [Hm Hf]. rewrite Hx in Hm. injection Hm as ->. by destruct Hexp.
  - split; [|by intros [? _]]. intros Hm. split; [done|].
    destruct (Z.lt_ge_cases (t - login_time session) (py.timedelta_hours 24))
      as [Hlt|Hge]; [done|].
    destruct Hin. apply expired_sessions_elem. exists session.
    split; [done|]. unfold fresh. lia.
Qed.

Lemma cleanup_expired_sessions_eq (t : Z) (s : State) :
  let sids :=
    (map_to_list (filter (λ kv, expired t kv.2 = true) (sessions s))).*1 in
  cleanup_expired_sessions t s
  = if bool_decide (sids = []) then (inr tt, s)
    else after_save tt (set_sessions (foldr delete (sessions s) sids) s).
Proof.
  intros sids. unfold cleanup_expired_sessions. unfold_M. cbv zeta.
  fold sids. case_bool_decide as Hnil.
  - rewrite Hnil. cbn [foldr]. by rewrite set_sessions_id.
  - apply save_data_after_save.
Qed.

(** Nothing to sweep: the state is returned as it is. *)
Lemma cleanup_nothing (t : Z) (s : State) :
  (∀ sid session, sessions s !! sid = Some session → fresh t session) →
  cleanup_expired_sessions t s = (inr tt, s).
Proof.
  intros Hall. rewrite cleanup_expired_sessions_eq. cbv zeta.
  rewrite bool_decide_eq_true_2; [done|].
  destruct (map_to_list _).*1 as [|sid sids] eqn:Hsids; [done|].
  assert (sid ∈ (map_to_list
            (filter (λ kv, expired t kv.2 = true) (sessions s))).*1) as Hin
    by (rewrite Hsids; left).
  apply expired_sessions_elem in Hin as (x & Hx & Hexp).
  destruct Hexp. by apply (Hall sid).
Qed.

(** What is left after a sweep is fresh at the time of the sweep. *)
Lemma cleanup_sessions (t : Z) (s : State) (sid : string)
  (session : UserSession) :
  sessions (cleanup_expired_sessions t s).2 !! sid = Some session
  ↔ sessions s !! sid = Some session ∧ fresh t session.
Proof.
  rewrite cleanup_expired_sessions_eq. cbv zeta.
  case_bool_decide as Hnil;
    [|rewrite after_save_snd, saved_sessions]; cbn [snd].
  - split; [|by intros [? _]]. intros Hm. split; [done|].
    destruct (Z.lt_ge_cases (t - login_time session) (py.timedelta_hours 24))
      as [Hlt|Hge]; [done|].
    assert (sid ∈ (map_to_list
              (filter (λ kv, expired t kv.2 = true) (sessions s))).*1) as Hin.
    { apply expired_sessions_elem. exists session. split; [done|].
      unfold fresh. lia. }
    rewrite Hnil in Hin. by apply elem_of_nil in Hin.
  - apply swept_lookup.
Qed.

Lemma cleanup_frame (t : Z) (s : State) :
  heap (cleanup_expired_sessions t s).2 = heap s
  ∧ accounts (cleanup_expired_sessions t s).2 = accounts s.
Proof.
  rewrite cleanup_expired_sessions_eq. cbv zeta.
  case_bool_decide; [done|]. rewrite after_save_snd.
  by destruct (saved_frame (set_sessions
                 (foldr delete (sessions s)
                    (map_to_list (filter (λ kv, expired t kv.2 = true)
                                    (sessions s))).*1) s)) as (-> & -> & _).
Qed.

(** X1. [cleanup_expired_sessions] keeps exactly the sessions younger than
    24 hours and never touches the accounts; when no session has expired
    it changes and writes nothing and returns, and when one has, it calls
    [save_data] once: both documents are rewritten when every integer of
    the stored dicts has at most 4300 digits, and otherwise [ValueError]
    is raised, with the accounts document cut short. *)
Theorem cleanup_expired_sessions_outcome (t : Z) (s : State) :
  let out := cleanup_expired_sessions t s in
  (∀ sid session,
     sessions out.2 !! sid = Some session
     ↔ sessions s !! sid = Some session
       ∧ t - login_time session < py.timedelta_hours 24)
  ∧ heap out.2 = heap s ∧ accounts out.2 = accounts s
  ∧ ((∀ sid session, sessions s !! sid = Some session →
                     t - login_time session < py.timedelta_hours 24) →
     out = (inr tt, s))
  ∧ ((∃ sid session, sessions s !! sid = Some session
                     ∧ py.timedelta_hours 24 ≤ t - login_time session) →
     write_outcome tt s out).
Proof.
  intros out. split_and!.
  - intros sid session. apply cleanup_sessions.
  - apply cleanup_frame.
  - apply cleanup_frame.
  - intros Hall. subst out. by rewrite cleanup_nothing.
  - intros (sid & session & Hm & Hge). subst out.
    rewrite cleanup_expired_sessions_eq. cbv zeta.
    rewrite bool_decide_eq_false_2; [by apply after_save_write_outcome|].
    intros Hnil.
    assert (sid ∈ (map_to_list
              (filter (λ kv, expired t kv.2 = true) (sessions s))).*1) as Hin.
    { apply expired_sessions_elem. exists session. split; [done|].
      unfold fresh. lia. }
    rewrite Hnil in Hin. by apply elem_of_nil in Hin.
Qed.

(** 24 hours after alice's login: her session goes, bob's stays. *)
Lemma cleanup_expired_sessions_outcome_witness :
  let s := main.run two_logins empty_store in
  let out := cleanup_expired_sessions 86400000000 s in
  sessions s !! py.str_uuid 1
  = Some {| username := "alice"; is_viewer := false; login_time := 0 |}
  ∧ sessions out.2 !! py.str_uuid 1 = None
  ∧ sessions out.2 !! py.str_uuid 2
    = Some {| username := "bob"; is_viewer := false;
              login_time := 80000000000 |}
  ∧ writable out.2
  ∧ out.1 = inr tt
  ∧ saves out.2 = S (saves s).
Proof.
  intros s out.
  destruct (cleanup_expired_sessions_outcome 86400000000 s)
    as (Hkeep & _ & _ & _ & Hwrite).
  assert (sessions s !! py.str_uuid 1
          = Some {| username := "alice"; is_viewer := false;
                    login_time := 0 |}) as Halice
    by (vm_compute; reflexivity).
  assert (writable out.2) as Hw by (vm_compute; reflexivity).
  destruct Hwrite as [Hok _].
  { eexists _, _. split; [exact Halice|].
    vm_compute. intros H. discriminate H. }
  destruct (Hok Hw) as (Hres & _ & _ & Hsaves).
  split; [exact Halice|]. split_and!.
  - destruct (sessions out.2 !! py.str_uuid 1) as [x|] eqn:Hx; [|reflexivity].
    apply Hkeep in Hx as [Hx Hlt]. rewrite Halice in Hx. injection Hx as <-.
    vm_compute in Hlt. discriminate Hlt.
  - apply Hkeep. split; vm_compute; reflexivity.
  - exact Hw.
  - exact Hres.
  - exact Hsaves.
Defined.

(** After a sweep at [t], a sweep or a [get_session] at a time no later
    than [t] finds nothing to remove. *)
Lemma swept_all_fresh (t t' : Z) (s : State) (sid : string)
  (session : UserSession) :
  t' ≤ t →
  sessions (cleanup_expired_sessions t s).2 !! sid = Some session →
  fresh t' session.
Proof.
  intros Hle [_ Hf]%cleanup_sessions. unfold fresh in *. lia.
Qed.

Lemma get_session_all_fresh (s : State) (session_id : option string)
  (now : Z) :
  (∀ sid session, sessions s !! sid = Some session → fresh now session) →
  (main.get_session session_id now s).2 = s.
Proof.
  intros Hall.
  destruct (get_session_cases s session_id now)
    as [(sid & sess & _ & _ & _ & _ & ->)
       |[(sid & sess & _ & _ & Hs & Hstale & _)| ->]]; try done.
  destruct Hstale. by apply (Hall sid).
Qed.

(** X2. Once [cleanup_expired_sessions] has run at [t], running it again,
    or resolving any cookie with [get_session], at a time not later than
    [t] changes nothing and writes nothing: whichever of the two expiry
    paths runs first leaves nothing for the other. *)
Theorem sweep_leaves_nothing_to_expire (t t' : Z) (s : State)
  (session_id : option string) :
  t' ≤ t →
  let s1 := (cleanup_expired_sessions t s).2 in
  cleanup_expired_sessions t' s1 = (inr tt, s1)
  ∧ (main.get_session session_id t' s1).2 = s1
  ∧ (main.get_session session_id t' s1).1
    = inr (match session_id with
           | Some sid => if bool_decide (sid = "") then None
                         else sessions s1 !! sid
           | None => None
           end).
Proof.
  intros Hle s1.
  assert (∀ sid session, sessions s1 !! sid = Some session → fresh t' session)
    as Hall by (intros sid session; by apply swept_all_fresh).
  split_and!.
  - by apply cleanup_nothing.
  - by apply get_session_all_fresh.
  - destruct session_id as [sid|]; [|done].
    case_bool_decide as Hsid.
    { subst sid. rewrite get_session_absent; [done|]. intros ? [= <-]. by left. }
    destruct (sessions s1 !! sid) as [session|] eqn:Hs.
    + rewrite (get_session_fresh s1 sid session); [done..|]. by apply (Hall sid).
    + rewrite get_session_absent; [done|]. intros ? [= <-]. by right.
Qed.

Lemma sweep_leaves_nothing_to_expire_witness :
  let s1 := (cleanup_expired_sessions 86400000000
               (main.run two_logins empty_store)).2 in
  86400000000 ≤ 86400000000
  ∧ cleanup_expired_sessions 86400000000 s1 = (inr tt, s1)
  ∧ (main.get_session (cookie 1) 86400000000 s1).2 = s1.
Proof.
  intros s1.
  assert (86400000000 ≤ 86400000000) as Hle by lia.
  split; [exact Hle|].
  destruct (sweep_leaves_nothing_to_expire 86400000000 86400000000
              (main.run two_logins empty_store) (cookie 1) Hle)
    as (Hsweep & Hget & _).
  split; [exact Hsweep|exact Hget].
Defined.

(* ===================================================================== *)
(** ** Logging in and out *)
(* ===================================================================== *)

(** X3. [login] without viewer mode and with a name that is blank once
    stripped creates nothing: same state, no cookie.  Otherwise it stores
    one session under the new token (the viewer's name for a viewer, the
    stripped name for a user), which resolves at once, leaves the other
    sessions and the accounts alone and calls [save_data]: when every
    integer of the stored dicts has at most 4300 digits both documents are
    rewritten and the answer carries the token in an HTTP-only 24-hour
    cookie; otherwise [ValueError] is raised with the session stored. *)
Theorem login_outcome (u : N) (name : string) (viewer_mode : bool) (now : Z)
  (s : State) :
  let sid := py.str_uuid u in
  let session :=
    {| username := if viewer_mode then main.VIEWER else py.strip name;
       is_viewer := viewer_mode; login_time := now |} in
  let out := main.login u name viewer_mode now s in
  (viewer_mode = false → py.strip name = "" →
     out = (inr (main.TemplateResponse "login.html"
                   (main.LoginPage (Some "请输入用户名")) main.NoCookie), s))
  ∧ (viewer_mode = true ∨ py.strip name ≠ "" →
       sessions out.2 !! sid = Some session
       ∧ (∀ other, other ≠ sid → sessions out.2 !! other = sessions s !! other)
       ∧ main.get_session (Some sid) now out.2 = (inr (Some session), out.2)
       ∧ heap out.2 = heap s ∧ accounts out.2 = accounts s
       ∧ write_outcome
           (main.RedirectResponse "/" 303
              (main.SetCookie "session_id" sid true (24 * 60 * 60)))
           s out).
Proof.
  intros sid session out. subst out. rewrite login_eq. split.
  - intros -> Hblank. by rewrite bool_decide_eq_true_2.
  - intros Hok.
    replace (negb viewer_mode && bool_decide (py.strip name = ""))
      with false.
    2: { destruct Hok as [->|Hne]; [done|].
         rewrite (bool_decide_eq_false_2 _ Hne). by rewrite andb_false_r. }
    fold sid. fold session.
    destruct (after_save_outcome
                (main.RedirectResponse "/" 303
                   (main.SetCookie "session_id" sid true 86400))
                (set_sessions (<[sid:=session]> (sessions s)) s))
      as (Hh & Ha & Hss & _).
    rewrite Hh, Ha, Hss. cbn [heap accounts sessions set_sessions].
    split_and!; try reflexivity.
    + apply lookup_insert_eq.
    + intros other Hne. by apply lookup_insert_ne.
    + apply get_session_fresh; [apply str_uuid_nonempty| |].
      * rewrite Hss. apply lookup_insert_eq.
      * unfold fresh, py.timedelta_hours. simpl. lia.
    + by apply after_save_write_outcome.
Qed.

Lemma login_outcome_witness :
  let s := main.run alice_creates empty_store in
  py.strip "   " = ""
  ∧ main.login 9 "   " false 50 s
    = (inr (main.TemplateResponse "login.html"
              (main.LoginPage (Some "请输入用户名")) main.NoCookie), s)
  ∧ sessions (main.login 9 "  bob " false 50 s).2 !! py.str_uuid 9
    = Some {| username := "bob"; is_viewer := false; login_time := 50 |}
  ∧ sessions (main.login 9 "bob" true 50 s).2 !! py.str_uuid 9
    = Some {| username := main.VIEWER; is_viewer := true; login_time := 50 |}
  ∧ writable (main.login 9 "bob" true 50 s).2
  ∧ (main.login 9 "bob" true 50 s).1
    = inr (main.RedirectResponse "/" 303
             (main.SetCookie "session_id" (py.str_uuid 9) true 86400)).
Proof.
  intros s.
  assert (py.strip "   " = "") as Hblank by (vm_compute; reflexivity).
  assert (writable (main.login 9 "bob" true 50 s).2) as Hw
    by (vm_compute; reflexivity).
  split; [exact Hblank|]. split_and!.
  - exact (proj1 (login_outcome 9 "   " false 50 s) eq_refl Hblank).
  - refine (proj1 (proj2 (login_outcome 9 "  bob " false 50 s)
                     (or_intror _))).
    vm_compute. intros H. discriminate H.
  - exact (proj1 (proj2 (login_outcome 9 "bob" true 50 s)
                    (or_introl eq_refl))).
  - exact Hw.
  - destruct (proj2 (login_outcome 9 "bob" true 50 s) (or_introl eq_refl))
      as (_ & _ & _ & _ & _ & Hok & _).
    exact (proj1 (Hok Hw)).
Defined.

(** X4. Without a cookie, with an empty one or with a token that is not
    stored, [logout] changes and writes nothing and answers with the
    redirect that deletes the cookie.  With a stored token, expired or
    not, it removes that session only, so that the token no longer
    resolves, leaves the accounts alone and calls [save_data]: when every
    integer of the stored dicts has at most 4300 digits both documents are
    rewritten and the same redirect is returned; otherwise [ValueError] is
    raised with the session removed. *)
Theorem logout_outcome (session_id : option string) (s : State) :
  let out := main.logout session_id s in
  let response :=
    main.RedirectResponse "/" 303 (main.DeleteCookie "session_id") in
  ((∀ sid, session_id = Some sid → sid = "" ∨ sessions s !! sid = None) →
   out = (inr response, s))
  ∧ (∀ sid session,
       session_id = Some sid → sid ≠ "" → sessions s !! sid = Some session →
       sessions out.2 = delete sid (sessions s)
       ∧ (∀ now, main.get_session session_id now out.2 = (inr None, out.2))
       ∧ heap out.2 = heap s ∧ accounts out.2 = accounts s
       ∧ write_outcome response s out).
Proof.
  intros out response. subst out. rewrite logout_eq. cbv zeta. fold response.
  split.
  - intros Habs. destruct session_id as [sid|]; [|done].
    destruct (Habs sid eq_refl) as [->|Hnone].
    + by rewrite bool_decide_eq_false_2 by (intros H; by apply H).
    + rewrite (bool_decide_eq_false_2 (is_Some _));
        [|rewrite Hnone; by intros [? ?]].
      by rewrite andb_false_r.
  - intros sid session -> Hsid Hs.
    rewrite bool_decide_eq_true_2 by done.
    rewrite bool_decide_eq_true_2 by (by rewrite Hs). cbn [andb].
    destruct (after_save_outcome response
                (set_sessions (delete sid (sessions s)) s))
      as (Hh & Ha & Hss & _).
    rewrite Hh, Ha, Hss. cbn [heap accounts sessions set_sessions].
    split_and!; try reflexivity.
    + intros now. apply get_session_absent. intros ? [= <-]. right.
      rewrite Hss. apply lookup_delete_eq.
    + by apply after_save_write_outcome.
Qed.

Lemma logout_outcome_witness :
  let s := main.run two_logins empty_store in
  let out := main.logout (cookie 1) s in
  main.logout None s
  = (inr (main.RedirectResponse "/" 303 (main.DeleteCookie "session_id")), s)
  ∧ sessions out.2 = delete (py.str_uuid 1) (sessions s)
  ∧ writable out.2
  ∧ out.1
    = inr (main.RedirectResponse "/" 303 (main.DeleteCookie "session_id"))
  ∧ saves out.2 = S (saves s).
Proof.
  intros s out.
  destruct (logout_outcome None s) as (Hnone & _).
  destruct (logout_outcome (cookie 1) s) as (_ & Hknown).
  assert (writable out.2) as Hw by (vm_compute; reflexivity).
  split.
  - apply Hnone. intros sid H. discriminate H.
  - destruct (Hknown (py.str_uuid 1)
                {| username := "alice"; is_viewer := false; login_time := 0 |}
                eq_refl (str_uuid_nonempty 1))
      as (Hdel & _ & _ & _ & Hok & _).
    + vm_compute. reflexivity.
    + destruct (Hok Hw) as (Hres & _ & _ & Hsaves).
      split; [exact Hdel|]. split; [exact Hw|].
      split; [exact Hres|exact Hsaves].
Defined.

(** X5. Logging in under a token that is not in use and logging out with
    the cookie received gives back the sessions there were; the accounts
    are as before and the token resolves no more.  When every integer of
    the stored dicts has at most 4300 digits, the sessions document holds
    those sessions after two writes; otherwise neither write goes through
    and the sessions document is as it was. *)
Theorem login_then_logout (u : N) (name : string) (viewer_mode : bool)
  (now : Z) (s : State) :
  sessions s !! py.str_uuid u = None →
  viewer_mode = true ∨ py.strip name ≠ "" →
  let s1 := (main.login u name viewer_mode now s).2 in
  let s2 := (main.logout (cookie u) s1).2 in
  sessions s2 = sessions s
  ∧ heap s2 = heap s ∧ accounts s2 = accounts s
  ∧ (writable s →
       SESSIONS_FILE s2 = Some (sessions s) ∧ saves s2 = S (S (saves s)))
  ∧ (¬ writable s →
       SESSIONS_FILE s2 = SESSIONS_FILE s ∧ saves s2 = saves s)
  ∧ ∀ now', main.get_session (cookie u) now' s2 = (inr None, s2).
Proof.
  intros Hfree Hok s1 s2. subst s2 s1.
  rewrite login_eq.
  replace (negb viewer_mode && bool_decide (py.strip name = "")) with false.
  2: { destruct Hok as [->|Hne]; [done|].
       rewrite (bool_decide_eq_false_2 _ Hne). by rewrite andb_false_r. }
  rewrite after_save_snd, logout_eq. unfold cookie. cbv zeta.
  set (session := {| username := if viewer_mode then main.VIEWER
                                 else py.strip name;
                     is_viewer := viewer_mode; login_time := now |}).
  set (x1 := set_sessions (<[py.str_uuid u:=session]> (sessions s)) s).
  destruct (after_save_outcome tt x1) as (Hh1 & Ha1 & Hs1 & Hst1 & Hok1 & Hno1).
  rewrite after_save_snd in Hh1, Ha1, Hs1, Hst1, Hok1, Hno1.
  assert (sessions (saved x1) !! py.str_uuid u = Some session) as Hsome.
  { rewrite Hs1. apply lookup_insert_eq. }
  rewrite bool_decide_eq_true_2 by apply str_uuid_nonempty.
  rewrite bool_decide_eq_true_2 by (by rewrite Hsome). cbn [andb].
  assert (delete (py.str_uuid u) (sessions (saved x1)) = sessions s) as Hback.
  { rewrite Hs1. subst x1. cbn [sessions set_sessions].
    by rewrite delete_insert_id. }
  set (x2 := set_sessions (delete (py.str_uuid u) (sessions (saved x1)))
               (saved x1)).
  destruct (after_save_outcome
              (main.RedirectResponse "/" 303 (main.DeleteCookie "session_id"))
              x2) as (Hh2 & Ha2 & Hs2 & Hst2 & Hok2 & Hno2).
  assert (stored x2 = stored s) as Hstored.
  { transitivity (stored (saved x1)); [done|]. by rewrite stored_saved. }
  assert (writable x1 ↔ writable s) as Hw1 by done.
  assert (writable x2 ↔ writable s) as Hw2.
  { unfold writable. by rewrite Hstored. }
  rewrite Hh2, Ha2, Hs2. subst x2. cbn [heap accounts sessions set_sessions].
  rewrite Hh1, Ha1. split_and!; try done.
  - intros Hw. destruct Hok2 as (_ & _ & -> & ->); [by apply Hw2|].
    destruct Hok1 as (_ & _ & _ & Hsaves); [by apply Hw1|].
    cbn [sessions saves set_sessions]. rewrite Hsaves. by rewrite Hback.
  - intros Hw. destruct Hno2 as (_ & _ & -> & ->); [by rewrite Hw2|].
    destruct Hno1 as (_ & _ & Hfile & Hsaves); [by rewrite Hw1|].
    cbn [SESSIONS_FILE saves set_sessions]. by rewrite Hfile, Hsaves.
  - intros now'. apply get_session_absent. intros ? [= <-]. right.
    rewrite Hs2. cbn [sessions set_sessions]. apply lookup_delete_eq.
Qed.

Lemma login_then_logout_witness :
  let s := main.run alice_creates empty_store in
  sessions s !! py.str_uuid 9 = None
  ∧ sessions (main.logout (cookie 9) (main.login 9 "bob" false 50 s).2).2
    = sessions s.
Proof.
  intros s.
  assert (sessions s !! py.str_uuid 9 = None) as Hfree
    by (vm_compute; reflexivity).
  split; [exact Hfree|].
  refine (proj1 (login_then_logout 9 "bob" false 50 s Hfree (or_intror _))).
  vm_compute. intros H. discriminate H.
Defined.

(* ===================================================================== *)
(** ** Requests that are turned away *)
(* ===================================================================== *)

(** [get_session] touches neither the objects nor [db.accounts]. *)
Lemma get_session_frame (s : State) (session_id : option string) (now : Z) :
  heap (main.get_session session_id now s).2 = heap s
  ∧ accounts (main.get_session session_id now s).2 = accounts s.
Proof.
  destruct (get_session_cases s session_id now)
    as [(sid & sess & _ & _ & _ & _ & ->)
       |[(sid & sess & _ & _ & _ & _ & ->)| ->]]; try done.
  rewrite after_save_snd.
  by destruct (saved_frame (set_sessions (delete sid (sessions s)) s))
    as (-> & -> & _).
Qed.

(** [get_session] raises nothing but the [ValueError] of a failed write. *)
Lemma get_session_returns (s : State) (session_id : option string) (now : Z) :
  (∃ session, (main.get_session session_id now s).1 = inr session)
  ∨ (main.get_session session_id now s).1 = inl py.ValueError.
Proof.
  destruct (get_session_cases s session_id now)
    as [(sid & sess & _ & _ & _ & _ & ->)
       |[(sid & sess & _ & _ & _ & _ & ->)| ->]]; try (left; by eexists).
  destruct (after_save_cases (@None UserSession)
              (set_sessions (delete sid (sessions s)) s))
    as [[_ ->]|[_ ->]]; [left; by eexists|by right].
Qed.

(** X6. When the cookie resolves to no session (none sent, empty, unknown
    or expired), [add_account], [add_payment], [toggle_lock] and
    [delete_account] raise 403 before looking at anything else: no
    account, no object and no listing is touched, whatever the index, the
    code or the amount.  The only possible effect is the removal of the
    expired session by [get_session]. *)
Theorem unresolved_cookie_refused (s : State) (session_id : option string)
  (now : Z) :
  (main.get_session session_id now s).1 = inr None →
  let s' := (main.get_session session_id now s).2 in
  (∀ code total now',
     main.add_account code total session_id now now' s
     = (inl (py.HTTPException 403 "浏览模式无法添加账户"), s'))
  ∧ (∀ idx amount,
       main.add_payment idx amount session_id now s
       = (inl (py.HTTPException 403 "未登录"), s'))
  ∧ (∀ idx, main.toggle_lock idx session_id now s
            = (inl (py.HTTPException 403 "未登录"), s'))
  ∧ (∀ idx, main.delete_account idx session_id now s
            = (inl (py.HTTPException 403 "未登录"), s'))
  ∧ heap s' = heap s ∧ accounts s' = accounts s
  ∧ ((∀ sid, session_id = Some sid → sid = "" ∨ sessions s !! sid = None) →
     s' = s).
Proof.
  intros Hnone s'.
  assert (main.get_session session_id now s = (inr None, s')) as Heq.
  { subst s'. destruct (main.get_session session_id now s) as [res s1].
    simpl in *. by subst res. }
  split_and!.
  - intros code total now'.
    by destruct (handlers_unauthenticated _ _ _ _ 0 Heq) as (_ & _ & _ & ->).
  - intros idx amount.
    by destruct (handlers_unauthenticated _ _ _ _ idx Heq) as (-> & _).
  - intros idx.
    by destruct (handlers_unauthenticated _ _ _ _ idx Heq) as (_ & -> & _).
  - intros idx.
    by destruct (handlers_unauthenticated _ _ _ _ idx Heq) as (_ & _ & -> & _).
  - apply get_session_frame.
  - apply get_session_frame.
  - intros Habs. subst s'. by rewrite get_session_absent.
Qed.

Lemma unresolved_cookie_refused_witness :
  let s := main.run alice_creates empty_store in
  (main.get_session (cookie 5) 20 s).1 = inr None
  ∧ main.add_payment 0 10 (cookie 5) 20 s
    = (inl (py.HTTPException 403 "未登录"), s)
  ∧ (main.delete_account 0 (cookie 1) 86400000000 s).1
    = inl (py.HTTPException 403 "未登录").
Proof.
  intros s.
  assert ((main.get_session (cookie 5) 20 s).1 = inr None) as Hunknown
    by (vm_compute; reflexivity).
  assert ((main.get_session (cookie 1) 86400000000 s).1 = inr None) as Hold
    by (vm_compute; reflexivity).
  split; [exact Hunknown|]. split.
  - destruct (unresolved_cookie_refused s (cookie 5) 20 Hunknown)
      as (_ & Hpay & _ & _ & _ & _ & Hsame).
    rewrite (Hpay 0 10). rewrite Hsame; [reflexivity|].
    intros sid Hsid. right. injection Hsid as <-. vm_compute. reflexivity.
  - destruct (unresolved_cookie_refused s (cookie 1) 86400000000 Hold)
      as (_ & _ & _ & Hdel & _).
    rewrite (Hdel 0). reflexivity.
Defined.

(** X7. With a resolved session, an index that is negative or not below
    the number of accounts makes [add_payment], [toggle_lock] and
    [delete_account] raise 404: a negative index never counts from the
    end.  No record is added, removed or reordered, every record keeps its
    [AccountRecord] keys, and nothing is written to disk. *)
Theorem index_not_found (s : State) (session_id : option string) (now : Z)
  (session : UserSession) (idx : Z) :
  (main.get_session session_id now s).1 = inr (Some session) →
  idx < 0 ∨ Z.of_nat (length (accounts s)) ≤ idx →
  ∀ out,
    (out = main.toggle_lock idx session_id now s
     ∨ out = main.delete_account idx session_id now s
     ∨ ∃ amount, out = main.add_payment idx amount session_id now s) →
    out.1 = inl (py.HTTPException 404 "账户不存在")
    ∧ accounts out.2 = accounts s
    ∧ sessions out.2 = sessions s
    ∧ DATA_FILE out.2 = DATA_FILE s
    ∧ SESSIONS_FILE out.2 = SESSIONS_FILE s
    ∧ saves out.2 = saves s
    ∧ fields <$> stored out.2 = fields <$> stored s.
Proof.
  intros Hres Hidx out Hout.
  destruct (get_session_Some _ _ _ _ Hres) as [Heq _].
  assert (¬ (0 ≤ idx < Z.of_nat (length (accounts s)))) as Hno by lia.
  destruct (handlers_not_found _ _ _ _ idx Heq Hno) as (Hpay & Htog & Hdel).
  assert (out = (inl (py.HTTPException 404 "账户不存在"), listed s)) as ->.
  { destruct Hout as [->|[->|[amount ->]]]; [exact Htog|exact Hdel|apply Hpay]. }
  cbn [fst snd]. split; [done|]. apply listed_frame.
Qed.

Lemma index_not_found_witness :
  let s := main.run alice_creates empty_store in
  (main.get_session (cookie 1) 20 s).1
  = inr (Some {| username := "alice"; is_viewer := false; login_time := 0 |})
  ∧ (-1 < 0 ∨ Z.of_nat (length (accounts s)) ≤ -1)
  ∧ (main.delete_account (-1) (cookie 1) 20 s).1
    = inl (py.HTTPException 404 "账户不存在")
  ∧ accounts (main.delete_account (-1) (cookie 1) 20 s).2 = accounts s.
Proof.
  intros s.
  assert ((main.get_session (cookie 1) 20 s).1
          = inr (Some {| username := "alice"; is_viewer := false;
                         login_time := 0 |})) as Hres
    by (vm_compute; reflexivity).
  assert (-1 < 0 ∨ Z.of_nat (length (accounts s)) ≤ -1) as Hidx
    by (left; lia).
  split; [exact Hres|]. split; [exact Hidx|].
  destruct (index_not_found s (cookie 1) 20 _ (-1) Hres Hidx
              (main.delete_account (-1) (cookie 1) 20 s)
              (or_intror (or_introl eq_refl)))
    as (Hresp & Hacc & _).
  split; [exact Hresp|exact Hacc].
Defined.

(** X8. A payment on an account is refused with 403 exactly when the
    account is locked and the user is not its manager; the check comes
    before the amount is looked at, so the answer is the same for every
    amount, no payment is recorded and nothing is written.  The manager of
    a locked account is never refused for the lock. *)
Theorem locked_account_payment (s : State) (session_id : option string)
  (now : Z) (session : UserSession) (idx amount : Z) (r : ref) :
  (main.get_session session_id now s).1 = inr (Some session) →
  0 ≤ idx → accounts s !! Z.to_nat idx = Some r →
  let account := fields (deref s r) in
  let out := main.add_payment idx amount session_id now s in
  (out.1 = inl (py.HTTPException 403 "账户已被锁定")
   ↔ locked account = true ∧ manager account ≠ username session)
  ∧ (locked account = true → manager account ≠ username session →
       accounts out.2 = accounts s
       ∧ sessions out.2 = sessions s
       ∧ DATA_FILE out.2 = DATA_FILE s
       ∧ SESSIONS_FILE out.2 = SESSIONS_FILE s
       ∧ saves out.2 = saves s
       ∧ fields <$> stored out.2 = fields <$> stored s).
Proof.
  intros Hres H0 Hr account out.
  destruct (get_session_Some _ _ _ _ Hres) as [Heq _].
  subst out. rewrite (add_payment_eq _ _ _ _ _ _ _ Heq H0 Hr). cbv zeta.
  fold account.
  assert (∀ s',
            (if amount >? total_amount account - py.sum (paid_amounts account)
             then (inl (py.HTTPException 400 "支付金额超过剩余金额"),
                   listed s)
             else after_save (main.RedirectResponse "/" 303 main.NoCookie)
                    s').1
            ≠ inl (py.HTTPException 403 "账户已被锁定")) as Hnot.
  { intros s'. destruct (_ >? _); [discriminate|].
    by destruct (after_save_cases
                   (main.RedirectResponse "/" 303 main.NoCookie) s')
      as [[_ ->]|[_ ->]]. }
  split.
  - destruct (locked account); cbn [andb].
    + case_bool_decide as Hm; cbn [negb].
      * split; [|by intros [_ []]]. intros H. by destruct (Hnot _ H).
      * by split.
    + split; [|by intros [? _]]. intros H. by destruct (Hnot _ H).
  - intros -> Hm. rewrite (bool_decide_eq_false_2 _ Hm). cbn [andb negb snd].
    apply listed_frame.
Qed.

Lemma locked_account_payment_witness :
  let s := main.run (alice_and_bob
                     ++ [main.POST_toggle_lock 0 (cookie 1) 20]) empty_store in
  (main.get_session (cookie 2) 30 s).1
  = inr (Some {| username := "bob"; is_viewer := false; login_time := 15 |})
  ∧ accounts s !! Z.to_nat 0 = Some 0%nat
  ∧ (main.add_payment 0 100 (cookie 2) 30 s).1
    = inl (py.HTTPException 403 "账户已被锁定")
  ∧ saves (main.add_payment 0 100 (cookie 2) 30 s).2 = saves s.
Proof.
  intros s.
  assert ((main.get_session (cookie 2) 30 s).1
          = inr (Some {| username := "bob"; is_viewer := false;
                         login_time := 15 |})) as Hres
    by (vm_compute; reflexivity).
  assert (accounts s !! Z.to_nat 0 = Some 0%nat) as Hr
    by (vm_compute; reflexivity).
  split; [exact Hres|]. split; [exact Hr|].
  assert (0 ≤ 0) as H0 by lia.
  destruct (locked_account_payment s (cookie 2) 30 _ 0 100 0%nat Hres H0 Hr)
    as [Hiff Hframe].
  assert (locked (fields (deref s 0%nat)) = true) as Hlocked
    by (vm_compute; reflexivity).
  assert (manager (fields (deref s 0%nat)) ≠ "bob") as Hm
    by (vm_compute; intros H; discriminate H).
  split.
  - apply Hiff. split; [exact Hlocked|exact Hm].
  - exact (proj1 (proj2 (proj2 (proj2 (proj2 (Hframe Hlocked Hm)))))).
Defined.

(* ===================================================================== *)
(** ** Operations one after the other *)
(* ===================================================================== *)

Lemma steps_invariant (P : State → Prop) (s s' : State) :
  (∀ s s', mutation s s' → P s → P s') → rtc mutation s s' → P s → P s'.
Proof. intros Hstep Hrtc. induction Hrtc; eauto. Qed.

Lemma well_formed_handle (r : main.Request) (s : State) :
  well_formed s → well_formed (main.handle r s).2.
Proof.
  apply (steps_invariant _ _ _ well_formed_mutation), handle_mutations.
Qed.

(** X9. After an admitted payment the listing shows, for the account paid
    into, the remaining amount of the listing before lowered by the amount
    paid, and for every other account the same remaining amount. *)
Theorem payment_lowers_remaining (s : State) (session_id : option string)
  (now : Z) (session : UserSession) (idx amount : Z) (r : ref) :
  well_formed s →
  (main.get_session session_id now s).1 = inr (Some session) →
  0 ≤ idx → accounts s !! Z.to_nat idx = Some r →
  let account := fields (deref s r) in
  ¬ (locked account = true ∧ manager account ≠ username session) →
  amount ≤ total_amount account - py.sum (paid_amounts account) →
  let s1 := (main.add_payment idx amount session_id now s).2 in
  remaining_amount <$> stored (get_all_accounts s1).2
  = alter (fmap (λ remaining, remaining - amount)) (Z.to_nat idx)
      (remaining_amount <$> stored (get_all_accounts s).2).
Proof.
  intros Hwf Hres H0 Hr account Hlock Hle s1.
  assert (well_formed s1) as Hwf1
    by apply (well_formed_handle (main.POST_add_payment _ _ _ _) s Hwf).
  destruct (add_payment_outcome s session_id now session idx amount r
              Hwf Hres H0 Hr Hlock) as (_ & _ & Hok).
  destruct (Hok Hle) as (Hstored & _).
  rewrite !get_all_accounts_eq. cbn [snd]. fold (listed s1) (listed s).
  rewrite !stored_listed by done. fold s1 in Hstored. rewrite Hstored.
  rewrite <- (list_fmap_compose set_remaining remaining_amount
                (alter _ _ _)).
  rewrite (list_fmap_alter (remaining_amount ∘ set_remaining)
             (append_paid amount) (fmap (λ remaining, remaining - amount))).
  - f_equal. rewrite <- !list_fmap_compose. by apply list_fmap_ext.
  - apply Forall_forall. intros d _. simpl. rewrite sum_snoc. f_equal. lia.
Qed.

Lemma payment_lowers_remaining_witness :
  let s := main.run alice_creates empty_store in
  let s1 := (main.add_payment 0 400 (cookie 1) 20 s).2 in
  well_formed s
  ∧ remaining_amount <$> stored (get_all_accounts s).2 = [Some 1000]
  ∧ remaining_amount <$> stored (get_all_accounts s1).2 = [Some 600].
Proof.
  intros s s1.
  assert (well_formed s) as Hwf by (apply well_formed_run, well_formed_empty).
  assert (remaining_amount <$> stored (get_all_accounts s).2 = [Some 1000])
    as Hbefore by (vm_compute; reflexivity).
  split; [exact Hwf|]. split; [exact Hbefore|].
  assert ((main.get_session (cookie 1) 20 s).1
          = inr (Some {| username := "alice"; is_viewer := false;
                         login_time := 0 |})) as Hres
    by (vm_compute; reflexivity).
  assert (accounts s !! Z.to_nat 0 = Some 0%nat) as Hr
    by (vm_compute; reflexivity).
  assert (0 ≤ 0) as H0 by lia.
  subst s1.
  rewrite (payment_lowers_remaining s (cookie 1) 20 _ 0 400 0%nat
             Hwf Hres H0 Hr).
  - rewrite Hbefore. reflexivity.
  - vm_compute. intros [H _]. discriminate H.
  - vm_compute. intros H. discriminate H.
Defined.

Lemma set_locked_same (d : Dict) :
  fields (set_locked (locked (fields d)) d) = fields d.
Proof. by destruct d as [[]]. Qed.

Lemma deref_alter (s : State) (f : Dict → Dict) (r : ref) :
  (r < length (heap s))%nat →
  deref (set_heap (alter f r (heap s)) s) r = f (deref s r).
Proof.
  intros Hlt. unfold deref. simpl.
  destruct (lookup_lt_is_Some_2 (heap s) r Hlt) as [d Hd].
  rewrite (list_lookup_total_correct _ _ _ Hd).
  apply list_lookup_total_correct. by rewrite list_lookup_alter_eq, Hd.
Qed.

Lemma toggled_back (l : list Dict) (i : nat) (d : Dict) :
  l !! i = Some d →
  fields <$> alter (set_locked (locked (fields d))) i
               (set_remaining
                  <$> alter (set_locked (negb (locked (fields d)))) i
                        (set_remaining <$> l))
  = fields <$> l.
Proof.
  intros Hd. apply list_eq. intros j.
  rewrite list_lookup_fmap, list_lookup_alter, !list_lookup_fmap,
    !list_lookup_alter, !list_lookup_fmap.
  destruct (decide (i = j)) as [<-|Hne].
  - rewrite decide_True by done. rewrite Hd. simpl. f_equal.
    apply (set_locked_same d).
  - by destruct (l !! j).
Qed.

(** X10. The manager toggling the lock of an account twice gets the flag
    flipped and then flipped back: every record has the [AccountRecord]
    keys it had before the two calls.  The second call is not refused: it
    ends in [save_data], to which its answer is left. *)
Theorem toggle_lock_twice (s : State) (session_id : option string)
  (now now' : Z) (session : UserSession) (idx : Z) (r : ref) :
  well_formed s →
  (main.get_session session_id now s).1 = inr (Some session) →
  now' - login_time session < py.timedelta_hours 24 →
  0 ≤ idx → accounts s !! Z.to_nat idx = Some r →
  username session = manager (fields (deref s r)) →
  let s1 := (main.toggle_lock idx session_id now s).2 in
  let out := main.toggle_lock idx session_id now' s1 in
  locked (fields (deref s1 r)) = negb (locked (fields (deref s r)))
  ∧ write_outcome (main.RedirectResponse "/" 303 main.NoCookie) s1 out
  ∧ fields <$> stored out.2 = fields <$> stored s.
Proof.
  intros Hwf Hres Hfresh' H0 Hr Hm s1 out.
  destruct (get_session_Some _ _ _ _ Hres) as [Heq (sid & -> & Hsid & Hs & _)].
  assert (r < length (heap s))%nat as Hlt
    by apply (Forall_lookup_1 _ _ _ _ (proj1 Hwf) Hr).
  assert (s1 = saved (set_heap
                        (alter (set_locked (negb (locked (fields (deref s r)))))
                           r (heap (listed s))) (listed s))) as Hs1.
  { subst s1. rewrite (toggle_lock_handler_eq _ _ _ _ _ _ Heq H0 Hr).
    cbv zeta. rewrite bool_decide_eq_true_2 by done. cbn [negb].
    apply after_save_snd. }
  assert (fields (deref s1 r)
          = fields (set_locked (negb (locked (fields (deref s r))))
                      (deref s r))) as Hd1.
  { rewrite Hs1, deref_saved.
    rewrite deref_alter
      by (cbn [listed set_heap heap]; by rewrite compute_remaining_length).
    cbn [set_locked fields]. by rewrite !deref_listed_fields. }
  assert (well_formed s1) as Hwf1
    by apply (well_formed_handle (main.POST_toggle_lock _ _ _) s Hwf).
  assert (main.get_session (Some sid) now' s1 = (inr (Some session), s1))
    as Heq1.
  { apply get_session_fresh; [done| |done].
    rewrite Hs1, saved_sessions. exact Hs. }
  assert (accounts s1 !! Z.to_nat idx = Some r) as Hr1
    by (rewrite Hs1, saved_accounts; exact Hr).
  split; [by rewrite Hd1|].
  subst out. rewrite (toggle_lock_handler_eq _ _ _ _ _ _ Heq1 H0 Hr1).
  cbv zeta. rewrite Hd1. cbn [set_locked fields manager locked].
  rewrite bool_decide_eq_true_2 by done. cbn [negb].
  split; [by apply after_save_write_outcome|].
  rewrite after_save_snd, negb_involutive, stored_saved.
  rewrite (stored_alter (listed s1) _ (Z.to_nat idx) r);
    [|by apply well_formed_listed|done].
  rewrite stored_listed by done.
  assert (stored s1
          = alter (set_locked (negb (locked (fields (deref s r)))))
              (Z.to_nat idx) (set_remaining <$> stored s)) as Hst1.
  { rewrite Hs1, stored_saved.
    rewrite (stored_alter (listed s) _ (Z.to_nat idx) r);
      [|by apply well_formed_listed|done].
    by rewrite stored_listed. }
  rewrite Hst1. apply toggled_back.
  unfold stored. by rewrite list_lookup_fmap, Hr.
Qed.

Lemma toggle_lock_twice_witness :
  let s := main.run alice_creates empty_store in
  let s1 := (main.toggle_lock 0 (cookie 1) 20 s).2 in
  well_formed s
  ∧ locked (fields (deref s 0%nat)) = false
  ∧ locked (fields (deref s1 0%nat)) = true
  ∧ fields <$> stored (main.toggle_lock 0 (cookie 1) 30 s1).2
    = fields <$> stored s.
Proof.
  intros s s1.
  assert (well_formed s) as Hwf by (apply well_formed_run, well_formed_empty).
  assert (locked (fields (deref s 0%nat)) = false) as Hopen
    by (vm_compute; reflexivity).
  split; [exact Hwf|]. split; [exact Hopen|].
  assert ((main.get_session (cookie 1) 20 s).1
          = inr (Some {| username := "alice"; is_viewer := false;
                         login_time := 0 |})) as Hres
    by (vm_compute; reflexivity).
  assert (accounts s !! Z.to_nat 0 = Some 0%nat) as Hr
    by (vm_compute; reflexivity).
  assert (0 ≤ 0) as H0 by lia.
  assert (30 - 0 < py.timedelta_hours 24) as Hfresh
    by (vm_compute; reflexivity).
  assert ("alice" = manager (fields (deref s 0%nat))) as Hm
    by (vm_compute; reflexivity).
  destruct (toggle_lock_twice s (cookie 1) 20 30 _ 0 0%nat
              Hwf Hres Hfresh H0 Hr Hm) as (Hflip & _ & Hback).
  split; [|exact Hback]. subst s1. rewrite Hflip, Hopen. reflexivity.
Defined.

(** X11. [get_account_name] reads the mapping and nothing else: it answers
    with the name for one of the nine codes of [ACCOUNT_MAPPING] and raises
    404 for any other code, and never touches the state.  [add_account]
    refuses the code of a user (not a viewer) with 400 exactly when this
    lookup raises 404; when the lookup succeeds the record appended carries
    the name it returns, and the call ends in [save_data]. *)
Theorem account_code_lookup (code : string) (s : State) :
  let out := main.get_account_name code s in
  out.2 = s
  ∧ (∀ name, out.1 = inr (main.JSONResponse name)
             ↔ ACCOUNT_MAPPING !! code = Some name)
  ∧ ((∃ name, out.1 = inr (main.JSONResponse name))
     ↔ code ∈ ["1243"; "1001"; "1002"; "1003"; "1004"; "1005"; "1006";
               "1007"; "1008"])
  ∧ (out.1 = inl (py.HTTPException 404 "账户编码不存在")
     ↔ ACCOUNT_MAPPING !! code = None)
  ∧ (∀ session_id now now' session total,
       (main.get_session session_id now s).1 = inr (Some session) →
       is_viewer session = false →
       let created := main.add_account code total session_id now now' s in
       (created.1 = inl (py.HTTPException 400 "无效的账户编码")
        ↔ out.1 = inl (py.HTTPException 404 "账户编码不存在"))
       ∧ (∀ name, out.1 = inr (main.JSONResponse name) →
            (∃ d, last (heap created.2) = Some d
                  ∧ last (accounts created.2) = Some (length (heap s))
                  ∧ account_name (fields d) = name
                  ∧ account_code (fields d) = code)
            ∧ write_outcome (main.RedirectResponse "/" 303 main.NoCookie)
                s created)).
Proof.
  intros out. subst out. unfold main.get_account_name. unfold_M.
  assert ((∃ name, ACCOUNT_MAPPING !! code = Some name)
          ↔ code ∈ ["1243"; "1001"; "1002"; "1003"; "1004"; "1005"; "1006";
                    "1007"; "1008"]) as Hdom.
  { change (is_Some (ACCOUNT_MAPPING !! code) ↔ code ∈
              ["1243"; "1001"; "1002"; "1003"; "1004"; "1005"; "1006";
               "1007"; "1008"]).
    rewrite <- elem_of_dom. unfold ACCOUNT_MAPPING.
    rewrite dom_list_to_map_L, elem_of_list_to_set. done. }
  destruct (ACCOUNT_MAPPING !! code) as [name|] eqn:Hcode; cbn [fst snd].
  - split; [|split; [|split; [|split]]].
    + reflexivity.
    + intros name'. split; congruence.
    + rewrite <- Hdom. split; intros _; by eexists.
    + split; discriminate.
    + intros session_id now now' session total Hres Hviewer.
      destruct (get_session_Some _ _ _ _ Hres) as [Heq _].
      rewrite (add_account_handler_eq _ _ _ _ _ _ _ Heq).
      rewrite Hviewer, Hcode. cbv zeta. split.
      * split; [|discriminate].
        match goal with
        | |- context [after_save ?a ?x] =>
            by destruct (after_save_cases a x) as [[_ ->]|[_ ->]]
        end.
      * intros name' [= <-]. split; [|by apply after_save_write_outcome].
        rewrite after_save_snd, saved_heap, saved_accounts.
        eexists. cbn [heap accounts set_accounts set_heap].
        rewrite !last_snoc. done.
  - split; [|split; [|split; [|split]]].
    + reflexivity.
    + intros name'. split; discriminate.
    + rewrite <- Hdom. split; [intros [? H]|intros [? H]]; discriminate H.
    + done.
    + intros session_id now now' session total Hres Hviewer.
      destruct (get_session_Some _ _ _ _ Hres) as [Heq _].
      rewrite (add_account_handler_eq _ _ _ _ _ _ _ Heq).
      rewrite Hviewer, Hcode. cbn [fst snd]. split.
      * done.
      * intros name' H. discriminate H.
Qed.

Lemma account_code_lookup_witness :
  let s := main.run alice_creates empty_store in
  (main.get_account_name "1003" s).1 = inr (main.JSONResponse "太保资管组合")
  ∧ (main.get_account_name "9999" s).1
    = inl (py.HTTPException 404 "账户编码不存在").
Proof.
  intros s. split.
  - apply (proj1 (proj2 (account_code_lookup "1003" s))).
    vm_compute. reflexivity.
  - apply (proj1 (proj2 (proj2 (proj2 (account_code_lookup "9999" s))))).
    vm_compute. reflexivity.
Defined.

(* ===================================================================== *)
(** ** The index page *)
(* ===================================================================== *)


Lemma index_eq (session_id : option string) (t0 t : Z) (s : State) :
  main.index session_id t0 t s
  = match cleanup_expired_sessions t0 s with
    | (inl e, s1) => (inl e, s1)
    | (inr _, s1) =>
        match main.get_session session_id t s1 with
        | (inr (Some session), s2) =>
            (inr (main.TemplateResponse "index.html"
                    (main.IndexPage session (stored (listed s2))
                       ACCOUNT_MAPPING)
                    main.NoCookie), listed s2)
        | (inr None, s2) =>
            (inr (main.TemplateResponse "login.html" (main.LoginPage None)
                    (main.DeleteCookie "session_id")), s2)
        | (inl e, s2) => (inl e, s2)
        end
    end.
Proof.
  unfold main.index. unfold_M.
  destruct (cleanup_expired_sessions t0 s) as [[e|[]] s1]; [done|].
  by destruct (main.get_session session_id t _) as [[e|[session|]] s2].
Qed.



(* ===================================================================== *)
(** ** Memory and disk *)
(* ===================================================================== *)

Section handle_preserves.

Variable P : State → Prop.
Hypothesis P_listed : ∀ s, P s → P (listed s).
Hypothesis P_written : ∀ s, writable s → P (saved s).

Lemma after_save_preserves {A} (a : A) (s : State) :
  (after_save a s).1 ≠ inl py.ValueError → P (after_save a s).2.
Proof using P_written.
  destruct (after_save_cases a s) as [[Hw ->]|[Hw ->]]; [|done].
  intros _. by apply P_written.
Qed.

Lemma get_session_preserves (session_id : option string) (now : Z)
  (s : State) :
  P s → (main.get_session session_id now s).1 ≠ inl py.ValueError →
  P (main.get_session session_id now s).2.
Proof using P_written.
  intros HP.
  destruct (get_session_cases s session_id now)
    as [(sid & sess & _ & _ & _ & _ & ->)
       |[(sid & sess & _ & _ & _ & _ & ->)| ->]]; cbn [snd]; auto.
  apply after_save_preserves.
Qed.

(** A handler that starts with [get_session] and, once the session is
    resolved, ends in [s], in [listed s] or with a [save_data]. *)
Lemma guarded_preserves {A} (h : M A) (session_id : option string) (now : Z)
  (s : State) :
  (∀ e s', main.get_session session_id now s = (inl e, s') →
           h s = (inl e, s')) →
  (∀ s', main.get_session session_id now s = (inr None, s') →
         (h s).2 = s') →
  (∀ session, main.get_session session_id now s = (inr (Some session), s) →
              (h s).2 = s ∨ (h s).2 = listed s
              ∨ ∃ a x, h s = after_save a x) →
  P s → (h s).1 ≠ inl py.ValueError → P (h s).2.
Proof using P_listed P_written.
  intros Herr Hnone Hsome HP Hres.
  pose proof (get_session_preserves session_id now s HP) as HP'.
  destruct (get_session_cases s session_id now)
    as [(sid & sess & _ & _ & _ & _ & Hg)
       |[(sid & sess & _ & _ & _ & _ & Hg)|Hg]].
  - destruct (Hsome sess Hg) as [->|[->|(a & x & Hx)]]; auto.
    rewrite Hx in Hres |- *. by apply after_save_preserves.
  - destruct (after_save_cases (@None UserSession)
                (set_sessions (delete sid (sessions s)) s))
      as [[Hw Ha]|[Hw Ha]]; rewrite Ha in Hg.
    + rewrite (Hnone _ Hg). by apply P_written.
    + by rewrite (Herr _ _ Hg) in Hres.
  - by rewrite (Hnone _ Hg).
Qed.

Lemma handle_preserves (r : main.Request) (s : State) :
  P s → (main.handle r s).1 ≠ inl py.ValueError → P (main.handle r s).2.
Proof using P_listed P_written.
  destruct r as [sid t0 t|u name v t|sid|code total sid t t'|idx amount sid t
                |idx sid t|idx sid t|code]; cbn [main.handle].
  - intros HP. rewrite index_eq.
    assert ((cleanup_expired_sessions t0 s).1 ≠ inl py.ValueError →
            P (cleanup_expired_sessions t0 s).2) as HP1.
    { rewrite cleanup_expired_sessions_eq. cbv zeta.
      case_bool_decide; [done|]. apply after_save_preserves. }
    destruct (cleanup_expired_sessions t0 s) as [[e|[]] s1];
      cbn [fst snd] in *;
      [intros He; apply HP1; intros [= ->]; by apply He|].
    pose proof (get_session_preserves sid t s1 (HP1 ltac:(done))) as HP2.
    destruct (main.get_session sid t s1) as [[e|[session|]] s2];
      cbn [fst snd] in *; auto.
    intros He. apply HP2. intros [= ->]. by apply He.
  - intros HP. rewrite login_eq.
    destruct (_ && _); [done|]. apply after_save_preserves.
  - intros HP. rewrite logout_eq. cbv zeta.
    destruct sid as [sid|]; [|done].
    destruct (_ && _); [|done]. apply after_save_preserves.
  - apply (guarded_preserves _ sid t).
    + intros e s' Hg.
      by destruct (handlers_session_error _ _ _ _ 0 _ Hg) as (_ & _ & _ & ->).
    + intros s' Hg.
      by destruct (handlers_unauthenticated _ _ _ _ 0 Hg) as (_ & _ & _ & ->).
    + intros session Hg. rewrite (add_account_handler_eq _ _ _ _ _ _ _ Hg).
      destruct (is_viewer session); [by left|].
      destruct (ACCOUNT_MAPPING !! code); [|by left].
      right; right. by eexists _, _.
  - apply (guarded_preserves _ sid t).
    + intros e s' Hg.
      by destruct (handlers_session_error _ _ _ _ idx _ Hg) as (-> & _).
    + intros s' Hg.
      by destruct (handlers_unauthenticated _ _ _ _ idx Hg) as (-> & _).
    + intros session Hg.
      destruct (index_cases s idx) as [(H0 & r & Hr)|Hout].
      * rewrite (add_payment_eq _ _ _ _ _ _ _ Hg H0 Hr). cbv zeta.
        destruct (locked _ && _); [by right; left|].
        destruct (_ >? _); [by right; left|]. right; right. by eexists _, _.
      * destruct (handlers_not_found _ _ _ _ idx Hg Hout) as (-> & _).
        by right; left.
  - apply (guarded_preserves _ sid t).
    + intros e s' Hg.
      by destruct (handlers_session_error _ _ _ _ idx _ Hg) as (_ & -> & _).
    + intros s' Hg.
      by destruct (handlers_unauthenticated _ _ _ _ idx Hg) as (_ & -> & _).
    + intros session Hg.
      destruct (index_cases s idx) as [(H0 & r & Hr)|Hout].
      * rewrite (toggle_lock_handler_eq _ _ _ _ _ _ Hg H0 Hr). cbv zeta.
        destruct (negb _); [by right; left|]. right; right. by eexists _, _.
      * destruct (handlers_not_found _ _ _ _ idx Hg Hout) as (_ & -> & _).
        by right; left.
  - apply (guarded_preserves _ sid t).
    + intros e s' Hg.
      by destruct (handlers_session_error _ _ _ _ idx _ Hg)
        as (_ & _ & -> & _).
    + intros s' Hg.
      by destruct (handlers_unauthenticated _ _ _ _ idx Hg)
        as (_ & _ & -> & _).
    + intros session Hg.
      destruct (index_cases s idx) as [(H0 & r & Hr)|Hout].
      * rewrite (delete_account_handler_eq _ _ _ _ _ _ Hg H0 Hr). cbv zeta.
        destruct (negb _ && _); [by right; left|].
        right; right. by eexists _, _.
      * destruct (handlers_not_found _ _ _ _ idx Hg Hout) as (_ & _ & ->).
        by right; left.
  - intros HP. unfold main.get_account_name. unfold_M.
    by destruct (ACCOUNT_MAPPING !! code).
Qed.

Lemma run_preserves (rs : list main.Request) (s : State) :
  P s →
  Forall (λ response, response ≠ inl py.ValueError) (main.responses rs s) →
  P (main.run rs s).
Proof using P_listed P_written.
  revert s. induction rs as [|r rs IH]; intros s HP Hall; [done|].
  cbn [main.responses] in Hall. apply Forall_cons in Hall as [Hr Hall].
  unfold main.run in *. cbn [foldl]. apply IH; [|done].
  by apply handle_preserves.
Qed.

End handle_preserves.

Lemma in_sync_written (s : State) : writable s → in_sync (saved s).
Proof.
  intros Hw. destruct (saved_ok s Hw) as (Hdata & Hsess & _).
  split.
  - left. by rewrite Hsess, saved_sessions.
  - left. exists (stored s). by rewrite stored_saved.
Qed.

Lemma in_sync_listed (s : State) : in_sync s → in_sync (listed s).
Proof.
  intros [Hsess Hdata]. split; [exact Hsess|].
  destruct Hdata as [(docs & Hfile & Hdocs)|[Hfile Hacc]].
  - left. exists docs. split; [exact Hfile|].
    rewrite Hdocs. symmetry. apply listed_frame.
  - by right.
Qed.

(** X13. What is on disk is what is in memory for as long as no request
    raises [ValueError], which [save_data] does on an integer of more than
    4300 digits: the sessions document holds exactly the stored sessions,
    and the accounts document holds, for every stored account and in the
    same order, its [AccountRecord] keys (the files are absent only while
    the collection has always been empty).  This holds from the empty
    store, and is kept by every such request from any state where it
    holds. *)
Theorem documents_in_sync :
  in_sync empty_store
  ∧ (∀ s r, in_sync s → (main.handle r s).1 ≠ inl py.ValueError →
            in_sync (main.handle r s).2)
  ∧ (∀ s rs, in_sync s →
       Forall (λ response, response ≠ inl py.ValueError)
         (main.responses rs s) →
       in_sync (main.run rs s)).
Proof.
  split; [|split].
  - split; right; done.
  - intros s r.
    apply handle_preserves; [apply in_sync_listed|apply in_sync_written].
  - intros s rs.
    apply run_preserves; [apply in_sync_listed|apply in_sync_written].
Qed.

Lemma documents_in_sync_witness :
  let rs :=
    (alice_pays ++ [main.POST_add_payment 0 900 (cookie 1) 40])%list in
  let s := main.run rs empty_store in
  in_sync empty_store
  ∧ Forall (λ response, response ≠ inl py.ValueError)
      (main.responses rs empty_store)
  ∧ (SESSIONS_FILE s = Some (sessions s)
     ∨ SESSIONS_FILE s = None ∧ sessions s = ∅)
  ∧ ((∃ docs, DATA_FILE s = Parsed docs
              ∧ fields <$> docs = fields <$> stored s)
     ∨ DATA_FILE s = Missing ∧ accounts s = []).
Proof.
  intros rs s. destruct documents_in_sync as (Hempty & _ & Hrun).
  assert (Forall (λ response, response ≠ inl py.ValueError)
            (main.responses rs empty_store)) as Hall.
  { apply Forall_forall. intros response Hin. vm_compute in Hin.
    repeat (apply elem_of_cons in Hin as [->|Hin]; [discriminate|]).
    by apply elem_of_nil in Hin. }
  split; [exact Hempty|]. split; [exact Hall|].
  exact (Hrun empty_store rs Hempty Hall).
Defined.

(* ===================================================================== *)
(** ** Start-up *)
(* ===================================================================== *)

Lemma in_sync_run (rs : list main.Request) :
  Forall (λ response, response ≠ inl py.ValueError)
    (main.responses rs empty_store) →
  in_sync (main.run rs empty_store).
Proof.
  apply run_preserves; [apply in_sync_listed|apply in_sync_written|].
  split; right; done.
Qed.

(** The dicts read back through the references [load_data] makes. *)
Lemma loaded_stored (h docs : list Dict) :
  (λ r, (h ++ docs)%list !!! r) <$> seq (length h) (length docs) = docs.
Proof.
  apply list_eq. intros i. rewrite list_lookup_fmap.
  destruct (decide (i < length docs)%nat) as [Hlt|Hge].
  - rewrite lookup_seq_lt by done. simpl.
    destruct (lookup_lt_is_Some_2 docs i Hlt) as [d Hd]. rewrite Hd. f_equal.
    rewrite lookup_total_app_r by lia.
    replace (length h + i - length h)%nat with i by lia.
    by apply list_lookup_total_correct.
  - rewrite lookup_seq_ge by lia. simpl. symmetry.
    apply lookup_ge_None. lia.
Qed.

Lemma init_eq (data : Document (option (list Dict)))
  (sessions_data : Document (gmap string UserSession)) (now : string → Z)
  (s : State) :
  __init__ data sessions_data now s
  = (inr tt,
     let loaded := match data with
                   | Parsed (Some docs) => docs
                   | _ => []
                   end in
     {| heap := (heap s ++ loaded)%list;
        accounts := seq (length (heap s)) (length loaded);
        sessions :=
          match sessions_data with
          | Parsed m =>
              filter (λ kv, (now kv.1 - login_time kv.2
                             <? py.timedelta_hours 24) = true) m
          | _ => ∅
          end;
        DATA_FILE := DATA_FILE s; SESSIONS_FILE := SESSIONS_FILE s;
        saves := saves s |}).
Proof.
  unfold __init__, load_data. unfold_M.
  destruct data as [| |[docs|]], sessions_data as [| |m];
    cbn [default set_heap set_accounts set_sessions heap accounts sessions
         DATA_FILE SESSIONS_FILE saves length seq];
    by rewrite ?app_nil_r.
Qed.

(** X14. [Database()] never fails and never writes: a missing or
    unreadable file gives an empty collection, and one file does not
    affect the other.  From a readable accounts document the store holds
    exactly the documented records, in order, as new objects (no dict
    twice, every reference live); from a readable sessions document it
    keeps exactly the sessions younger than 24 hours at the reading taken
    for each of them. *)
Theorem startup_outcome (data : Document (option (list Dict)))
  (sessions_data : Document (gmap string UserSession)) (now : string → Z)
  (s : State) :
  let out := __init__ data sessions_data now s in
  out.1 = inr tt
  ∧ stored out.2 = match data with
                   | Parsed (Some docs) => docs
                   | _ => []
                   end
  ∧ well_formed out.2
  ∧ (∀ sid session,
       sessions out.2 !! sid = Some session
       ↔ ∃ m, sessions_data = Parsed m ∧ m !! sid = Some session
              ∧ now sid - login_time session < py.timedelta_hours 24)
  ∧ DATA_FILE out.2 = DATA_FILE s
  ∧ SESSIONS_FILE out.2 = SESSIONS_FILE s
  ∧ saves out.2 = saves s.
Proof.
  intros out. subst out. rewrite init_eq. cbv zeta. cbn [fst snd].
  split; [done|]. split; [|split; [|split; [|done]]].
  - unfold stored, deref. cbn [heap accounts]. apply loaded_stored.
  - split; cbn [heap accounts].
    + apply Forall_forall. intros r Hr. apply elem_of_seq in Hr.
      rewrite length_app. lia.
    + apply NoDup_seq.
  - intros sid session. cbn [sessions].
    destruct sessions_data as [| |m].
    + rewrite lookup_empty. split; [done|]. by intros (m & [=] & _).
    + rewrite lookup_empty. split; [done|]. by intros (m & [=] & _).
    + rewrite map_lookup_filter_Some. cbn [fst snd]. rewrite Z.ltb_lt. split.
      * intros [Hm Hlt]. by exists m.
      * by intros (m' & [= <-] & Hm & Hlt).
Qed.

(** An unreadable sessions file next to a readable accounts document. *)
Lemma startup_outcome_witness :
  let d := dict {| account_code := "1001"; account_name := "平安保险养老金";
                   total_amount := 1000; manager := "alice";
                   created_time := 10; paid_amounts := [400];
                   locked := false |} in
  let out := __init__ (Parsed (Some [d])) Unreadable (λ _, 0) empty_store in
  stored out.2 = [d]
  ∧ sessions out.2 !! py.str_uuid 1 = None.
Proof.
  intros d out.
  destruct (startup_outcome (Parsed (Some [d])) Unreadable (λ _, 0)
              empty_store) as (_ & Hstored & _ & Hsessions & _).
  split; [exact Hstored|].
  destruct (sessions out.2 !! py.str_uuid 1) as [x|] eqn:Hx; [|reflexivity].
  apply Hsessions in Hx as (m & H & _). discriminate H.
Defined.

Lemma restart_eq (now : string → Z) (s : State) :
  restart now s
  = let loaded := match DATA_FILE s with
                  | Parsed docs => docs
                  | _ => []
                  end in
    {| heap := loaded;
       accounts := seq 0 (length loaded);
       sessions :=
         match SESSIONS_FILE s with
         | Some m =>
             filter (λ kv, (now kv.1 - login_time kv.2
                            <? py.timedelta_hours 24) = true) m
         | None => ∅
         end;
       DATA_FILE := DATA_FILE s; SESSIONS_FILE := SESSIONS_FILE s;
       saves := saves s |}.
Proof.
  unfold restart. rewrite init_eq. unfold read_data, read_sessions.
  by destruct (DATA_FILE s), (SESSIONS_FILE s).
Qed.

(** X15. Stopping the process while the documents hold what the store
    holds (see X13) and starting it again loses no ledger data: the new
    store holds the same accounts in the same order with the same
    [AccountRecord] keys, and exactly the sessions that are younger than
    24 hours at start-up; viewer sessions still carry the viewer's name;
    nothing is written.  Right after a [save_data] that went through the
    dicts come back exactly as they were dumped. *)
Theorem restart_keeps_ledger (now : string → Z) (s : State) :
  in_sync s →
  let s' := restart now s in
  fields <$> stored s' = fields <$> stored s
  ∧ well_formed s'
  ∧ (∀ sid session,
       sessions s' !! sid = Some session
       ↔ sessions s !! sid = Some session
         ∧ now sid - login_time session < py.timedelta_hours 24)
  ∧ (viewers_named s → viewers_named s')
  ∧ (DATA_FILE s = Parsed (stored s) → stored s' = stored s)
  ∧ DATA_FILE s' = DATA_FILE s
  ∧ SESSIONS_FILE s' = SESSIONS_FILE s
  ∧ saves s' = saves s.
Proof.
  intros [Hsess Hdata] s'. subst s'. rewrite restart_eq. cbv zeta.
  set (loaded := match DATA_FILE s with
                 | Parsed docs => docs
                 | _ => []
                 end).
  assert (∀ docs, stored {| heap := docs; accounts := seq 0 (length docs);
                            sessions := ∅; DATA_FILE := Missing;
                            SESSIONS_FILE := None; saves := 0 |} = docs)
    as Hload by (intros docs; apply (loaded_stored [] docs)).
  assert (∀ sid session,
            match SESSIONS_FILE s with
            | Some m =>
                filter (λ kv, (now kv.1 - login_time kv.2
                               <? py.timedelta_hours 24) = true) m
            | None => ∅
            end !! sid = Some session
            ↔ sessions s !! sid = Some session
              ∧ now sid - login_time session < py.timedelta_hours 24)
    as Hkept.
  { intros sid session. destruct Hsess as [->|[-> ->]].
    - rewrite map_lookup_filter_Some. cbn [fst snd]. by rewrite Z.ltb_lt.
    - rewrite lookup_empty. split; [done|]. by intros [? _]. }
  split; [|split; [|split; [|split; [|split; [|done]]]]].
  - change (fields <$> stored {| heap := loaded;
              accounts := seq 0 (length loaded);
              sessions := ∅; DATA_FILE := Missing; SESSIONS_FILE := None;
              saves := 0 |} = fields <$> stored s).
    rewrite Hload. subst loaded.
    destruct Hdata as [(docs & -> & Hdocs)|[-> Hacc]]; [done|].
    unfold stored. by rewrite Hacc.
  - split; cbn [heap accounts].
    + apply Forall_forall. intros r Hr. apply elem_of_seq in Hr. lia.
    + apply NoDup_seq.
  - exact Hkept.
  - intros Hnamed sid session Hs. cbn [sessions] in Hs.
    apply Hkept in Hs as [Hs _]. by apply (Hnamed sid).
  - intros Hfile.
    change (stored {| heap := loaded;
              accounts := seq 0 (length loaded);
              sessions := ∅; DATA_FILE := Missing; SESSIONS_FILE := None;
              saves := 0 |} = stored s).
    rewrite Hload. subst loaded. by rewrite Hfile.
Qed.

Lemma restart_keeps_ledger_witness :
  let s := main.run alice_pays empty_store in
  let s' := restart (λ _, 86400000000) s in
  in_sync s
  ∧ fields <$> stored s' = fields <$> stored s
  ∧ sessions s' !! py.str_uuid 1 = None.
Proof.
  intros s s'.
  assert (in_sync s) as Hsync.
  { apply in_sync_run, Forall_forall. intros response Hin.
    vm_compute in Hin.
    repeat (apply elem_of_cons in Hin as [->|Hin]; [discriminate|]).
    by apply elem_of_nil in Hin. }
  split; [exact Hsync|].
  destruct (restart_keeps_ledger (λ _, 86400000000) s Hsync)
    as (Hfields & _ & Hkept & _).
  split; [exact Hfields|].
  destruct (sessions s' !! py.str_uuid 1) as [x|] eqn:Hx; [|reflexivity].
  apply Hkept in Hx as [Hs Hlt].
  assert (sessions s !! py.str_uuid 1
          = Some {| username := "alice"; is_viewer := false;
                    login_time := 0 |}) as Halice
    by (vm_compute; reflexivity).
  rewrite Halice in Hs. injection Hs as <-.
  vm_compute in Hlt. discriminate Hlt.
Defined.

(* ===================================================================== *)
(** ** What is never rewritten *)
(* ===================================================================== *)

Lemma grown_refl (a : AccountRecord) : grown a a.
Proof. by repeat split. Qed.

Lemma grown_trans (a b c : AccountRecord) : grown a b → grown b c → grown a c.
Proof.
  intros (? & ? & ? & ? & ? & ?) (? & ? & ? & ? & ? & ?).
  repeat split; try congruence. by etrans.
Qed.

Lemma ledger_grown_refl (s : State) : ledger_grown s s.
Proof. intros r d Hd. exists d. split; [done|apply grown_refl]. Qed.

Lemma ledger_grown_trans (s1 s2 s3 : State) :
  ledger_grown s1 s2 → ledger_grown s2 s3 → ledger_grown s1 s3.
Proof.
  intros H12 H23 r d Hd.
  destruct (H12 r d Hd) as (d2 & Hd2 & Hg2).
  destruct (H23 r d2 Hd2) as (d3 & Hd3 & Hg3).
  exists d3. split; [done|]. by apply grown_trans with (fields d2).
Qed.

Lemma ledger_grown_alter (s : State) (f : Dict → Dict) (r : ref) :
  (∀ d, grown (fields d) (fields (f d))) →
  ledger_grown s (set_heap (alter f r (heap s)) s).
Proof.
  intros Hf r' d Hd. cbn [set_heap heap]. rewrite list_lookup_alter.
  case_decide as Heq.
  - subst r'. rewrite Hd. eexists. split; [done|]. apply Hf.
  - exists d. split; [done|apply grown_refl].
Qed.

Lemma ledger_grown_same_heap (s s' : State) :
  heap s' = heap s → ledger_grown s s'.
Proof.
  intros Hheap r d Hd. exists d. rewrite Hheap. split; [done|apply grown_refl].
Qed.

Lemma ledger_grown_mutation (s s' : State) :
  mutation s s' → ledger_grown s s'.
Proof.
  destruct 1 as [s|s|s sid|s u sess _|s a _|s i|s r amount _ _|s r b _].
  - apply ledger_grown_same_heap. apply saved_frame.
  - intros r d Hd. cbn [set_heap heap]. rewrite compute_remaining_lookup, Hd.
    case_decide; eexists; (split; [done|apply grown_refl]).
  - by apply ledger_grown_same_heap.
  - by apply ledger_grown_same_heap.
  - intros r d Hd. exists d. split; [|apply grown_refl].
    cbn [set_accounts set_heap heap]. by apply lookup_app_l_Some.
  - by apply ledger_grown_same_heap.
  - apply ledger_grown_alter. intros d. repeat split. cbn.
    by apply prefix_app_r.
  - apply ledger_grown_alter. intros d. by repeat split.
Qed.

(** X16. Whatever requests are served, a record that exists is never
    rewritten: its code, name, total amount, manager and creation time
    stay as they were, and its payments only grow at the end (none is
    removed or changed).  A deletion takes the record out of the listing
    without touching it. *)
Theorem records_only_grow (s : State) (rs : list main.Request) (r : ref)
  (d : Dict) :
  heap s !! r = Some d →
  ∃ d', heap (main.run rs s) !! r = Some d'
        ∧ account_code (fields d') = account_code (fields d)
        ∧ account_name (fields d') = account_name (fields d)
        ∧ total_amount (fields d') = total_amount (fields d)
        ∧ manager (fields d') = manager (fields d)
        ∧ created_time (fields d') = created_time (fields d)
        ∧ paid_amounts (fields d) `prefix_of` paid_amounts (fields d').
Proof.
  assert (ledger_grown s (main.run rs s)) as Hgrown.
  { induction (run_mutations rs s) as [|s1 s2 s3 H12 _ IH].
    - apply ledger_grown_refl.
    - eapply ledger_grown_trans; [by apply ledger_grown_mutation|done]. }
  intros Hd. destruct (Hgrown r d Hd) as (d' & Hd' & Hg). by exists d'.
Qed.

Lemma records_only_grow_witness :
  let s := main.run alice_creates empty_store in
  let rs := [ main.POST_add_payment 0 400 (cookie 1) 20;
              main.POST_toggle_lock 0 (cookie 1) 30;
              main.POST_delete_account 0 (cookie 1) 40 ] in
  (∃ d, heap s !! 0%nat = Some d ∧ paid_amounts (fields d) = [])
  ∧ accounts (main.run rs s) = []
  ∧ ∃ d', heap (main.run rs s) !! 0%nat = Some d'
          ∧ manager (fields d') = "alice"
          ∧ total_amount (fields d') = 1000.
Proof.
  intros s rs.
  assert (heap s !! 0%nat
          = Some (dict {| account_code := "1001";
                          account_name := "平安保险养老金";
                          total_amount := 1000; manager := "alice";
                          created_time := 10; paid_amounts := [];
                          locked := false |})) as Hd
    by (vm_compute; reflexivity).
  split; [by eexists|]. split; [vm_compute; reflexivity|].
  destruct (records_only_grow s rs 0%nat _ Hd)
    as (d' & Hd' & _ & _ & Htotal & Hmanager & _).
  exists d'. split; [exact Hd'|]. split; [exact Hmanager|exact Htotal].
Defined.

(* ===================================================================== *)
(** ** Reading twice, replacing, removing *)
(* ===================================================================== *)

Lemma compute_remaining_idemp (refs : list ref) (h : list Dict) :
  compute_remaining refs (compute_remaining refs h) = compute_remaining refs h.
Proof.
  apply list_eq. intros r. rewrite !compute_remaining_lookup.
  case_decide; [|done]. by destruct (h !! r).
Qed.

(** X17. [get_all_accounts] returns the accounts of the store in storage
    order and never writes to disk, and calling it a second time returns
    the same list and changes nothing more. *)
Theorem listing_twice (s : State) :
  let once := get_all_accounts s in
  let twice := get_all_accounts once.2 in
  once.1 = inr (accounts s)
  ∧ twice = once
  ∧ accounts once.2 = accounts s
  ∧ sessions once.2 = sessions s
  ∧ DATA_FILE once.2 = DATA_FILE s
  ∧ SESSIONS_FILE once.2 = SESSIONS_FILE s
  ∧ saves once.2 = saves s.
Proof.
  intros once twice. subst twice once. rewrite !get_all_accounts_eq.
  cbn [fst snd set_heap heap accounts].
  split; [done|]. split; [|done]. f_equal.
  unfold set_heap. cbn [heap accounts sessions DATA_FILE SESSIONS_FILE saves].
  by rewrite compute_remaining_idemp.
Qed.

(** X18. [update_account] with an index in range puts the given dict at
    that position and calls [save_data]: the number of accounts is the
    same, the other positions hold what they held, and no dict is changed;
    both documents are rewritten when every integer of the dicts now
    stored has at most 4300 digits, and otherwise [ValueError] is raised
    with the accounts document cut short. *)
Theorem update_account_in_range (s : State) (index : Z) (account_data : ref) :
  0 ≤ index < Z.of_nat (length (accounts s)) →
  let out := update_account index account_data s in
  length (accounts out.2) = length (accounts s)
  ∧ stored out.2 !! Z.to_nat index = Some (deref s account_data)
  ∧ (∀ j, j ≠ Z.to_nat index → stored out.2 !! j = stored s !! j)
  ∧ heap out.2 = heap s ∧ sessions out.2 = sessions s
  ∧ write_outcome tt s out.
Proof.
  intros Hi out. subst out.
  rewrite update_account_eq, save_data_after_save by done.
  rewrite after_save_snd, saved_accounts, saved_heap, saved_sessions,
    stored_saved.
  split; [apply length_insert|].
  split; [|split; [|split; [done|split; [done|]]]].
  - unfold stored. cbn [accounts set_accounts].
    rewrite list_lookup_fmap, list_lookup_insert_eq by lia. done.
  - intros j Hj. unfold stored. cbn [accounts set_accounts].
    rewrite !list_lookup_fmap, list_lookup_insert_ne by done. done.
  - by apply after_save_write_outcome.
Qed.

Lemma update_account_in_range_witness :
  let s := main.run (alice_creates
                     ++ [main.POST_add_account "1002" 50 (cookie 1) 20 20])
             empty_store in
  0 ≤ 0 < Z.of_nat (length (accounts s))
  ∧ stored (update_account 0 1%nat s).2 !! Z.to_nat 0 = Some (deref s 1%nat)
  ∧ length (accounts (update_account 0 1%nat s).2) = length (accounts s)
  ∧ writable (update_account 0 1%nat s).2
  ∧ (update_account 0 1%nat s).1 = inr tt.
Proof.
  intros s.
  assert (0 ≤ 0 < Z.of_nat (length (accounts s))) as Hi
    by (vm_compute; split; [intros H|]; [discriminate H|reflexivity]).
  assert (writable (update_account 0 1%nat s).2) as Hw
    by (vm_compute; reflexivity).
  split; [exact Hi|].
  destruct (update_account_in_range s 0 1%nat Hi)
    as (Hlen & Hat & _ & _ & _ & Hok & _).
  split; [exact Hat|]. split; [exact Hlen|]. split; [exact Hw|].
  exact (proj1 (Hok Hw)).
Defined.

(** X19. After a deletion that goes through, the listing is one account
    shorter: the accounts before the index are where they were, those after
    it have moved down by one, each with the [AccountRecord] keys it had. *)
Theorem deletion_shifts_indices (s : State) (session_id : option string)
  (now : Z) (session : UserSession) (idx : Z) (r : ref) :
  well_formed s →
  (main.get_session session_id now s).1 = inr (Some session) →
  0 ≤ idx → accounts s !! Z.to_nat idx = Some r →
  username session = manager (fields (deref s r)) ∨ is_viewer session = true →
  let out := main.delete_account idx session_id now s in
  S (length (stored out.2)) = length (stored s)
  ∧ (∀ j, (j < Z.to_nat idx)%nat →
          fields <$> stored out.2 !! j = fields <$> stored s !! j)
  ∧ (∀ j, (Z.to_nat idx ≤ j)%nat →
          fields <$> stored out.2 !! j = fields <$> stored s !! S j).
Proof.
  intros Hwf Hres H0 Hr Hallowed out.
  destruct (delete_account_outcome s session_id now session idx r
              Hwf Hres H0 Hr) as (_ & Hok & _).
  destruct (Hok Hallowed) as (Hstored & _). fold out in Hstored.
  assert (Z.to_nat idx < length (stored s))%nat as Hlt.
  { unfold stored. rewrite length_fmap. by apply lookup_lt_Some in Hr. }
  rewrite Hstored. split; [|split].
  - rewrite length_delete, length_fmap; [lia|].
    apply lookup_lt_is_Some. by rewrite length_fmap.
  - intros j Hj. rewrite list_lookup_delete_lt, list_lookup_fmap by done.
    by destruct (stored s !! j).
  - intros j Hj. rewrite list_lookup_delete_ge, list_lookup_fmap by done.
    by destruct (stored s !! S j).
Qed.

Lemma deletion_shifts_indices_witness :
  let s := main.run (alice_creates
                     ++ [main.POST_add_account "1002" 50 (cookie 1) 20 20])
             empty_store in
  let out := main.delete_account 0 (cookie 1) 30 s in
  well_formed s
  ∧ accounts s !! Z.to_nat 0 = Some 0%nat
  ∧ S (length (stored out.2)) = length (stored s)
  ∧ fields <$> stored out.2 !! 0%nat = fields <$> stored s !! 1%nat.
Proof.
  intros s out.
  assert (well_formed s) as Hwf by (apply well_formed_run, well_formed_empty).
  assert (accounts s !! Z.to_nat 0 = Some 0%nat) as Hr
    by (vm_compute; reflexivity).
  assert ((main.get_session (cookie 1) 30 s).1
          = inr (Some {| username := "alice"; is_viewer := false;
                         login_time := 0 |})) as Hres
    by (vm_compute; reflexivity).
  assert (0 ≤ 0) as H0 by lia.
  assert ("alice" = manager (fields (deref s 0%nat))) as Hm
    by (vm_compute; reflexivity).
  split; [exact Hwf|]. split; [exact Hr|].
  destruct (deletion_shifts_indices s (cookie 1) 30 _ 0 0%nat
              Hwf Hres H0 Hr (or_introl Hm)) as (Hlen & _ & Hafter).
  split; [exact Hlen|]. apply (Hafter 0%nat). simpl. lia.
Defined.

(* ===================================================================== *)
(** ** Viewer mode *)
(* ===================================================================== *)

(** X20. Viewer mode restricts account creation only: [add_payment] and
    [toggle_lock] look at the user name of the session and at nothing else
    of it, so two resolved sessions with the same user name, viewer or not,
    get the same answer and leave the same state, for every index and
    amount.  In particular a viewer's payment on an account that is not
    locked is not refused when it does not exceed the remaining amount: it
    is appended to the payments and the call ends in [save_data]. *)
Theorem viewer_mode_not_checked (s : State) (sid sid' : option string)
  (now now' : Z) (session session' : UserSession) (idx amount : Z) :
  (main.get_session sid now s).1 = inr (Some session) →
  (main.get_session sid' now' s).1 = inr (Some session') →
  username session = username session' →
  main.add_payment idx amount sid now s
  = main.add_payment idx amount sid' now' s
  ∧ main.toggle_lock idx sid now s = main.toggle_lock idx sid' now' s
  ∧ (∀ r, 0 ≤ idx → accounts s !! Z.to_nat idx = Some r →
          locked (fields (deref s r)) = false →
          amount ≤ total_amount (fields (deref s r))
                   - py.sum (paid_amounts (fields (deref s r))) →
          let out := main.add_payment idx amount sid now s in
          write_outcome (main.RedirectResponse "/" 303 main.NoCookie) s out
          ∧ (well_formed s →
             stored out.2
             = alter (append_paid amount) (Z.to_nat idx)
                 (set_remaining <$> stored s))).
Proof.
  intros Hres Hres' Hname.
  destruct (get_session_Some _ _ _ _ Hres) as [Heq _].
  destruct (get_session_Some _ _ _ _ Hres') as [Heq' _].
  destruct (index_cases s idx) as [(H0 & r & Hr)|Hout].
  - split; [|split].
    + rewrite (add_payment_eq _ _ _ _ _ _ _ Heq H0 Hr),
        (add_payment_eq _ _ _ _ _ _ _ Heq' H0 Hr).
      by rewrite Hname.
    + rewrite (toggle_lock_handler_eq _ _ _ _ _ _ Heq H0 Hr),
        (toggle_lock_handler_eq _ _ _ _ _ _ Heq' H0 Hr).
      by rewrite Hname.
    + intros r' _ Hr' Hopen Hle out.
      assert (¬ (locked (fields (deref s r')) = true
                 ∧ manager (fields (deref s r')) ≠ username session))
        as Hlock by (rewrite Hopen; by intros [? _]).
      split.
      * subst out. rewrite (add_payment_eq _ _ _ _ _ _ _ Heq H0 Hr').
        cbv zeta. rewrite Hopen. cbn [andb].
        destruct (Z.gtb_spec amount
                    (total_amount (fields (deref s r'))
                     - py.sum (paid_amounts (fields (deref s r')))))
          as [Hgt|_]; [lia|]. by apply after_save_write_outcome.
      * intros Hwf.
        destruct (add_payment_outcome s sid now session idx amount r'
                    Hwf Hres H0 Hr' Hlock) as (_ & _ & Hok).
        by destruct (Hok Hle) as (Hstored & _).
  - destruct (handlers_not_found _ _ _ _ idx Heq Hout) as (Hp & -> & _).
    destruct (handlers_not_found _ _ _ _ idx Heq' Hout) as (Hp' & -> & _).
    rewrite Hp, Hp'. split; [done|]. split; [done|].
    intros r H0 Hr. destruct Hout. apply lookup_lt_Some in Hr. lia.
Qed.

Lemma viewer_mode_not_checked_witness :
  let s := main.run (alice_creates ++ [main.POST_login 2 "" true 15])
             empty_store in
  let alice := {| username := "alice"; is_viewer := false; login_time := 0 |} in
  let viewer :=
    {| username := main.VIEWER; is_viewer := true; login_time := 15 |} in
  (main.get_session (cookie 2) 20 s).1 = inr (Some viewer)
  ∧ writable (main.add_payment 0 400 (cookie 2) 20 s).2
  ∧ (main.add_payment 0 400 (cookie 2) 20 s).1
    = inr (main.RedirectResponse "/" 303 main.NoCookie).
Proof.
  intros s alice viewer.
  assert ((main.get_session (cookie 2) 20 s).1 = inr (Some viewer)) as Hres
    by (vm_compute; reflexivity).
  assert (writable (main.add_payment 0 400 (cookie 2) 20 s).2) as Hw
    by (vm_compute; reflexivity).
  split; [exact Hres|]. split; [exact Hw|].
  destruct (viewer_mode_not_checked s (cookie 2) (cookie 2) 20 20
              viewer viewer 0 400 Hres Hres eq_refl) as (_ & _ & Hpay).
  destruct (Hpay 0%nat) as [[Hok _] _].
  - lia.
  - vm_compute. reflexivity.
  - vm_compute. reflexivity.
  - vm_compute. intros H. discriminate H.
  - exact (proj1 (Hok Hw)).
Defined.
